(** * Shopify connector for Odoo: a shallow embedding of the sync code

    The development follows the Python sources of the connector:
    - [models/scheduler.py], [hooks.py]: the run-once scheduler guard;
    - [models/product.py], [models/partner.py], [models/order.py]:
      the paginated batch importers and their entity mappers;
    - [models/webhook.py]: the single-record webhook handler;
    - [models/discount.py]: the price-rule mapper.

    Python values are a small inductive type, dictionaries handed to the
    ORM are finite maps, the ORM itself is a keyed store of rows with a
    working copy and a committed copy, and every method that touches the
    store, the network or the logger is a function in a state-and-exception
    monad. *)

From Stdlib Require Import ZArith QArith Qabs String Ascii List Lia Bool.
From stdpp Require Import base option list strings gmap pretty.

Set Warnings "-register-all".

Local Open Scope string_scope.
Local Open Scope list_scope.
Local Open Scope Z_scope.

(** ** Python values *)

Module Py.

(** Decoded JSON and the scalars stored in ORM fields share one type.
    A JSON object keeps its pairs in document order, one pair per key as
    the decoder leaves them. A Python float is an
    exact rational: the code only parses, negates, takes absolute values
    and adds, and no statement below depends on rounding. *)
Inductive pyval : Type :=
| PNone
| PBool (b : bool)
| PInt (z : Z)
| PFloat (q : Q)
| PStr (s : string)
| PList (l : list pyval)
| PDict (d : list (string * pyval)).

(** Python truthiness, as used by [if x:] and [x or y]. *)
Definition truthy (v : pyval) : bool :=
  match v with
  | PNone => false
  | PBool b => b
  | PInt z => negb (z =? 0)
  | PFloat q => negb (Qnum q =? 0)
  | PStr s => negb (String.eqb s "")
  | PList l => match l with [] => false | _ => true end
  | PDict d => match d with [] => false | _ => true end
  end.

Definition py_or (a b : pyval) : pyval := if truthy a then a else b.

(** Exceptions the modelled code can raise or catch. *)
Inductive exn : Type :=
| KeyError (k : string)
| KeyErrorInt (i : Z)
| IndexError
| StringIndexError
| ValueError (s : string)
| TypeError (s : string)
| AttributeError (s : string)
| StorageError (s : string)
| UserError (msg : string).

(** [str(e)] *)
Definition exn_str (e : exn) : string :=
  match e with
  | KeyError k => "'" ++ k ++ "'"
  | KeyErrorInt i => pretty i
  | IndexError => "list index out of range"
  | StringIndexError => "string index out of range"
  | ValueError s => s
  | TypeError s => s
  | AttributeError s => s
  | StorageError s => s
  | UserError m => m
  end.

Inductive result (A : Type) : Type :=
| Return (a : A)
| Raise (e : exn).
Arguments Return {A} a.
Arguments Raise {A} e.

(** Association-list lookup: the first pair with the key. *)
Fixpoint assoc (k : string) (d : list (string * pyval)) : option pyval :=
  match d with
  | [] => None
  | (k', v) :: d' => if String.eqb k k' then Some v else assoc k d'
  end.

(** A JSON object, as the pairs of the decoded [dict]. *)
Definition dict : Type := list (string * pyval).

(** The name Python gives the type of a value in its error messages. *)
Definition type_name (v : pyval) : string :=
  match v with
  | PNone => "NoneType"
  | PBool _ => "bool"
  | PInt _ => "int"
  | PFloat _ => "float"
  | PStr _ => "str"
  | PList _ => "list"
  | PDict _ => "dict"
  end.

(** What [v.attr] raises when [v] has no such attribute. Of the values
    here only a dict has [get], only a string has [upper]. *)
Definition no_attribute (v : pyval) (attr : string) : exn :=
  AttributeError ("'" ++ type_name v ++ "' object has no attribute '" ++ attr ++ "'").

(** [d.get(k)] on a dict [d]: [None] when the key is missing. *)
Definition get (k : string) (d : dict) : pyval :=
  match assoc k d with Some x => x | None => PNone end.

(** [d.get(k, default)] on a dict [d]: the default only replaces a
    missing key, a key present with value [None] yields [None]. *)
Definition get_default (k : string) (default : pyval) (d : dict) : pyval :=
  match assoc k d with Some x => x | None => default end.

(** [v[k]] with a string [k]: a dict looks the key up, nothing else can
    be indexed by a string. *)
Definition index (k : string) (v : pyval) : result pyval :=
  match v with
  | PDict d => match assoc k d with Some x => Return x | None => Raise (KeyError k) end
  | PStr _ => Raise (TypeError "string indices must be integers, not 'str'")
  | PList _ => Raise (TypeError "list indices must be integers or slices, not str")
  | _ => Raise (TypeError ("'" ++ type_name v ++ "' object is not subscriptable"))
  end.

(** *** Sequences

    A decoded body can hold any JSON value where a list is expected, and
    the code goes on with [len], [v[0]], slices and [for]. A string then
    behaves as the list of its characters, each a string of length one,
    and an iteration over a dict yields its keys. *)
Fixpoint chars (s : string) : list pyval :=
  match s with
  | EmptyString => []
  | String c s' => PStr (String c EmptyString) :: chars s'
  end.

Definition keys (d : dict) : list pyval := List.map (fun kv => PStr (fst kv)) d.

(** [len(v)] *)
Definition len (v : pyval) : result nat :=
  match v with
  | PList l => Return (List.length l)
  | PStr s => Return (List.length (chars s))
  | PDict d => Return (List.length d)
  | _ => Raise (TypeError ("object of type '" ++ type_name v ++ "' has no len()"))
  end.

(** [for x in v]: the items the iteration yields. *)
Definition iterate (v : pyval) : result (list pyval) :=
  match v with
  | PList l => Return l
  | PStr s => Return (chars s)
  | PDict d => Return (keys d)
  | _ => Raise (TypeError ("'" ++ type_name v ++ "' object is not iterable"))
  end.

(** [v[0]]. The keys of a decoded object are strings, so [0] is never
    one of them. *)
Definition first_item (v : pyval) : result pyval :=
  match v with
  | PList (x :: _) => Return x
  | PList [] => Raise IndexError
  | PStr (String c _) => Return (PStr (String c EmptyString))
  | PStr EmptyString => Raise StringIndexError
  | PDict _ => Raise (KeyErrorInt 0)
  | _ => Raise (TypeError ("'" ++ type_name v ++ "' object is not subscriptable"))
  end.

(** [str(v)]. The connector applies it to identifiers, which are integers
    or already strings; a float prints here by its integer part, and the
    containers by a placeholder. *)
Definition str (v : pyval) : string :=
  match v with
  | PNone => "None"
  | PBool true => "True"
  | PBool false => "False"
  | PInt z => pretty z
  | PFloat q => pretty (Qnum q / Zpos (Qden q)) ++ ".0"
  | PStr s => s
  | PList _ => "[...]"
  | PDict _ => "{...}"
  end.

(** *** [float(...)] on the decimal literals the API sends *)

Definition digit_of (c : ascii) : option Z :=
  let n := Z.of_nat (nat_of_ascii c) in
  if (48 <=? n) && (n <=? 57) then Some (n - 48) else None.

(** Reads digits; returns the value, the number of digits read and the rest. *)
Fixpoint read_digits (s : string) (acc : Z) (count : nat) : Z * nat * string :=
  match s with
  | EmptyString => (acc, count, EmptyString)
  | String c s' =>
      match digit_of c with
      | Some d => read_digits s' (10 * acc + d) (S count)
      | None => (acc, count, s)
      end
  end.

(** An unsigned decimal: digits, optionally a point and more digits, with
    at least one digit overall and nothing after. *)
Definition parse_unsigned (s : string) : option Q :=
  let '(ip, n1, rest) := read_digits s 0 0 in
  match rest with
  | EmptyString => if Nat.eqb n1 0 then None else Some (inject_Z ip)
  | String "."%char frac =>
      let '(fp, n2, rest') := read_digits frac 0 0 in
      match rest' with
      | EmptyString =>
          if Nat.eqb (n1 + n2) 0 then None
          else Some (Qred (Qmake (ip * 10 ^ Z.of_nat n2 + fp) (Z.to_pos (10 ^ Z.of_nat n2))))
      | _ => None
      end
  | _ => None
  end.

Definition parse_float (s : string) : option Q :=
  match s with
  | String "-"%char s' => option_map Qopp (parse_unsigned s')
  | String "+"%char s' => parse_unsigned s'
  | _ => parse_unsigned s
  end.

(** [float(v)]: numbers convert, strings are parsed, anything else is a
    [TypeError]. Exponents, infinities and surrounding blanks, which Python
    also accepts, are not part of the model: such a string is a
    [ValueError] here. *)
Definition float (v : pyval) : result Q :=
  match v with
  | PInt z => Return (inject_Z z)
  | PFloat q => Return q
  | PBool b => Return (inject_Z (if b then 1 else 0))
  | PStr s => match parse_float s with
              | Some q => Return q
              | None => Raise (ValueError ("could not convert string to float: " ++ s))
              end
  | _ => Raise (TypeError ("float() argument must be a string or a real number, not '"
                           ++ type_name v ++ "'"))
  end.

(** [int(v)] on the values the mappers pass. *)
Definition int (v : pyval) : result Z :=
  match v with
  | PInt z => Return z
  | PBool b => Return (if b then 1 else 0)
  | PFloat q => Return (Z.quot (Qnum q) (Zpos (Qden q)))
  | PStr s => match parse_float s with
              | Some q => if (Zpos (Qden q) =? 1) then Return (Qnum q)
                          else Raise (ValueError "invalid literal for int()")
              | None => Raise (ValueError "invalid literal for int()")
              end
  | _ => Raise (TypeError ("int() argument must be a string, a bytes-like object or a "
                           ++ "real number, not '" ++ type_name v ++ "'"))
  end.

(** Structural equality test on values, used for ORM domains. *)
Fixpoint eqb (a b : pyval) : bool :=
  match a, b with
  | PNone, PNone => true
  | PBool x, PBool y => Bool.eqb x y
  | PInt x, PInt y => x =? y
  | PFloat x, PFloat y => Qeq_bool x y
  | PStr x, PStr y => String.eqb x y
  | PList x, PList y =>
      (fix go (l1 l2 : list pyval) : bool :=
         match l1, l2 with
         | [], [] => true
         | u :: l1', w :: l2' => eqb u w && go l1' l2'
         | _, _ => false
         end) x y
  | PDict x, PDict y =>
      (fix go (l1 l2 : list (string * pyval)) : bool :=
         match l1, l2 with
         | [], [] => true
         | (k1, u) :: l1', (k2, w) :: l2' => String.eqb k1 k2 && eqb u w && go l1' l2'
         | _, _ => false
         end) x y
  | _, _ => false
  end.

End Py.

Import Py.

(** ** The store, the network and the logger *)

Module Orm.

(** A row of a model's table: its database id and its field values. *)
Record row : Type := Row { row_id : nat; row_vals : gmap string pyval }.

(** Reading a field that was never written gives the falsy default. *)
Definition field (k : string) (r : row) : pyval := default PNone (row_vals r !! k).

(** A search domain is a conjunction of [(field, '=', value)] leaves. *)
Definition matches (domain : list (string * pyval)) (r : row) : bool :=
  forallb (fun kv => Py.eqb (field (fst kv) r) (snd kv)) domain.

Record request : Type := Request { req_url : string; req_params : gmap string pyval }.

Record response : Type := Response {
  status_code : Z;
  json : result pyval;          (* response.json(): the decoded body, or what the decoder raises *)
  text : string;                (* response.text *)
  link_header : option string   (* response.headers.get('Link') *)
}.

(** Everything a method can read or change. [working] is what the open
    cursor sees, [committed] what the last successful commit made durable.
    [commit_faults] scripts the storage layer: the head says whether the
    next commit raises. [upstream] is the remote API and [date_parse] the
    external date library, both as oracles. [journal] keeps every
    [write] call: model, row id and the dictionary written. *)
Record env : Type := Env {
  working : gmap string (list row);
  committed : gmap string (list row);
  next_id : nat;
  commit_faults : list bool;
  upstream : request -> response;
  date_parse : string -> option string;
  clock : string;
  http_log : list request;
  logger : list (string * string);
  journal : list (string * nat * gmap string pyval)
}.

Definition set_working (w : gmap string (list row)) (e : env) : env :=
  Env w (committed e) (next_id e) (commit_faults e) (upstream e) (date_parse e)
      (clock e) (http_log e) (logger e) (journal e).

Definition table (model : string) (e : env) : list row :=
  default [] (working e !! model).

Definition durable (model : string) (e : env) : list row :=
  default [] (committed e !! model).

(** State and exceptions: a raised exception keeps the effects made so far,
    as in Python. *)
Definition M (A : Type) : Type := env -> result A * env.

Definition ret {A} (a : A) : M A := fun e => (Return a, e).
Definition raise {A} (x : exn) : M A := fun e => (Raise x, e).
Definition bind {A B} (m : M A) (k : A -> M B) : M B :=
  fun e => match m e with
           | (Return a, e') => k a e'
           | (Raise x, e') => (Raise x, e')
           end.
Definition lift {A} (r : result A) : M A := fun e => (r, e).

(** [try: body except Exception as x: handler x] *)
Definition try_except {A} (body : M A) (handler : exn -> M A) : M A :=
  fun e => match body e with
           | (Return a, e') => (Return a, e')
           | (Raise x, e') => handler x e'
           end.

Definition log (level msg : string) : M unit :=
  fun e => (Return tt,
            Env (working e) (committed e) (next_id e) (commit_faults e) (upstream e)
                (date_parse e) (clock e) (http_log e) (logger e ++ [(level, msg)]) (journal e)).

(** [requests.get(url, headers=..., params=params)]: the request is
    recorded, the oracle answers. Headers and time-outs are the same on
    every call and are left out. *)
Definition requests_get (url : string) (params : gmap string pyval) : M response :=
  fun e => let rq := Request url params in
           (Return (upstream e rq),
            Env (working e) (committed e) (next_id e) (commit_faults e) (upstream e)
                (date_parse e) (clock e) (http_log e ++ [rq]) (logger e) (journal e)).

(** Field defaults the host models give a new row. The connector relies on
    one of them: a new [sale.order] starts in state [draft]. *)
Definition defaults (model : string) : gmap string pyval :=
  if String.eqb model "sale.order" then {[ "state" := PStr "draft" ]} else ∅.

(** [Model.search(domain, limit=1)]: the first matching row, if any. *)
Definition search (model : string) (domain : list (string * pyval)) : M (option row) :=
  fun e => (Return (head (List.filter (matches domain) (table model e))), e).

(** [Model.create(vals)]: a fresh id, the given values over the defaults. *)
Definition create (model : string) (vals : gmap string pyval) : M row :=
  fun e => let r := Row (next_id e) (vals ∪ defaults model) in
           (Return r,
            Env (<[model := table model e ++ [r]]> (working e)) (committed e)
                (S (next_id e)) (commit_faults e) (upstream e) (date_parse e)
                (clock e) (http_log e) (logger e) (journal e)).

Definition write_row (id : nat) (vals : gmap string pyval) (r : row) : row :=
  if Nat.eqb (row_id r) id then Row id (vals ∪ row_vals r) else r.

(** [record.write(vals)] on the row with the given id. *)
Definition write (model : string) (id : nat) (vals : gmap string pyval) : M unit :=
  fun e => (Return tt,
            Env (<[model := List.map (write_row id vals) (table model e)]> (working e))
                (committed e) (next_id e) (commit_faults e) (upstream e) (date_parse e)
                (clock e) (http_log e) (logger e) (journal e ++ [(model, id, vals)])).

(** [Model.search(domain)] without a limit: every matching row. *)
Definition search_all (model : string) (domain : list (string * pyval)) : M (list row) :=
  fun e => (Return (List.filter (matches domain) (table model e)), e).

(** [records.write(vals)] on a record set: the same values on each row. *)
Fixpoint write_all (model : string) (records : list row) (vals : gmap string pyval) : M unit :=
  match records with
  | [] => fun e => (Return tt, e)
  | r :: rest => fun e => write_all model rest vals (snd (write model (row_id r) vals e))
  end.

(** [self.env.cr.commit()] *)
Definition commit : M unit :=
  fun e => match commit_faults e with
           | true :: rest =>
               (Raise (StorageError "commit failed"),
                Env (working e) (committed e) (next_id e) rest (upstream e)
                    (date_parse e) (clock e) (http_log e) (logger e) (journal e))
           | _ =>
               (Return tt,
                Env (working e) (working e) (next_id e) (tail (commit_faults e)) (upstream e)
                    (date_parse e) (clock e) (http_log e) (logger e) (journal e))
           end.

(** [self.env.cr.rollback()] *)
Definition rollback : M unit :=
  fun e => (Return tt, set_working (committed e) e).

(** [fields.Datetime.now()] *)
Definition datetime_now : M pyval := fun e => (Return (PStr (clock e)), e).

End Orm.

Import Orm.

Declare Scope monad_scope.
Delimit Scope monad_scope with monad.
Notation "'let*' x ':=' m 'in' k" := (bind m (fun x => k))
  (at level 10, x pattern, m at level 100, k at level 200) : monad_scope.
Notation "m ';;' k" := (bind m (fun _ => k))
  (at level 100, k at level 200, right associativity) : monad_scope.
Local Open Scope monad_scope.

(** ** Shared pieces of the importers *)

Record instance : Type := Instance {
  inst_id : nat;
  inst_base_url : string;        (* instance._get_base_url() *)
  inst_currency : option nat     (* instance.currency_id *)
}.

Definition id_val (n : nat) : pyval := PInt (Z.of_nat n).

(** [_parse_shopify_datetime]: falsy input and parse failures give [False]. *)
Definition _parse_shopify_datetime (v : pyval) : M pyval :=
  fun e => (Return (if truthy v
                    then match v with
                         | PStr s => match date_parse e s with
                                     | Some d => PStr d
                                     | None => PBool false
                                     end
                         | _ => PBool false
                         end
                    else PBool false), e).

(** [float(x) if x else dflt], the guard the mappers put around prices. *)
Definition float_or (dflt : Q) (v : pyval) : result Q :=
  if truthy v then Py.float v else Return dflt.

(** *** String operations of the Link-header parsing *)

(** [needle in hay] *)
Fixpoint contains (needle hay : string) : bool :=
  String.prefix needle hay ||
  match hay with
  | EmptyString => false
  | String _ hay' => contains needle hay'
  end.

(** [s.split(sep)] for a non-empty separator: [skip] counts the characters
    of a separator just matched that are still to be dropped, [cur] is the
    piece being read. *)
Fixpoint split_aux (sep s : string) (skip : nat) (cur : string) : list string :=
  match s with
  | EmptyString => [cur]
  | String c s' =>
      match skip with
      | S k => split_aux sep s' k cur
      | O => if String.prefix sep s
             then cur :: split_aux sep s' (String.length sep - 1) EmptyString
             else split_aux sep s' O (cur ++ String c EmptyString)
      end
  end.

Definition split (sep s : string) : list string := split_aux sep s O EmptyString.

(** The text [rel="next"]. *)
Definition rel_next : string :=
  "rel=" ++ String "034"%char ("next" ++ String "034"%char EmptyString).

(** [link.split('page_info=')[1].split('>')[0]] *)
Definition extract_page_info (link : string) : result string :=
  match split "page_info=" link with
  | _ :: after :: _ => Return (hd EmptyString (split ">" after))
  | _ => Raise IndexError
  end.

(** The [for link in link_header.split(','): ... break] loop: the token of
    the first link that carries [rel="next"]; [None] when the loop ends
    without a hit, which leaves [page_info] as it was. *)
Fixpoint first_next_link (links : list string) : result (option string) :=
  match links with
  | [] => Return None
  | link :: rest =>
      if contains rel_next link
      then match extract_page_info link with
           | Return tok => Return (Some tok)
           | Raise x => Raise x
           end
      else first_next_link rest
  end.

(** The pagination check after a page: [None] stands for [break],
    [Some p] for going round again with [page_info = p]. *)
Definition next_page (resp : response) (page_info : pyval) : result (option pyval) :=
  let link_header := default EmptyString (link_header resp) in
  if contains rel_next link_header
  then match first_next_link (split "," link_header) with
       | Return (Some tok) => Return (Some (PStr tok))
       | Return None => Return (Some page_info)
       | Raise x => Raise x
       end
  else Return None.

(** [range(0, len(l), n)] with [l[i:i + n]]: the list cut into pieces of
    [n], the last one shorter. *)
Fixpoint chunks_aux {A} (fuel n : nat) (l : list A) : list (list A) :=
  match fuel with
  | O => []
  | S fuel' =>
      match l with
      | [] => []
      | _ => take n l :: chunks_aux fuel' n (drop n l)
      end
  end.

Definition chunks {A} (n : nat) (l : list A) : list (list A) :=
  chunks_aux (List.length l) n l.

(** [v[i:i + n]] for [i] in [range(0, len(v), n)], for an [n] that is
    not zero and a [v] that has a length: a list or a string is cut into
    pieces, a dict that has entries cannot be sliced (up to Python 3.11
    the slice is unhashable, from 3.12 on it is a missing key: an
    exception in both). *)
Definition slices (n : nat) (v : pyval) : result (list (list pyval)) :=
  match v with
  | PList l => Return (chunks n l)
  | PStr s => Return (chunks n (chars s))
  | PDict [] => Return []
  | PDict _ => Raise (TypeError "unhashable type: 'slice'")
  | _ => Raise (TypeError ("'" ++ type_name v ++ "' object is not subscriptable"))
  end.

(** The receiver of a [.get]: the pairs of a dict; on any other value
    the attribute lookup raises. *)
Definition as_dict (v : pyval) : result dict :=
  match v with
  | PDict d => Return d
  | _ => Raise (no_attribute v "get")
  end.

(** [data = response.json()] and [data.get(key, [])]: what a page holds
    under [key]. *)
Definition page_of (key : string) (resp : response) : result pyval :=
  match json resp with
  | Return body => match as_dict body with
                   | Return data => Return (get_default key (PList []) data)
                   | Raise x => Raise x
                   end
  | Raise x => Raise x
  end.

(** ** [models/product.py] *)

Module Product.

(** [_prepare_product_vals(product_data, instance)] with the default
    [skip_images=True], which is what every caller in the repository uses:
    the image download branch is not taken. *)
Definition _prepare_product_vals (product_data : pyval) (inst : instance)
  : M (gmap string pyval) :=
  let* product := lift (as_dict product_data) in
  let variants := get_default "variants" (PList []) product in
  (* if variants and len(variants) > 0: first_variant = variants[0] *)
  let* price_sku :=
    (if truthy variants
     then let* n := lift (len variants) in
          if Nat.ltb 0 n
          then let* first_variant := lift (first_item variants) in
               let* variant := lift (as_dict first_variant) in
               let* price := lift (float_or 0 (get_default "price" (PStr "0") variant)) in
               ret (price, py_or (get_default "sku" (PStr "") variant) (PStr ""))
          else ret (0%Q, PStr "")
     else ret (0%Q, PStr "")) in
  let* pid := lift (index "id" product_data) in
  let* published_at := _parse_shopify_datetime (get "published_at" product) in
  let* created_at := _parse_shopify_datetime (get "created_at" product) in
  let* updated_at := _parse_shopify_datetime (get "updated_at" product) in
  let vals : gmap string pyval :=
    list_to_map
      [ ("name", get_default "title" (PStr "Unnamed Product") product);
        ("description", get_default "body_html" (PStr "") product);
        ("shopify_instance_id", id_val (inst_id inst));
        ("shopify_product_id", PStr (Py.str pid));
        ("is_shopify_product", PBool true);
        ("shopify_product_status", get_default "status" (PStr "active") product);
        ("shopify_product_type", get_default "product_type" (PStr "") product);
        ("shopify_vendor", get_default "vendor" (PStr "") product);
        ("shopify_tags", get_default "tags" (PStr "") product);
        ("shopify_published_at", published_at);
        ("shopify_created_at", created_at);
        ("shopify_updated_at", updated_at);
        ("list_price", PFloat (fst price_sku));
        ("default_code", snd price_sku);
        ("sale_ok", PBool true);
        ("purchase_ok", PBool true) ] in
  ret (match inst_currency inst with
       | Some c => <["currency_id" := id_val c]> vals
       | None => vals
       end).

(** The search key of a product: external id and instance. *)
Definition product_key (pid : pyval) (inst : instance) : list (string * pyval) :=
  [ ("shopify_product_id", PStr (Py.str pid));
    ("shopify_instance_id", id_val (inst_id inst)) ].

(** The body of the [try] in [_process_product_batch]: map, search, then
    write or create. The result says which counter to bump. *)
Definition upsert_product (product_data : pyval) (inst : instance) : M bool :=
  let* product_vals := _prepare_product_vals product_data inst in
  let* pid := lift (index "id" product_data) in
  let* existing_product := search "product.template" (product_key pid inst) in
  match existing_product with
  | Some r =>
      write "product.template" (row_id r) product_vals;;
      log "debug" "Updated product";;
      ret false
  | None =>
      create "product.template" product_vals;;
      log "debug" "Created product";;
      ret true
  end.

(** [_process_product_batch]: every record runs inside its own
    [try ... except Exception: log, continue]. The counters are threaded
    through the loop. *)
Fixpoint _process_product_batch (products_batch : list pyval) (inst : instance)
    (created_count updated_count : nat) : M (nat * nat) :=
  match products_batch with
  | [] => ret (created_count, updated_count)
  | product_data :: rest =>
      let* cu :=
        try_except
          (let* was_created := upsert_product product_data inst in
           ret (if was_created : bool
                then (S created_count, updated_count)
                else (created_count, S updated_count)))
          (fun x =>
             (* the message reads [product_data.get("id")] and
                [product_data.get("title")] before anything is logged *)
             let* product := lift (as_dict product_data) in
             log "error" ("Error processing product " ++ Py.str (get "id" product)
                          ++ " (" ++ Py.str (get "title" product) ++ "): " ++ exn_str x);;
             ret (created_count, updated_count)) in
      _process_product_batch rest inst (fst cu) (snd cu)
  end.

(** The [for i in range(0, len(products), batch_size)] loop of the import.
    The counters are added before the commit, so a batch whose commit
    raises is rolled back with its counts already added. *)
Fixpoint product_batches (batches : list (list pyval)) (inst : instance)
    (created_count updated_count : nat) : M (nat * nat) :=
  match batches with
  | [] => ret (created_count, updated_count)
  | batch :: rest =>
      let on_error := fun batch_error : exn =>
        log "error" ("Error processing batch: " ++ exn_str batch_error);;
        rollback in
      let* r := try_except
                  (let* bc := _process_product_batch batch inst 0 0 in ret (Some bc))
                  (fun x => on_error x;; ret None) in
      match r with
      | Some (batch_created, batch_updated) =>
          let created_count := (created_count + batch_created)%nat in
          let updated_count := (updated_count + batch_updated)%nat in
          try_except (commit;; log "info" "Batch complete") on_error;;
          product_batches rest inst created_count updated_count
      | None => product_batches rest inst created_count updated_count
      end
  end.

Record totals : Type := Totals { total_fetched : nat; created : nat; updated : nat }.

(** The [while True] loop. [fuel] bounds the number of pages; [None] means
    the bound was hit before the loop ended. *)
Fixpoint products_loop (fuel : nat) (inst : instance) (batch_size : nat)
    (url : string) (params : gmap string pyval) (page_info : pyval) (acc : totals)
  : M (option totals) :=
  match fuel with
  | O => ret None
  | S fuel' =>
      (* When using page_info, only pass page_info parameter *)
      let request_params : gmap string pyval :=
        if truthy page_info then {[ "page_info" := page_info ]} else params in
      log "info" "Fetching products page";;
      let* response := requests_get url request_params in
      if negb (status_code response =? 200)
      then raise (UserError ("Failed to fetch products: " ++ pretty (status_code response)
                             ++ " - " ++ text response))
      else
        let* products := lift (page_of "products" response) in
        if negb (truthy products)
        then log "info" "No more products to fetch";; ret (Some acc)
        else
          let* fetched_now := lift (len products) in
          let fetched := (total_fetched acc + fetched_now)%nat in
          if Nat.eqb batch_size 0
          then raise (ValueError "range() arg 3 must not be zero")
          else
            let* batches := lift (slices batch_size products) in
            let* cu := product_batches batches inst (created acc) (updated acc) in
            let acc' := Totals fetched (fst cu) (snd cu) in
            let* nxt := lift (next_page response page_info) in
            match nxt with
            | Some p => products_loop fuel' inst batch_size url params p acc'
            | None => ret (Some acc')
            end
  end.

(** [import_shopify_products(instance_id, batch_size=25)]: the whole body
    sits in [try ... except Exception as e: raise UserError(...)]. *)
Definition import_shopify_products (fuel : nat) (inst : instance) (batch_size : nat)
  : M (option totals) :=
  try_except
    (let url := (inst_base_url inst ++ "/products.json")%string in
     let params : gmap string pyval := {[ "limit" := PInt 250 ]} in
     let* r := products_loop fuel inst batch_size url params PNone (Totals 0 0 0) in
     match r with
     | None => ret None
     | Some t =>
         log "info" "Product import complete!";;
         let* now := datetime_now in
         write "shopify.instance" (inst_id inst) {[ "last_product_sync" := now ]};;
         ret (Some t)
     end)
    (fun x =>
       log "error" ("Error importing products: " ++ exn_str x);;
       raise (UserError ("Error importing products: " ++ exn_str x))).

End Product.

(** ** [models/partner.py] *)

Module Partner.

(** [c.isspace()], which is what [str.strip()] removes. A character of
    the model is a code point below 256; of these the blanks are the
    space, tab to carriage return (9 to 13), the four separators 28 to
    31, the next-line control 133 and the no-break space 160. *)
Definition is_space (c : ascii) : bool :=
  let n := nat_of_ascii c in
  Nat.eqb n 32 || (Nat.leb 9 n && Nat.leb n 13) || (Nat.leb 28 n && Nat.leb n 31)
  || Nat.eqb n 133 || Nat.eqb n 160.

Fixpoint lstrip (s : string) : string :=
  match s with
  | String c s' => if is_space c then lstrip s' else s
  | EmptyString => EmptyString
  end.

(** Drops trailing blanks: a run of blanks is kept only when something
    that is not blank follows it. *)
Fixpoint rstrip (s : string) : string :=
  match s with
  | EmptyString => EmptyString
  | String c s' =>
      match rstrip s' with
      | EmptyString => if is_space c then EmptyString else String c EmptyString
      | t => String c t
      end
  end.

(** [s.strip()] *)
Definition strip (s : string) : string := rstrip (lstrip s).

Definition upper_char (c : ascii) : ascii :=
  let n := nat_of_ascii c in
  if Nat.leb 97 n && Nat.leb n 122 then ascii_of_nat (n - 32) else c.

(** [s.upper()] on ASCII text. *)
Fixpoint upper (s : string) : string :=
  match s with
  | EmptyString => EmptyString
  | String c s' => String (upper_char c) (upper s')
  end.

(** [_get_country_id(country_code)]; [.upper()] on a value that is not a
    string raises. *)
Definition _get_country_id (country_code : pyval) : M pyval :=
  if negb (truthy country_code) then ret (PBool false)
  else match country_code with
       | PStr code =>
           let* country := search "res.country" [("code", PStr (upper code))] in
           ret (match country with
                | Some r => id_val (row_id r)
                | None => PBool false
                end)
       | _ => raise (no_attribute country_code "upper")
       end.

(** [_get_state_id(state_code, country_code)]: the domain leaf on
    [country_id.code] follows the state's country to its code. *)
Definition _get_state_id (state_code country_code : pyval) : M pyval :=
  if negb (truthy state_code) || negb (truthy country_code) then ret (PBool false)
  else match state_code, country_code with
       | PStr sc, PStr cc =>
           fun e =>
             let in_country (st : row) : bool :=
               existsb (fun c => Py.eqb (field "country_id" st) (id_val (row_id c))
                                 && Py.eqb (field "code" c) (PStr (upper cc)))
                       (table "res.country" e) in
             let hits := List.filter
                           (fun st => matches [("code", PStr (upper sc))] st && in_country st)
                           (table "res.country.state" e) in
             (Return (match hits with
                      | r :: _ => id_val (row_id r)
                      | [] => PBool false
                      end), e)
       | PStr _, _ => raise (no_attribute country_code "upper")
       | _, _ => raise (no_attribute state_code "upper")
       end.

(** [_prepare_customer_vals(customer_data, instance)] *)
Definition _prepare_customer_vals (customer_data : pyval) (inst : instance)
  : M (gmap string pyval) :=
  let* customer := lift (as_dict customer_data) in
  let default_address := get_default "default_address" (PDict []) customer in
  let full_name :=
    strip (Py.str (get_default "first_name" (PStr "") customer) ++ " "
           ++ Py.str (get_default "last_name" (PStr "") customer)) in
  let* cid := lift (index "id" customer_data) in
  let* total_spent := lift (Py.float (get_default "total_spent" (PFloat 0) customer)) in
  let* created_at := _parse_shopify_datetime (get "created_at" customer) in
  let* updated_at := _parse_shopify_datetime (get "updated_at" customer) in
  let vals : gmap string pyval :=
    list_to_map
      [ ("name", py_or (PStr full_name) (get_default "email" (PStr "Unknown") customer));
        ("email", get_default "email" (PStr "") customer);
        ("phone", get_default "phone" (PStr "") customer);
        ("shopify_instance_id", id_val (inst_id inst));
        ("shopify_customer_id", PStr (Py.str cid));
        ("is_shopify_customer", PBool true);
        ("shopify_email_verified", get_default "verified_email" (PBool false) customer);
        ("shopify_accepts_marketing", get_default "accepts_marketing" (PBool false) customer);
        ("shopify_orders_count", get_default "orders_count" (PInt 0) customer);
        ("shopify_total_spent", PFloat total_spent);
        ("shopify_state", get_default "state" (PStr "disabled") customer);
        ("shopify_created_at", created_at);
        ("shopify_updated_at", updated_at);
        ("customer_rank", PInt 1) ] in
  if truthy default_address
  then
    let* address := lift (as_dict default_address) in
    let* country_id := _get_country_id (get "country_code" address) in
    let* state_id := _get_state_id (get "province_code" address)
                                   (get "country_code" address) in
    ret (list_to_map
           [ ("street", get_default "address1" (PStr "") address);
             ("street2", get_default "address2" (PStr "") address);
             ("city", get_default "city" (PStr "") address);
             ("zip", get_default "zip" (PStr "") address);
             ("country_id", country_id);
             ("state_id", state_id) ] ∪ vals)
  else ret vals.

Definition customer_key (cid : pyval) (inst : instance) : list (string * pyval) :=
  [ ("shopify_customer_id", PStr (Py.str cid));
    ("shopify_instance_id", id_val (inst_id inst)) ].

(** The fetch loop of [import_shopify_customers]. [params] is the one
    dictionary created before the loop: [params['page_info'] = page_info]
    updates it in place, so it is threaded through the iterations. *)
Fixpoint customers_loop (fuel : nat) (url : string) (params : gmap string pyval)
    (page_info : pyval) (all_customers : list pyval) : M (option (list pyval)) :=
  match fuel with
  | O => ret None
  | S fuel' =>
      let params : gmap string pyval :=
        if truthy page_info then <["page_info" := page_info]> params else params in
      let* response := requests_get url params in
      if negb (status_code response =? 200)
      then raise (UserError ("Failed to fetch customers: " ++ pretty (status_code response)
                             ++ " - " ++ text response))
      else
        let* customers := lift (page_of "customers" response) in
        if negb (truthy customers)
        then ret (Some all_customers)
        else
          let* fetched := lift (iterate customers) in
          let all_customers := all_customers ++ fetched in
          let* nxt := lift (next_page response page_info) in
          match nxt with
          | Some p => customers_loop fuel' url params p all_customers
          | None => ret (Some all_customers)
          end
  end.

(** The [for customer_data in all_customers] loop: no [try] around the
    body, an exception leaves the loop. *)
Fixpoint process_customers (all_customers : list pyval) (inst : instance)
    (created_count updated_count : nat) : M (nat * nat) :=
  match all_customers with
  | [] => ret (created_count, updated_count)
  | customer_data :: rest =>
      let* customer_vals := _prepare_customer_vals customer_data inst in
      let* cid := lift (index "id" customer_data) in
      let* existing_customer := search "res.partner" (customer_key cid inst) in
      match existing_customer with
      | Some r =>
          write "res.partner" (row_id r) customer_vals;;
          process_customers rest inst created_count (S updated_count)
      | None =>
          create "res.partner" customer_vals;;
          process_customers rest inst (S created_count) updated_count
      end
  end.

(** [import_shopify_customers(instance_id)] *)
Definition import_shopify_customers (fuel : nat) (inst : instance) : M (option (nat * nat)) :=
  try_except
    (let url := (inst_base_url inst ++ "/customers.json")%string in
     let params : gmap string pyval := {[ "limit" := PInt 250 ]} in
     let* fetched := customers_loop fuel url params PNone [] in
     match fetched with
     | None => ret None
     | Some all_customers =>
         log "info" "Fetched customers from Shopify";;
         let* cu := process_customers all_customers inst 0 0 in
         let* now := datetime_now in
         write "shopify.instance" (inst_id inst) {[ "last_customer_sync" := now ]};;
         ret (Some cu)
     end)
    (fun x =>
       log "error" ("Error importing customers: " ++ exn_str x);;
       raise (UserError ("Error importing customers: " ++ exn_str x))).

End Partner.

(** ** [models/order.py] *)

Module Order.

(** [self.env.ref('base.public_partner')]: a row of the host application
    that every database has. *)
Definition public_partner : row := Row 0 {[ "name" := PStr "Public user" ]}.

(** [_get_or_create_customer(customer_data, instance)] *)
Definition _get_or_create_customer (customer_data : pyval) (inst : instance) : M row :=
  if negb (truthy customer_data) then ret public_partner
  else
    let* customer := lift (as_dict customer_data) in
    let* by_id :=
      (if truthy (get "id" customer)
       then let* cid := lift (index "id" customer_data) in
            search "res.partner" (Partner.customer_key cid inst)
       else ret None) in
    match by_id with
    | Some partner => ret partner
    | None =>
        let* by_email :=
          (if truthy (get "email" customer)
           then let* email := lift (index "email" customer_data) in
                search "res.partner" [("email", email)]
           else ret None) in
        match by_email with
        | Some partner =>
            let* cid := lift (index "id" customer_data) in
            write "res.partner" (row_id partner)
                  (list_to_map [ ("shopify_customer_id", PStr (Py.str cid));
                                 ("shopify_instance_id", id_val (inst_id inst));
                                 ("is_shopify_customer", PBool true) ]);;
            ret partner
        | None =>
            let* customer_vals := Partner._prepare_customer_vals customer_data inst in
            create "res.partner" customer_vals
        end
    end.

(** [_get_or_create_shipping_address(shipping_address, parent_partner)] *)
Definition _get_or_create_shipping_address (shipping_address : pyval) (parent_partner : row)
  : M row :=
  let* address := lift (as_dict shipping_address) in
  let* existing :=
    search "res.partner"
           [ ("parent_id", id_val (row_id parent_partner));
             ("type", PStr "delivery");
             ("street", get_default "address1" (PStr "") address) ] in
  match existing with
  | Some r => ret r
  | None =>
      let full_name :=
        Partner.strip (Py.str (get_default "first_name" (PStr "") address) ++ " "
                       ++ Py.str (get_default "last_name" (PStr "") address)) in
      let* country_id := Partner._get_country_id (get "country_code" address) in
      let* state_id := Partner._get_state_id (get "province_code" address)
                                             (get "country_code" address) in
      create "res.partner"
             (list_to_map
                [ ("parent_id", id_val (row_id parent_partner));
                  ("type", PStr "delivery");
                  ("name", py_or (PStr full_name) (field "name" parent_partner));
                  ("street", get_default "address1" (PStr "") address);
                  ("street2", get_default "address2" (PStr "") address);
                  ("city", get_default "city" (PStr "") address);
                  ("zip", get_default "zip" (PStr "") address);
                  ("phone", get_default "phone" (PStr "") address);
                  ("country_id", country_id);
                  ("state_id", state_id) ])
  end.

(** [sum(float(line.get('price', 0.0)) for line in shipping_lines)] *)
Fixpoint sum_shipping (shipping_lines : list pyval) : result Q :=
  match shipping_lines with
  | [] => Return 0%Q
  | line :: rest =>
      match as_dict line with
      | Return shipping_line =>
          match Py.float (get_default "price" (PFloat 0) shipping_line) with
          | Return p => match sum_shipping rest with
                        | Return s => Return (Qred (p + s))
                        | Raise x => Raise x
                        end
          | Raise x => Raise x
          end
      | Raise x => Raise x
      end
  end.

(** [_prepare_order_vals(order_data, instance)]: the header values of an
    order. Finding or creating the customer and the delivery address are
    its only effects on the store. *)
Definition _prepare_order_vals (order_data : pyval) (inst : instance)
  : M (gmap string pyval) :=
  let* order := lift (as_dict order_data) in
  let* customer := _get_or_create_customer (get_default "customer" (PDict []) order) inst in
  let* oid := lift (index "id" order_data) in
  let* total_tax := lift (Py.float (get_default "total_tax" (PFloat 0) order)) in
  let* shipping_lines := lift (iterate (get_default "shipping_lines" (PList []) order)) in
  let* total_shipping := lift (sum_shipping shipping_lines) in
  let* created_at := _parse_shopify_datetime (get "created_at" order) in
  let* updated_at := _parse_shopify_datetime (get "updated_at" order) in
  let* closed_at := _parse_shopify_datetime (get "closed_at" order) in
  let* cancelled_at := _parse_shopify_datetime (get "cancelled_at" order) in
  let* date_order := _parse_shopify_datetime (get "created_at" order) in
  let vals : gmap string pyval :=
    list_to_map
      [ ("partner_id", id_val (row_id customer));
        ("shopify_instance_id", id_val (inst_id inst));
        ("shopify_order_id", PStr (Py.str oid));
        ("shopify_order_number", PStr (Py.str (get_default "order_number" (PStr "") order)));
        ("is_shopify_order", PBool true);
        ("shopify_financial_status", get_default "financial_status" (PStr "pending") order);
        ("shopify_fulfillment_status",
           py_or (get "fulfillment_status" order) (PStr "unfulfilled"));
        ("shopify_total_tax", PFloat total_tax);
        ("shopify_total_shipping", PFloat total_shipping);
        ("shopify_currency", get_default "currency" (PStr "USD") order);
        ("shopify_created_at", created_at);
        ("shopify_updated_at", updated_at);
        ("shopify_closed_at", closed_at);
        ("shopify_cancelled_at", cancelled_at);
        ("shopify_cancel_reason", get_default "cancel_reason" (PStr "") order);
        ("client_order_ref", get_default "name" (PStr "") order);
        ("note", get_default "note" (PStr "") order);
        ("date_order", date_order) ] in
  let* vals :=
    match inst_currency inst with
    | Some c => ret (<["currency_id" := id_val c]> vals)
    | None =>
        let* currency := search "res.currency"
                                [("name", get_default "currency" (PStr "USD") order)] in
        ret (match currency with
             | Some r => <["currency_id" := id_val (row_id r)]> vals
             | None => vals
             end)
    end in
  let* vals :=
    match inst_currency inst with
    | Some c =>
        let* pricelist := search "product.pricelist" [("currency_id", id_val c)] in
        ret (match pricelist with
             | Some r => <["pricelist_id" := id_val (row_id r)]> vals
             | None => vals
             end)
    | None => ret vals
    end in
  let shipping_address := get "shipping_address" order in
  if truthy shipping_address
  then let* shipping_partner := _get_or_create_shipping_address shipping_address customer in
       ret (<["partner_shipping_id" := id_val (row_id shipping_partner)]> vals)
  else ret vals.

(** [_get_or_create_product(line_item, instance)]. A template stands for
    its single variant, so [product.product_variant_id] is the row itself.
    [None] is Python's [None] after a failed create. *)
Definition _get_or_create_product (line_item : pyval) (inst : instance) : M (option row) :=
  let* item := lift (as_dict line_item) in
  let product_id := get "product_id" item in
  let* by_id :=
    (if truthy product_id
     then search "product.template" (Product.product_key product_id inst)
     else ret None) in
  match by_id with
  | Some product => ret (Some product)
  | None =>
      let sku := get "sku" item in
      let* by_sku :=
        (if truthy sku then search "product.template" [("default_code", sku)] else ret None) in
      match by_sku with
      | Some product => ret (Some product)
      | None =>
          let* price := lift (float_or 0 (get_default "price" (PStr "0") item)) in
          let product_vals : gmap string pyval :=
            list_to_map
              [ ("name", py_or (get "title" item)
                               (py_or (get "name" item) (PStr "Unknown Product")));
                ("default_code", py_or (get "sku" item) (PStr ""));
                ("list_price", PFloat price);
                ("type", PStr "consu");
                ("shopify_instance_id", id_val (inst_id inst));
                ("shopify_product_id",
                   if truthy product_id then PStr (Py.str product_id) else PBool false);
                ("is_shopify_product", PBool true) ] in
          try_except
            (let* product := create "product.template" product_vals in
             log "info" "Created product from order line";;
             ret (Some product))
            (fun x => log "error" ("Error creating product: " ++ exn_str x);; ret None)
      end
  end.

(** [_create_generic_product(line_item, instance)] *)
Definition _create_generic_product (line_item : pyval) (inst : instance) : M (option row) :=
  try_except
    (let* item := lift (as_dict line_item) in
     let price_raw := get_default "price" (PStr "0") item in
     let* price :=
       lift (match price_raw with
             | PStr _ => match float_or 0 price_raw with
                         | Return q => Return (PFloat q)
                         | Raise x => Raise x
                         end
             | other => Return other
             end) in
     let product_vals : gmap string pyval :=
       list_to_map
         [ ("name", py_or (get "title" item)
                          (py_or (get "name" item) (PStr "Shopify Product")));
           ("default_code", get_default "sku" (PStr "") item);
           ("list_price", price);
           ("type", PStr "consu");
           ("shopify_instance_id", id_val (inst_id inst));
           ("is_shopify_product", PBool true) ] in
     let* product := create "product.template" product_vals in
     log "info" "Created generic product";;
     ret (Some product))
    (fun x => log "error" ("Error creating generic product: " ++ exn_str x);; ret None).

(** One turn of the loop in [_create_order_lines], inside its [try]. *)
Definition create_order_line (order : row) (inst : instance) (line_item : pyval) : M unit :=
  let* found := _get_or_create_product line_item inst in
  let* product :=
    match found with
    | Some p => ret (Some p)
    | None =>
        let* item := lift (as_dict line_item) in
        log "warning" ("Could not find/create product for line item: "
                       ++ Py.str (get "title" item));;
        _create_generic_product line_item inst
    end in
  match product with
  | None => log "error" "Failed to create product for line item"
  | Some product =>
      let* item := lift (as_dict line_item) in
      let* price := lift (float_or 0 (get_default "price" (PStr "0") item)) in
      let* quantity := lift (float_or 1 (get_default "quantity" (PInt 1) item)) in
      let line_vals : gmap string pyval :=
        list_to_map
          [ ("order_id", id_val (row_id order));
            ("product_id", id_val (row_id product));
            ("name", py_or (get "title" item)
                           (py_or (get "name" item) (field "name" product)));
            ("product_uom_qty", PFloat quantity);
            ("price_unit", PFloat price) ] in
      create "sale.order.line" line_vals;;
      log "info" "Created order line"
  end.

(** The [for line_item in line_items] loop; the handler reads the item's
    title for its message, outside any [try]. *)
Fixpoint order_lines_loop (order : row) (inst : instance) (line_items : list pyval) : M unit :=
  match line_items with
  | [] => ret tt
  | line_item :: rest =>
      try_except (create_order_line order inst line_item)
                 (fun x =>
                    let* item := lift (as_dict line_item) in
                    log "error" ("Error creating order line for "
                                 ++ Py.str (get "title" item) ++ ": " ++ exn_str x));;
      order_lines_loop order inst rest
  end.

(** [_create_order_lines(order, line_items)]: [len(line_items)] goes into
    the first message, then the items are walked. *)
Definition _create_order_lines (order : row) (inst : instance) (line_items : pyval)
  : M unit :=
  let* count := lift (len line_items) in
  log "info" ("Creating order lines, line_items count: " ++ pretty count);;
  let* items := lift (iterate line_items) in
  order_lines_loop order inst items.

Definition order_key (oid : pyval) (inst : instance) : list (string * pyval) :=
  [ ("shopify_order_id", PStr (Py.str oid));
    ("shopify_instance_id", id_val (inst_id inst)) ].

(** [order.order_line]: the lines that point at the order. *)
Definition order_line (order_id : nat) (e : env) : list row :=
  List.filter (matches [("order_id", id_val order_id)]) (table "sale.order.line" e).

(** [existing_order.state in ['draft', 'sent']] *)
Definition in_draft_or_sent (order : row) : bool :=
  Py.eqb (field "state" order) (PStr "draft") || Py.eqb (field "state" order) (PStr "sent").

Inductive outcome : Type := Created | Updated | Untouched.

(** The body of the [try] in [_process_order_batch]. *)
Definition upsert_order (order_data : pyval) (inst : instance) : M outcome :=
  let* order_vals := _prepare_order_vals order_data inst in
  let* oid := lift (index "id" order_data) in
  let* existing_order := search "sale.order" (order_key oid inst) in
  (* [order_data.get('line_items', [])] of the two branches below; the
     mapper has already called [.get] on [order_data] *)
  let* order := lift (as_dict order_data) in
  match existing_order with
  | Some existing =>
      (* Update only if order is not confirmed yet *)
      if in_draft_or_sent existing
      then
        write "sale.order" (row_id existing) order_vals;;
        (* Create order lines if they don't exist *)
        let* lines := (fun e => (Return (order_line (row_id existing) e), e)) in
        match lines with
        | [] => _create_order_lines existing inst (get_default "line_items" (PList []) order)
        | _ => ret tt
        end;;
        ret Updated
      else ret Untouched
  | None =>
      let* new_order := create "sale.order" order_vals in
      _create_order_lines new_order inst (get_default "line_items" (PList []) order);;
      ret Created
  end.

(** [_process_order_batch(orders_batch, instance)] *)
Fixpoint _process_order_batch (orders_batch : list pyval) (inst : instance)
    (created_count updated_count : nat) : M (nat * nat) :=
  match orders_batch with
  | [] => ret (created_count, updated_count)
  | order_data :: rest =>
      let* cu :=
        try_except
          (let* o := upsert_order order_data inst in
           ret (match o with
                | Created => (S created_count, updated_count)
                | Updated => (created_count, S updated_count)
                | Untouched => (created_count, updated_count)
                end))
          (fun x =>
             let* order := lift (as_dict order_data) in
             log "error" ("Error processing order " ++ Py.str (get "id" order)
                          ++ ": " ++ exn_str x);;
             ret (created_count, updated_count)) in
      _process_order_batch rest inst (fst cu) (snd cu)
  end.

(** The batch loop of [import_shopify_orders]: no [try] here, an exception
    of the batch or of its commit leaves the loop. *)
Fixpoint order_batches (batches : list (list pyval)) (inst : instance)
    (created_count updated_count : nat) : M (nat * nat) :=
  match batches with
  | [] => ret (created_count, updated_count)
  | batch :: rest =>
      let* bc := _process_order_batch batch inst 0 0 in
      let created_count := (created_count + fst bc)%nat in
      let updated_count := (updated_count + snd bc)%nat in
      commit;;
      log "info" "Batch processed";;
      order_batches rest inst created_count updated_count
  end.

Fixpoint orders_loop (fuel : nat) (inst : instance) (batch_size : nat)
    (url : string) (params : gmap string pyval) (page_info : pyval) (acc : Product.totals)
  : M (option Product.totals) :=
  match fuel with
  | O => ret None
  | S fuel' =>
      (* When using page_info, only pass page_info parameter *)
      let request_params : gmap string pyval :=
        if truthy page_info then {[ "page_info" := page_info ]} else params in
      log "info" "Fetching orders page";;
      let* response := requests_get url request_params in
      if negb (status_code response =? 200)
      then raise (UserError ("Failed to fetch orders: " ++ pretty (status_code response)
                             ++ " - " ++ text response))
      else
        let* orders := lift (page_of "orders" response) in
        if negb (truthy orders)
        then ret (Some acc)
        else
          let* fetched_now := lift (len orders) in
          let fetched := (Product.total_fetched acc + fetched_now)%nat in
          if Nat.eqb batch_size 0
          then raise (ValueError "range() arg 3 must not be zero")
          else
            let* batches := lift (slices batch_size orders) in
            let* cu := order_batches batches inst
                                     (Product.created acc) (Product.updated acc) in
            let acc' := Product.Totals fetched (fst cu) (snd cu) in
            let* nxt := lift (next_page response page_info) in
            match nxt with
            | Some p => orders_loop fuel' inst batch_size url params p acc'
            | None => ret (Some acc')
            end
  end.

(** [import_shopify_orders(instance_id, date_from=None, batch_size=50)];
    [date_from] is the already formatted [date_from.isoformat()]. *)
Definition import_shopify_orders (fuel : nat) (inst : instance) (date_from : option string)
    (batch_size : nat) : M (option Product.totals) :=
  try_except
    (let url := (inst_base_url inst ++ "/orders.json")%string in
     let params : gmap string pyval :=
       list_to_map [ ("limit", PInt 250); ("status", PStr "any") ] in
     let params : gmap string pyval :=
       match date_from with
       | Some d => <["created_at_min" := PStr d]> params
       | None => params
       end in
     let* r := orders_loop fuel inst batch_size url params PNone (Product.Totals 0 0 0) in
     match r with
     | None => ret None
     | Some t =>
         log "info" "Total orders processed";;
         let* now := datetime_now in
         write "shopify.instance" (inst_id inst) {[ "last_order_sync" := now ]};;
         ret (Some t)
     end)
    (fun x =>
       log "error" ("Error importing orders: " ++ exn_str x);;
       raise (UserError ("Error importing orders: " ++ exn_str x))).

End Order.

(** ** [models/webhook.py] *)

Module Webhook.

(** [_process_product_webhook(topic, data, instance)] *)
Definition _process_product_webhook (topic : string) (data : pyval) (inst : instance) : M unit :=
  if String.eqb topic "products/create" || String.eqb topic "products/update"
  then
    let* product_vals := Product._prepare_product_vals data inst in
    let* pid := lift (index "id" data) in
    let* existing_product := search "product.template" (Product.product_key pid inst) in
    match existing_product with
    | Some r => write "product.template" (row_id r) product_vals
    | None => create "product.template" product_vals;; ret tt
    end
  else if String.eqb topic "products/delete"
  then
    let* pid := lift (index "id" data) in
    let* product := search "product.template" (Product.product_key pid inst) in
    match product with
    | Some r => write "product.template" (row_id r) {[ "active" := PBool false ]}
    | None => ret tt
    end
  else ret tt.

(** [_process_order_webhook(topic, data, instance)] *)
Definition _process_order_webhook (topic : string) (data : pyval) (inst : instance) : M unit :=
  if String.eqb topic "orders/create" || String.eqb topic "orders/updated"
  then
    let* order_vals := Order._prepare_order_vals data inst in
    let* oid := lift (index "id" data) in
    let* existing_order := search "sale.order" (Order.order_key oid inst) in
    match existing_order with
    | Some r => write "sale.order" (row_id r) order_vals
    | None => create "sale.order" order_vals;; ret tt
    end
  else ret tt.

(** [_process_customer_webhook(topic, data, instance)] *)
Definition _process_customer_webhook (topic : string) (data : pyval) (inst : instance) : M unit :=
  if String.eqb topic "customers/create" || String.eqb topic "customers/update"
  then
    let* partner_vals := Partner._prepare_customer_vals data inst in
    let* cid := lift (index "id" data) in
    let* existing_partner := search "res.partner" (Partner.customer_key cid inst) in
    match existing_partner with
    | Some r => write "res.partner" (row_id r) partner_vals
    | None => create "res.partner" partner_vals;; ret tt
    end
  else ret tt.

(** [shopify.sync.log].[log_sync] as the handler calls it. The sequence
    number in the row's name is left out. *)
Definition log_sync (inst : instance) (sync_type direction status message : string) : M row :=
  create "shopify.sync.log"
         (list_to_map
            [ ("shopify_instance_id", id_val (inst_id inst));
              ("sync_type", PStr sync_type);
              ("direction", PStr direction);
              ("status", PStr status);
              ("message", PStr message);
              ("error_details", PStr "");
              ("created_count", PInt 0);
              ("updated_count", PInt 0);
              ("failed_count", PInt 0) ]).

(** [process_webhook(topic, data, shopify_domain)]. [resolve] is the
    [ilike] search of the instance by shop domain. The result is the
    acknowledgement handed back to the caller. *)
Definition process_webhook (resolve : string -> option instance)
    (topic : string) (data : pyval) (shopify_domain : string) : M bool :=
  try_except
    (match resolve shopify_domain with
     | None => log "warning" ("No instance found for domain: " ++ shopify_domain);; ret false
     | Some inst =>
         log_sync inst "webhook" "import" "success" ("Received webhook: " ++ topic);;
         (if String.prefix "products/" topic then _process_product_webhook topic data inst
          else if String.prefix "orders/" topic then _process_order_webhook topic data inst
          else if String.prefix "customers/" topic then _process_customer_webhook topic data inst
          else if String.prefix "inventory_levels/" topic then log "info" "Inventory webhook received"
          else if String.prefix "refunds/" topic then log "info" "Refund webhook received"
          else ret tt);;
         ret true
     end)
    (fun x => log "error" ("Error processing webhook: " ++ exn_str x);; ret false).

End Webhook.

(** ** [models/discount.py] *)

Module Discount.

(** The discount-code lookup of [_create_or_update_discount]: a second
    request, whose failure is only logged. *)
Definition fetch_discount_code (inst : instance) (shopify_id : string) : M pyval :=
  let discount_codes_url :=
    (inst_base_url inst ++ "/price_rules/" ++ shopify_id ++ "/discount_codes.json")%string in
  try_except
    (let* dc_response := requests_get discount_codes_url ∅ in
     if status_code dc_response =? 200
     then
       let* discount_codes := lift (page_of "discount_codes" dc_response) in
       if truthy discount_codes
       then let* first := lift (first_item discount_codes) in
            let* code := lift (as_dict first) in
            ret (get_default "code" (PStr "") code)
       else ret (PStr "")
     else ret (PStr ""))
    (fun x => log "warning" ("Could not fetch discount codes: " ++ exn_str x);; ret (PStr "")).

(** The four optional timestamps: a value that parses is stored, anything
    else leaves the key out. *)
Definition add_date (key src : string) (price_rule : dict) (vals : gmap string pyval)
  : M (gmap string pyval) :=
  fun e =>
    (Return (match get src price_rule with
             | PStr s => if truthy (PStr s)
                         then match date_parse e s with
                              | Some d => <[key := PStr d]> vals
                              | None => vals
                              end
                         else vals
             | _ => vals
             end), e).

(** The optional entries added to [vals] after the dictionary literal,
    in source order: the two prerequisite ranges, the two entitled id
    lists, the four timestamps. [price_rule] is [price_rule_data], known
    to be a dictionary since the first line of the method. *)
Definition with_prerequisites (price_rule : dict) (vals : gmap string pyval)
  : M (gmap string pyval) :=
  let prerequisite_subtotal :=
    get_default "prerequisite_subtotal_range" (PDict []) price_rule in
  let* vals :=
    (if truthy prerequisite_subtotal
     then let* subtotal_range := lift (as_dict prerequisite_subtotal) in
          let* q := lift (Py.float (get_default "greater_than_or_equal_to" (PFloat 0)
                                                subtotal_range)) in
          ret (<["prerequisite_subtotal_range" := PFloat q]> vals)
     else ret vals) in
  let prerequisite_quantity :=
    get_default "prerequisite_quantity_range" (PDict []) price_rule in
  if truthy prerequisite_quantity
  then let* quantity_range := lift (as_dict prerequisite_quantity) in
       let* n := lift (Py.int (get_default "greater_than_or_equal_to" (PInt 0)
                                           quantity_range)) in
       ret (<["prerequisite_quantity_range" := PInt n]> vals)
  else ret vals.

(** [','.join(map(str, ids))] under its [if ids:] guard *)
Definition with_entitled (key : string) (price_rule : dict) (vals : gmap string pyval)
  : result (gmap string pyval) :=
  let ids := get_default key (PList []) price_rule in
  if truthy ids
  then match iterate ids with
       | Return l => Return (<[key := PStr (String.concat "," (List.map Py.str l))]> vals)
       | Raise x => Raise x
       end
  else Return vals.

Definition with_dates (price_rule : dict) (vals : gmap string pyval)
  : M (gmap string pyval) :=
  let* vals := add_date "starts_at" "starts_at" price_rule vals in
  let* vals := add_date "ends_at" "ends_at" price_rule vals in
  let* vals := add_date "shopify_created_at" "created_at" price_rule vals in
  add_date "shopify_updated_at" "updated_at" price_rule vals.

(** [_create_or_update_discount(price_rule_data, instance)];
    [company_currency] is [self.env.company.currency_id]. *)
Definition _create_or_update_discount (company_currency : nat)
    (price_rule_data : pyval) (inst : instance) : M row :=
  let* price_rule := lift (as_dict price_rule_data) in
  let shopify_id := Py.str (get "id" price_rule) in
  let* existing := search "shopify.discount"
                          [ ("shopify_price_rule_id", PStr shopify_id);
                            ("shopify_instance_id", id_val (inst_id inst)) ] in
  let currency := match inst_currency inst with Some c => c | None => company_currency end in
  (* Parse value type *)
  let value_type := get_default "value_type" (PStr "percentage") price_rule in
  let* value := lift (Py.float (get_default "value" (PFloat 0) price_rule)) in
  (* If percentage, convert from -X.X to X.X *)
  let value := if Py.eqb value_type (PStr "percentage") then Qabs value else value in
  let* discount_code := fetch_discount_code inst shopify_id in
  let vals : gmap string pyval :=
    list_to_map
      [ ("name", get_default "title" (PStr "Unnamed Discount") price_rule);
        ("shopify_instance_id", id_val (inst_id inst));
        ("shopify_price_rule_id", PStr shopify_id);
        ("discount_code", discount_code);
        ("value", PFloat value);
        ("value_type", value_type);
        ("target_type", get_default "target_type" (PStr "line_item") price_rule);
        ("target_selection", get_default "target_selection" (PStr "all") price_rule);
        ("allocation_method", get_default "allocation_method" (PStr "across") price_rule);
        ("usage_limit", get_default "usage_limit" (PInt 0) price_rule);
        ("once_per_customer", get_default "once_per_customer" (PBool false) price_rule);
        ("currency_id", id_val currency);
        ("active_discount", PBool true) ] in
  let* vals := with_prerequisites price_rule vals in
  let* vals := lift (with_entitled "entitled_product_ids" price_rule vals) in
  let* vals := lift (with_entitled "entitled_collection_ids" price_rule vals) in
  let* vals := with_dates price_rule vals in
  match existing with
  | Some r => write "shopify.discount" (row_id r) vals;; ret (Row (row_id r) (vals ∪ row_vals r))
  | None => create "shopify.discount" vals
  end.

End Discount.

(** ** [models/scheduler.py] and [hooks.py] *)

Module Scheduler.

(** [_reset_running_flags()] *)
Definition _reset_running_flags : M unit :=
  try_except
    (let* running_schedulers := search_all "shopify.scheduler" [("is_running", PBool true)] in
     match running_schedulers with
     | [] => ret tt
     | _ =>
         log "info" "Resetting stale running flags from previous session";;
         write_all "shopify.scheduler" running_schedulers {[ "is_running" := PBool false ]}
     end)
    (fun x => log "warning" ("Could not reset running flags: " ++ exn_str x)).

(** [post_init_hook(env)] of [hooks.py] *)
Definition post_init_hook : M unit :=
  try_except
    (let* schedulers := search_all "shopify.scheduler" [("is_running", PBool true)] in
     match schedulers with
     | [] => ret tt
     | _ =>
         log "info" "Resetting stale running flags from previous session";;
         write_all "shopify.scheduler" schedulers {[ "is_running" := PBool false ]}
     end)
    (fun x => log "warning" ("Could not reset running flags in post_init_hook: " ++ exn_str x)).

(** *** [run_scheduled_sync]

    The module-level dictionary [_running_syncs] exists once per server
    process, the scheduler table once for all of them. An invocation is a
    thread with a program counter; each step below is one stretch of the
    method that runs without another invocation getting in between:
    a [with _sync_lock:] block, one read of a field, one write. The table
    is shared directly, so a write is visible to every other invocation
    at once, which is the most the immediate commit can give. *)

Record world : Type := World {
  store : env;
  _running_syncs : gmap nat (gmap string bool)   (* process ↦ its dictionary *)
}.

Inductive pc : Type :=
| Acquire          (* with _sync_lock: check and set the dictionary entry *)
| CheckDb          (* if self.is_running: *)
| ReleaseSkipped   (* with _sync_lock: reset the entry, return *)
| Mark             (* self.write({'is_running': True}); commit *)
| SubSyncs         (* the enabled sub-syncs, each in its own try *)
| Finish           (* the status write, or the one of the outer except *)
| Release          (* finally: with _sync_lock: reset the entry *)
| Done.

Record thread : Type := Thread {
  th_proc : nat;                   (* the server process it runs in *)
  th_self : nat;                   (* self.id *)
  th_pc : pc;
  th_ran : bool;                   (* reached the sub-syncs *)
  th_skipped : bool;               (* returned through one of the two guards *)
  th_crashed : bool;               (* left by an exception before the try *)
  th_errors : list string;
  th_success_messages : list string
}.

Definition start (proc self : nat) : thread :=
  Thread proc self Acquire false false false [] [].

Definition scheduler_key (self : nat) : string := "scheduler_" ++ pretty self.

(** [_running_syncs.get(scheduler_key)] in the thread's process *)
Definition running_get (w : world) (t : thread) : bool :=
  default false (default ∅ (_running_syncs w !! th_proc t) !! scheduler_key (th_self t)).

(** [_running_syncs[scheduler_key] = b] in the thread's process *)
Definition running_set (b : bool) (w : world) (t : thread) : world :=
  World (store w)
        (<[th_proc t := <[scheduler_key (th_self t) := b]>
                          (default ∅ (_running_syncs w !! th_proc t))]> (_running_syncs w)).

(** The row of [self] as the store has it now. *)
Definition self_row (w : world) (t : thread) : row :=
  default (Row (th_self t) ∅)
          (head (List.filter (fun r => Nat.eqb (row_id r) (th_self t))
                             (table "shopify.scheduler" (store w)))).

Definition in_store {A} (m : M A) (w : world) : world :=
  World (snd (m (store w))) (_running_syncs w).

Definition at_pc (p : pc) (t : thread) : thread :=
  Thread (th_proc t) (th_self t) p (th_ran t) (th_skipped t) (th_crashed t) (th_errors t)
         (th_success_messages t).

(** The eight blocks between the two writes, in source order: the flag
    that enables the sub-sync, the message on success, the prefix of the
    error message. *)
Definition sub_syncs : list (string * string * string) :=
  [ ("sync_products", "Products synced successfully", "Product sync failed: ");
    ("sync_customers", "Customers synced successfully", "Customer sync failed: ");
    ("sync_orders", "Orders synced successfully", "Order sync failed: ");
    ("sync_inventory", "Inventory synced successfully", "Inventory sync failed: ");
    ("sync_collections", "Collections synced successfully", "Collection sync failed: ");
    ("sync_gift_cards", "Gift cards synced successfully", "Gift card sync failed: ");
    ("sync_locations", "Locations synced successfully", "Location sync failed: ");
    ("sync_discounts", "Discounts synced successfully", "Discount sync failed: ") ].

(** What the sub-syncs do to their own tables is of no concern to the
    guard: [outcome flag] is [None] when the sub-sync returns and
    [Some text] when it raises an exception whose [str] is [text]. *)
Fixpoint run_sub_syncs (outcome : string -> option string) (self : row)
    (blocks : list (string * string * string)) (errors success_messages : list string)
  : list string * list string :=
  match blocks with
  | [] => (errors, success_messages)
  | (flag, ok, prefix) :: rest =>
      if truthy (field flag self)
      then match outcome flag with
           | None => run_sub_syncs outcome self rest errors (success_messages ++ [ok])
           | Some text =>
               run_sub_syncs outcome self rest (errors ++ [(prefix ++ text)%string])
                             success_messages
           end
      else run_sub_syncs outcome self rest errors success_messages
  end.

Definition newline : string := String "010"%char EmptyString.

(** The two places that write the run's result. [fault] is an exception
    raised inside the outer [try] but outside the sub-sync handlers; it
    sends the run to the outer [except]. *)
Definition finish (fault : option exn) (t : thread) : M unit :=
  match fault with
  | None =>
      let status :=
        match th_errors t with
        | [] => "success"
        | _ => match th_success_messages t with [] => "failed" | _ => "partial" end
        end in
      let message :=
        match th_errors t with
        | [] => String.concat newline (th_success_messages t)
        | _ => String.concat newline (th_success_messages t ++ th_errors t)
        end in
      let* now := datetime_now in
      write "shopify.scheduler" (th_self t)
            (list_to_map [ ("last_run", now);
                           ("last_run_status", PStr status);
                           ("last_run_message", PStr message);
                           ("is_running", PBool false) ]);;
      log "info" ("Scheduled sync completed with status: " ++ status)
  | Some x =>
      log "error" ("Scheduled sync failed: " ++ exn_str x);;
      let* now := datetime_now in
      write "shopify.scheduler" (th_self t)
            (list_to_map [ ("last_run", now);
                           ("last_run_status", PStr "failed");
                           ("last_run_message", PStr (exn_str x));
                           ("is_running", PBool false) ])
  end.

(** One step of one invocation. *)
Definition step (outcome : string -> option string) (fault : option exn)
    (t : thread) (w : world) : thread * world :=
  match th_pc t with
  | Acquire =>
      if running_get w t
      then (Thread (th_proc t) (th_self t) Done (th_ran t) true (th_crashed t) (th_errors t)
                   (th_success_messages t),
            in_store (log "warning" "Sync is already running. Skipping this execution.") w)
      else (at_pc CheckDb t, running_set true w t)
  | CheckDb =>
      if truthy (field "is_running" (self_row w t))
      then (Thread (th_proc t) (th_self t) ReleaseSkipped (th_ran t) true (th_crashed t)
                   (th_errors t) (th_success_messages t),
            in_store (log "warning" "Sync is marked as running in database. Skipping.") w)
      else (at_pc Mark t, w)
  | ReleaseSkipped => (at_pc Done t, running_set false w t)
  | Mark =>
      match (write "shopify.scheduler" (th_self t) {[ "is_running" := PBool true ]};;
             commit;;
             log "info" "Running scheduled sync") (store w) with
      | (Return _, e') => (at_pc SubSyncs t, World e' (_running_syncs w))
      | (Raise _, e') =>
          (* the exception leaves the method before the try: nothing resets
             the dictionary entry, and the caller's cursor is rolled back *)
          (Thread (th_proc t) (th_self t) Done (th_ran t) (th_skipped t) true (th_errors t)
                  (th_success_messages t),
           World (snd (rollback e')) (_running_syncs w))
      end
  | SubSyncs =>
      let '(errors, success_messages) :=
        run_sub_syncs outcome (self_row w t) sub_syncs [] [] in
      (Thread (th_proc t) (th_self t) Finish true (th_skipped t) (th_crashed t)
              errors success_messages, w)
  | Finish => (at_pc Release t, in_store (finish fault t) w)
  | Release => (at_pc Done t, running_set false w t)
  | Done => (t, w)
  end.

Fixpoint steps (n : nat) (outcome : string -> option string) (fault : option exn)
    (t : thread) (w : world) : thread * world :=
  match n with
  | O => (t, w)
  | S n' => let '(t', w') := step outcome fault t w in steps n' outcome fault t' w'
  end.

(** [run_scheduled_sync()] on its own: the steps in a row, with nothing in
    between. Six steps reach [Done] on every path. *)
Definition run_scheduled_sync (outcome : string -> option string) (fault : option exn)
    (proc self : nat) (w : world) : thread * world :=
  steps 6 outcome fault (start proc self) w.

(** Two invocations under a schedule: [false] lets the first one take a
    step, [true] the second. [overlap] records that one of them began
    while the other was between its first and its last step. *)
Record system : Type := System {
  sys_world : world;
  first : thread;
  second : thread;
  overlap : bool
}.

Definition mid_run (t : thread) : bool :=
  match th_pc t with Acquire | Done => false | _ => true end.

Definition begins (t : thread) : bool :=
  match th_pc t with Acquire => true | _ => false end.

Definition sys_step (outcome : string -> option string) (fault : option exn)
    (s : system) (who : bool) : system :=
  if who
  then let '(t', w') := step outcome fault (second s) (sys_world s) in
       System w' (first s) t' (overlap s || (begins (second s) && mid_run (first s)))
  else let '(t', w') := step outcome fault (first s) (sys_world s) in
       System w' t' (second s) (overlap s || (begins (first s) && mid_run (second s))).

Definition exec (outcome : string -> option string) (fault : option exn)
    (schedule : list bool) (s : system) : system :=
  fold_left (sys_step outcome fault) schedule s.

End Scheduler.

(** ** [models/shopify_instance.py] *)

(** [s.replace(old, new)] for a non-empty [old], read left to right:
    [skip] counts the characters of an occurrence just replaced that are
    still to be dropped. *)
Fixpoint replace_aux (old new s : string) (skip : nat) : string :=
  match s with
  | EmptyString => EmptyString
  | String c s' =>
      match skip with
      | S k => replace_aux old new s' k
      | O => if String.prefix old s
             then new ++ replace_aux old new s' (String.length old - 1)
             else String c (replace_aux old new s' O)
      end
  end.

Definition replace (old new s : string) : string := replace_aux old new s O.

(** [_get_base_url()] on an instance with the given [shop_url] and
    [api_version]. *)
Definition _get_base_url (shop_url api_version : string) : string :=
  (* Clean up shop_url - remove .myshopify.com if already present *)
  let shop_url := Partner.strip (replace ".myshopify.com" "" shop_url) in
  "https://" ++ shop_url ++ ".myshopify.com/admin/api/" ++ api_version.

(** ** [models/payment_transaction.py] *)

Module Payment.

(** [order.shopify_transaction_ids]: the transactions that point at the
    order. *)
Definition shopify_transaction_ids (order_id : nat) (e : env) : list row :=
  List.filter (matches [("order_id", id_val order_id)])
              (table "shopify.payment.transaction" e).

(** ['x' in statuses] *)
Definition status_in (x : string) (statuses : list pyval) : bool :=
  existsb (fun v => Py.eqb (PStr x) v) statuses.

(** [_compute_payment_status] for one order: the value it assigns to
    [shopify_payment_status]. *)
Definition _compute_payment_status (order_id : nat) (e : env) : string :=
  match shopify_transaction_ids order_id e with
  | [] => "pending"
  | transactions =>
      let statuses := List.map (field "status") transactions in
      if status_in "paid" statuses || status_in "success" statuses then "paid"
      else if status_in "refunded" statuses then "refunded"
      else if status_in "authorized" statuses then "authorized"
      else "pending"
  end.

End Payment.

(** ** Vocabulary of the statements *)

(** A computation [preserves] a relation when its final store is related
    to the initial one, whether it returns or raises. *)
Definition preserves {A} (R : relation env) (m : M A) : Prop :=
  forall e, R e (snd (m e)).

(** A computation is [pure_on] an equivalence when it leaves the store as
    it is and its result is the same on equivalent stores. *)
Definition pure_on {A} (E : relation env) (m : M A) : Prop :=
  forall e e', E e e' -> m e = (fst (m e'), e).

Definition same_table (model : string) : relation env :=
  fun e e' => table model e' = table model e.

Definition same_http : relation env :=
  fun e e' => http_log e' = http_log e.

Definition id_mono : relation env :=
  fun e e' => (next_id e <= next_id e')%nat.

(** What the entity mappers read: the date library and the two region
    tables. *)
Definition same_refs : relation env :=
  fun e e' => date_parse e = date_parse e'
              /\ table "res.country" e = table "res.country" e'
              /\ table "res.country.state" e = table "res.country.state" e'.

(** The frame of an order upsert through the webhook: the line table is
    as before and ids only grow. *)
Definition lines_kept : relation env :=
  fun e e' => same_table "sale.order.line" e e' /\ id_mono e e'.

(** The frame of the order mapper: it may create customers and addresses,
    the two order tables are as before. *)
Definition order_tables_kept : relation env :=
  fun e e' => same_table "sale.order" e e' /\ same_table "sale.order.line" e e'
              /\ id_mono e e'.

(** Cursor purity of one request: if it carries a cursor it carries
    nothing else, and if it carries none it is the original query. *)
Definition cursor_pure (params : gmap string pyval) (rq : request) : Prop :=
  match req_params rq !! "page_info" with
  | Some tok => req_params rq = {[ "page_info" := tok ]}
  | None => req_params rq = params
  end.

(** The requests a computation adds to the log all satisfy [P]. *)
Definition requests_within (P : request -> Prop) : relation env :=
  fun e e' => exists new, http_log e' = http_log e ++ new /\ Forall P new.

(** The number of rows of a model under a search key. *)
Definition count_key (model : string) (key : list (string * pyval)) (e : env) : nat :=
  List.length (List.filter (matches key) (table model e)).

(** Ids come from the store's counter: no row of the model carries an id
    the counter has yet to hand out. *)
Definition fresh_ids (model : string) (e : env) : bool :=
  forallb (fun r => Nat.ltb (row_id r) (next_id e)) (table model e).

(** No line points at an order id that is still to be handed out. *)
Definition lines_wf (e : env) : bool :=
  forallb (fun l => match field "order_id" l with
                    | PInt z => (z <? Z.of_nat (next_id e))%Z
                    | _ => true
                    end)
          (table "sale.order.line" e).

(** The computation returned rather than raised. *)
Definition succeeds {A} (r : result A) : bool :=
  match r with Return _ => true | Raise _ => false end.

(** What [_reset_running_flags] does to one row. *)
Definition reset_row (r : row) : row :=
  if matches [("is_running", PBool true)] r
  then Row (row_id r) ({[ "is_running" := PBool false ]} ∪ row_vals r)
  else r.

(** A server process dies and the server is started again. The new
    process begins with an empty [_running_syncs], and the store is what
    had been committed: the open cursor of the dead process is gone. No
    method of the connector runs at this point. *)
Definition server_restart (proc : nat) (w : Scheduler.world) : Scheduler.world :=
  Scheduler.World (snd (rollback (Scheduler.store w)))
                  (delete proc (Scheduler._running_syncs w)).

(** The status a scheduled run reports: [failed] from the outer handler,
    else by the two message lists. *)
Definition run_status (fault : option exn) (errors success_messages : list string) : string :=
  match fault with
  | Some _ => "failed"
  | None => match errors with
            | [] => "success"
            | _ => match success_messages with [] => "failed" | _ => "partial" end
            end
  end.

Definition is_dict (v : pyval) : bool :=
  match v with PDict _ => true | _ => false end.

(** The items of a list up to the first that is not an object. *)
Fixpoint leading_dicts (items : list pyval) : list pyval :=
  match items with
  | PDict d :: rest => PDict d :: leading_dicts rest
  | _ => []
  end.

(** The line items the loop of [_create_order_lines] gets through: those
    of a list, up to the first that is not an object. Of any other value
    it gets through none. *)
Definition lines_reached (line_items : pyval) : list pyval :=
  match line_items with
  | PList items => leading_dicts items
  | _ => []
  end.

(** A line item that is an object whose price and quantity convert. *)
Definition line_converts (line_item : pyval) : bool :=
  match line_item with
  | PDict item =>
      match float_or 0 (get_default "price" (PStr "0") item),
            float_or 1 (get_default "quantity" (PInt 1) item) with
      | Return _, Return _ => true
      | _, _ => false
      end
  | _ => false
  end.

(** *** Concrete scenarios *)

Module Scenario.

Definition shop : instance :=
  Instance 1 "https://demo.myshopify.com/admin/api/2024-01" None.

Definition next_link (resource tok : string) : string :=
  "<https://demo.myshopify.com/admin/api/2024-01/" ++ resource ++ ".json?limit=250&page_info="
  ++ tok ++ ">; " ++ rel_next.

(** An upstream with two pages of one record each: the first page links
    to the second with the cursor [p2]. *)
Definition two_pages (resource : string) (rec1 rec2 : pyval) (rq : request) : response :=
  match req_params rq !! "page_info" with
  | Some (PStr "p2") => Response 200 (Return (PDict [(resource, PList [rec2])])) "" None
  | _ => Response 200 (Return (PDict [(resource, PList [rec1])])) "" (Some (next_link resource "p2"))
  end.

Definition one_page (resource : string) (recs : list pyval) (rq : request) : response :=
  Response 200 (Return (PDict [(resource, PList recs)])) "" None.

Definition silent (rq : request) : response := Response 200 (Return (PDict [])) "" None.

Definition empty_env (server : request -> response) (faults : list bool) : env :=
  Env ∅ ∅ 1 faults server (fun s => Some s) "2024-05-01 10:00:00" [] [] [].

Definition with_table (model : string) (rows : list row) (e : env) : env :=
  Env (<[model := rows]> (working e)) (<[model := rows]> (committed e))
      (S (foldr Nat.max (next_id e) (List.map row_id rows)))
      (commit_faults e) (upstream e) (date_parse e) (clock e) (http_log e) (logger e)
      (journal e).

Definition customer_fields (id : Z) (email : string) : dict :=
  [ ("id", PInt id); ("email", PStr email); ("first_name", PStr "Ada");
    ("last_name", PStr "Lovelace"); ("total_spent", PStr "10.50") ].

Definition customer (id : Z) (email : string) : pyval := PDict (customer_fields id email).

(** A customer record without its [id]. *)
Definition broken_customer : pyval :=
  PDict [ ("email", PStr "nobody@example.com"); ("first_name", PStr "No");
          ("last_name", PStr "Id") ].

Definition product (id : Z) (title : string) : pyval :=
  PDict [ ("id", PInt id); ("title", PStr title);
          ("variants", PList [PDict [("price", PStr "19.99"); ("sku", PStr "SKU-1")]]) ].

(** A product record without its [id]. *)
Definition broken_product : pyval :=
  PDict [ ("title", PStr "No id");
          ("variants", PList [PDict [("price", PStr "5.00")]]) ].

Definition order_fields (id : Z) : dict :=
  [ ("id", PInt id); ("order_number", PInt 1001); ("total_tax", PStr "1.20");
    ("line_items", PList [ PDict [("title", PStr "Mug"); ("price", PStr "8.00");
                                  ("quantity", PInt 2); ("sku", PStr "MUG")];
                           PDict [("title", PStr "Pen"); ("price", PStr "1.50");
                                  ("quantity", PInt 1); ("sku", PStr "PEN")] ]) ].

Definition order (id : Z) : pyval := PDict (order_fields id).

(** An order the shop has already confirmed locally. *)
Definition confirmed_order : row :=
  Row 7 (list_to_map [ ("shopify_order_id", PStr "42");
                       ("shopify_instance_id", id_val 1);
                       ("state", PStr "sale");
                       ("note", PStr "checked by sales") ]).

Definition order_update : pyval :=
  PDict [ ("id", PInt 42); ("note", PStr "changed upstream") ].

Definition price_rule (value_type value : string) : dict :=
  [ ("id", PInt 900); ("title", PStr "SPRING");
    ("value_type", PStr value_type); ("value", PStr value) ].

(** A schedule with products and orders enabled. *)
Definition schedule (id : nat) (is_running : bool) : row :=
  Row id (list_to_map [ ("name", PStr "Hourly sync");
                        ("is_running", PBool is_running);
                        ("sync_products", PBool true);
                        ("sync_orders", PBool true) ]).

Definition idle_world : Scheduler.world :=
  Scheduler.World (with_table "shopify.scheduler" [schedule 1 false] (empty_env silent [])) ∅.

Definition all_succeed (flag : string) : option string := None.

Definition orders_fail (flag : string) : option string :=
  if String.eqb flag "sync_orders" then Some "timeout" else None.

(** Two invocations for schedule 1 from the idle world, in the given
    processes. *)
Definition two_runs (proc1 proc2 : nat) : Scheduler.system :=
  Scheduler.System idle_world (Scheduler.start proc1 1) (Scheduler.start proc2 1) false.

End Scenario.

(** *** Exploring every interleaving of two runs *)

(** All schedules of a given length. *)
Fixpoint schedules (n : nat) : list (list bool) :=
  match n with
  | O => [[]]
  | S n' => flat_map (fun s => [false :: s; true :: s]) (schedules n')
  end.

Definition is_done (t : Scheduler.thread) : bool :=
  match Scheduler.th_pc t with Scheduler.Done => true | _ => false end.

(** The number of skip warnings in the log. *)
Definition skips_logged (s : Scheduler.system) : nat :=
  List.length (List.filter (fun entry => String.eqb (fst entry) "warning")
                           (logger (Scheduler.store (Scheduler.sys_world s)))).

(** When both invocations are over and they overlapped, exactly one ran
    the sub-syncs, the other was skipped, and one skip was logged. *)
Definition guard_held (s : Scheduler.system) : bool :=
  implb (is_done (Scheduler.first s) && is_done (Scheduler.second s) && Scheduler.overlap s)
        (xorb (Scheduler.th_ran (Scheduler.first s)) (Scheduler.th_ran (Scheduler.second s))
         && xorb (Scheduler.th_skipped (Scheduler.first s))
                 (Scheduler.th_skipped (Scheduler.second s))
         && negb (Scheduler.th_ran (Scheduler.first s) && Scheduler.th_skipped (Scheduler.first s))
         && negb (Scheduler.th_ran (Scheduler.second s) && Scheduler.th_skipped (Scheduler.second s))
         && Nat.eqb (skips_logged s) 1).


(** *** Vocabulary of the further properties *)

(** The number of entries the logger holds at level [error]. *)
Definition errors_logged (e : env) : nat :=
  List.length (List.filter (fun entry => String.eqb (fst entry) "error") (logger e)).

(** The oracles of the environment are what they were. *)
Definition same_oracles : relation env :=
  fun e e' => upstream e' = upstream e /\ date_parse e' = date_parse e.

(** A page the product and order imports can cut into batches: the body
    is an object, and what it holds under [key] is nothing (missing,
    [null], empty) or has a length and slices, as a list does and a
    string. *)
Definition sliceable (v : pyval) : bool :=
  match v with PList _ | PStr _ => true | _ => false end.

Definition page_ok (key : string) (resp : response) : bool :=
  match page_of key resp with
  | Return v => negb (truthy v) || sliceable v
  | Raise _ => false
  end.

(** The cursor walk of the product and order imports over [server] is
    over within [fuel] requests: it comes to a response that is not a
    200, to a body it cannot read or that holds nothing under [key], or
    to a page without a next link. *)
Fixpoint cursor_walk_ends (fuel : nat) (server : request -> response) (key url : string)
    (params : gmap string pyval) (page_info : pyval) : bool :=
  match fuel with
  | O => false
  | S fuel' =>
      let response :=
        server (Request url (if truthy page_info
                             then {[ "page_info" := page_info ]} else params)) in
      negb (status_code response =? 200)
      || match page_of key response with
         | Return v =>
             negb (truthy v)
             || match next_page response page_info with
                | Return (Some p) => cursor_walk_ends fuel' server key url params p
                | _ => true
                end
         | Raise _ => true
         end
  end.

(** The query of the order import before any cursor. *)
Definition order_query (date_from : option string) : gmap string pyval :=
  match date_from with
  | Some d => <["created_at_min" := PStr d]>
                (list_to_map [ ("limit", PInt 250); ("status", PStr "any") ])
  | None => list_to_map [ ("limit", PInt 250); ("status", PStr "any") ]
  end.


(** The dictionary entry of a schedule in a process. *)
Definition entry (w : Scheduler.world) (proc self : nat) : bool :=
  default false (default ∅ (Scheduler._running_syncs w !! proc) !! Scheduler.scheduler_key self).

(** A skipped invocation is on its way out and has not run. *)
Definition skipped_is_out (t : Scheduler.thread) : Prop :=
  Scheduler.th_skipped t = true ->
  Scheduler.th_ran t = false
  /\ (Scheduler.th_pc t = Scheduler.ReleaseSkipped \/ Scheduler.th_pc t = Scheduler.Done).

(** An invocation that has run the sub-syncs is past them. *)
Definition ran_is_late (t : Scheduler.thread) : Prop :=
  Scheduler.th_ran t = true ->
  Scheduler.th_pc t = Scheduler.Finish \/ Scheduler.th_pc t = Scheduler.Release
  \/ Scheduler.th_pc t = Scheduler.Done.

(** What holds of two invocations of one schedule in one process at every
    moment: the entry is set while one of them is between its first and
    last step, they are never both there, a skipped one has not run, and
    an overlap has left one of them skipped. *)
Definition guard_inv (proc self : nat) (s : Scheduler.system) : Prop :=
  Scheduler.th_proc (Scheduler.first s) = proc
  /\ Scheduler.th_self (Scheduler.first s) = self
  /\ Scheduler.th_proc (Scheduler.second s) = proc
  /\ Scheduler.th_self (Scheduler.second s) = self
  /\ (Scheduler.mid_run (Scheduler.first s) || Scheduler.mid_run (Scheduler.second s) = true ->
      entry (Scheduler.sys_world s) proc self = true)
  /\ Scheduler.mid_run (Scheduler.first s) && Scheduler.mid_run (Scheduler.second s) = false
  /\ skipped_is_out (Scheduler.first s)
  /\ skipped_is_out (Scheduler.second s)
  /\ ran_is_late (Scheduler.first s)
  /\ ran_is_late (Scheduler.second s)
  /\ (Scheduler.overlap s = true ->
      Scheduler.th_skipped (Scheduler.first s) = true
      \/ Scheduler.th_skipped (Scheduler.second s) = true).

(** The topics the webhook handlers act on; every other topic is
    acknowledged and nothing else. *)
Definition handled_topics : list string :=
  [ "products/create"; "products/update"; "products/delete";
    "orders/create"; "orders/updated";
    "customers/create"; "customers/update" ].

(** A value that passes [','.join(map(str, ids))] under its [if ids:]
    guard: one the guard stops, or one that can be iterated. *)
Definition joinable (ids : pyval) : bool := negb (truthy ids) || succeeds (iterate ids).

(** The search key of a price rule: external id and instance. *)
Definition discount_key (price_rule : dict) (inst : instance) : list (string * pyval) :=
  [ ("shopify_price_rule_id", PStr (Py.str (get "id" price_rule)));
    ("shopify_instance_id", id_val (inst_id inst)) ].

(** [sep] starts at no position of [a] in the text [a ++ rest]. *)
Fixpoint free_of (sep a rest : string) : bool :=
  match a with
  | EmptyString => true
  | String c a' => negb (String.prefix sep (a ++ rest)) && free_of sep a' rest
  end.

(** The sub-syncs a schedule has switched on, and whether one fails
    under an outcome. *)
Definition enabled (self : row) (blocks : list (string * string * string))
  : list (string * string * string) :=
  List.filter (fun b => truthy (field (fst (fst b)) self)) blocks.

Definition fails (outcome : string -> option string) (b : string * string * string) : bool :=
  match outcome (fst (fst b)) with Some _ => true | None => false end.

(** The store proper, without the request log: tables, committed state,
    id counter, journal of writes and logger. *)
Definition same_store : relation env :=
  fun e e' => working e' = working e /\ committed e' = committed e
              /\ next_id e' = next_id e /\ journal e' = journal e
              /\ logger e' = logger e.

(** * Properties *)

(** ** Composition rules *)

Section Preserves.
Context (R : relation env) `{!PreOrder R}.

Lemma preserves_ret {A} (a : A) : preserves R (ret a).
Proof. intros e. reflexivity. Qed.

Lemma preserves_raise {A} (x : exn) : preserves R (@raise A x).
Proof. intros e. reflexivity. Qed.

Lemma preserves_lift {A} (r : result A) : preserves R (lift r).
Proof. intros e. reflexivity. Qed.

Lemma preserves_bind {A B} (m : M A) (k : A -> M B) :
  preserves R m -> (forall a, preserves R (k a)) -> preserves R (bind m k).
Proof.
  intros Hm Hk e. unfold bind. specialize (Hm e).
  destruct (m e) as [[a | x] e1]; simpl in *.
  - transitivity e1; [exact Hm | apply Hk].
  - exact Hm.
Qed.

Lemma preserves_try_except {A} (body : M A) (handler : exn -> M A) :
  preserves R body -> (forall x, preserves R (handler x)) ->
  preserves R (try_except body handler).
Proof.
  intros Hm Hk e. unfold try_except. specialize (Hm e).
  destruct (body e) as [[a | x] e1]; simpl in *.
  - exact Hm.
  - transitivity e1; [exact Hm | apply Hk].
Qed.

Lemma preserves_reader {A} (f : env -> A) : preserves R (fun e => (Return (f e), e)).
Proof. intros e. reflexivity. Qed.
End Preserves.

Section PureOn.
Context (E : relation env) `{!Equivalence E}.

Lemma pure_on_ret {A} (a : A) : pure_on E (ret a).
Proof. intros e e' _. reflexivity. Qed.

Lemma pure_on_raise {A} (x : exn) : pure_on E (@raise A x).
Proof. intros e e' _. reflexivity. Qed.

Lemma pure_on_lift {A} (r : result A) : pure_on E (lift r).
Proof. intros e e' _. reflexivity. Qed.

Lemma pure_on_bind {A B} (m : M A) (k : A -> M B) :
  pure_on E m -> (forall a, pure_on E (k a)) -> pure_on E (bind m k).
Proof.
  intros Hm Hk e e' He. unfold bind.
  rewrite (Hm e e' He). rewrite (Hm e' e' (reflexivity e')).
  destruct (fst (m e')) as [a | x]; simpl; [| reflexivity].
  rewrite (Hk a e e' He). reflexivity.
Qed.

Lemma pure_on_try_except {A} (body : M A) (handler : exn -> M A) :
  pure_on E body -> (forall x, pure_on E (handler x)) -> pure_on E (try_except body handler).
Proof.
  intros Hm Hk e e' He. unfold try_except.
  rewrite (Hm e e' He). rewrite (Hm e' e' (reflexivity e')).
  destruct (fst (body e')) as [a | x]; simpl; [reflexivity |].
  rewrite (Hk x e e' He). reflexivity.
Qed.

Lemma pure_on_same {A} (m : M A) e : pure_on E m -> snd (m e) = e.
Proof. intros Hm. rewrite (Hm e e (reflexivity e)). reflexivity. Qed.

Lemma pure_on_result {A} (m : M A) e e' : pure_on E m -> E e e' -> fst (m e) = fst (m e').
Proof. intros Hm He. rewrite (Hm e e' He). reflexivity. Qed.
End PureOn.

(** ** The primitives, table by table *)

#[local] Instance same_table_preorder model : PreOrder (same_table model).
Proof. split; [intros e; reflexivity | intros a b c H1 H2; unfold same_table in *; congruence]. Qed.

#[local] Instance same_http_preorder : PreOrder same_http.
Proof. split; [intros e; reflexivity | intros a b c H1 H2; unfold same_http in *; congruence]. Qed.

#[local] Instance id_mono_preorder : PreOrder id_mono.
Proof. split; [intros e; unfold id_mono; lia | intros a b c H1 H2; unfold id_mono in *; lia]. Qed.

#[local] Instance lines_kept_preorder : PreOrder lines_kept.
Proof.
  split.
  - intros e. split; reflexivity.
  - intros a b c [H1 H2] [H3 H4]. split; etransitivity; eauto.
Qed.

#[local] Instance order_tables_kept_preorder : PreOrder order_tables_kept.
Proof.
  split.
  - intros e. repeat split; reflexivity.
  - intros a b c (H1 & H2 & H3) (H4 & H5 & H6). repeat split; etransitivity; eauto.
Qed.

#[local] Instance same_refs_equivalence : Equivalence same_refs.
Proof.
  split.
  - intros e. repeat split.
  - intros a b (H1 & H2 & H3). repeat split; congruence.
  - intros a b c (H1 & H2 & H3) (H4 & H5 & H6). repeat split; congruence.
Qed.

Lemma table_create_ne model model' vals e :
  model <> model' -> table model (snd (create model' vals e)) = table model e.
Proof. intros H. unfold table, create. simpl. rewrite lookup_insert_ne by congruence. reflexivity. Qed.

Lemma table_create_eq model vals e :
  table model (snd (create model vals e))
  = table model e ++ [Row (next_id e) (vals ∪ defaults model)].
Proof. unfold table, create. simpl. rewrite lookup_insert_eq. reflexivity. Qed.

Lemma table_write_ne model model' id vals e :
  model <> model' -> table model (snd (write model' id vals e)) = table model e.
Proof. intros H. unfold table, write. simpl. rewrite lookup_insert_ne by congruence. reflexivity. Qed.

Lemma table_write_eq model id vals e :
  table model (snd (write model id vals e)) = List.map (write_row id vals) (table model e).
Proof. unfold table, write. simpl. rewrite lookup_insert_eq. reflexivity. Qed.

Lemma table_log model level msg e : table model (snd (log level msg e)) = table model e.
Proof. reflexivity. Qed.

Lemma table_requests_get model url params e :
  table model (snd (requests_get url params e)) = table model e.
Proof. reflexivity. Qed.

Lemma table_commit model e : table model (snd (commit e)) = table model e.
Proof. unfold commit. destruct (commit_faults e) as [| [] ?]; reflexivity. Qed.

Lemma next_id_write model id vals e : next_id (snd (write model id vals e)) = next_id e.
Proof. reflexivity. Qed.

Lemma next_id_create model vals e : next_id (snd (create model vals e)) = S (next_id e).
Proof. reflexivity. Qed.

Lemma next_id_commit e : next_id (snd (commit e)) = next_id e.
Proof. unfold commit. destruct (commit_faults e) as [| [] ?]; reflexivity. Qed.

Lemma http_log_commit e : http_log (snd (commit e)) = http_log e.
Proof. unfold commit. destruct (commit_faults e) as [| [] ?]; reflexivity. Qed.

(** Closes a goal [preserves R prim] for a primitive or a reader. *)
Ltac prim :=
  let e := fresh "e" in
  intros e;
  unfold order_tables_kept, lines_kept, same_table, same_http, id_mono;
  repeat split;
  rewrite ?table_create_ne, ?table_write_ne, ?table_commit, ?next_id_commit,
          ?http_log_commit by (intros ?; discriminate);
  try reflexivity; simpl; try lia.

(** Walks a computation along its binds, handlers and case splits. *)
Ltac frame_walk :=
  repeat match goal with
    | |- preserves _ (bind _ _) => apply preserves_bind; [try exact _ | | intros ?]
    | |- preserves _ (try_except _ _) => apply preserves_try_except; [try exact _ | | intros ?]
    | |- preserves _ (match ?x with _ => _ end) => destruct x
    | |- preserves _ _ => solve [prim]
    end.

Lemma parse_datetime_preserves R `{!PreOrder R} v : preserves R (_parse_shopify_datetime v).
Proof. intros e. reflexivity. Qed.

Lemma datetime_now_preserves R `{!PreOrder R} : preserves R datetime_now.
Proof. intros e. reflexivity. Qed.

Lemma search_preserves R `{!PreOrder R} model domain : preserves R (search model domain).
Proof. intros e. reflexivity. Qed.

(** ** The entity mappers only read *)

Lemma parse_datetime_pure v : pure_on same_refs (_parse_shopify_datetime v).
Proof.
  intros e e' (Hd & _). unfold _parse_shopify_datetime. simpl. rewrite Hd. reflexivity.
Qed.

Lemma search_country_pure domain : pure_on same_refs (search "res.country" domain).
Proof.
  intros e e' (_ & Hc & _). unfold search. simpl. rewrite Hc. reflexivity.
Qed.

Ltac pure_walk :=
  repeat match goal with
    | |- pure_on _ (bind _ _) => apply pure_on_bind; [try exact _ | | intros ?]
    | |- pure_on _ (ret _) => apply pure_on_ret; try exact _
    | |- pure_on _ (lift _) => apply pure_on_lift; try exact _
    | |- pure_on _ (raise _) => apply pure_on_raise; try exact _
    | |- pure_on _ (_parse_shopify_datetime _) => apply parse_datetime_pure
    | |- pure_on _ (search "res.country" _) => apply search_country_pure
    | |- pure_on _ (match ?x with _ => _ end) => destruct x
    end.

Lemma get_country_id_pure code : pure_on same_refs (Partner._get_country_id code).
Proof. unfold Partner._get_country_id. pure_walk. Qed.

Lemma get_state_id_pure sc cc : pure_on same_refs (Partner._get_state_id sc cc).
Proof.
  unfold Partner._get_state_id. pure_walk.
  intros e e' (_ & Hc & Hs). simpl. rewrite Hc, Hs. reflexivity.
Qed.

Lemma prepare_customer_vals_pure data inst :
  pure_on same_refs (Partner._prepare_customer_vals data inst).
Proof.
  unfold Partner._prepare_customer_vals. pure_walk;
    first [apply get_country_id_pure | apply get_state_id_pure].
Qed.

Lemma prepare_product_vals_pure data inst :
  pure_on same_refs (Product._prepare_product_vals data inst).
Proof. unfold Product._prepare_product_vals. pure_walk. Qed.

(** A pure computation preserves every preorder. *)
Lemma pure_preserves {A} (R : relation env) `{!PreOrder R} (m : M A) :
  pure_on same_refs m -> preserves R m.
Proof.
  intros Hm e. rewrite (pure_on_same same_refs m e Hm). reflexivity.
Qed.

(** ** Upsert by external id *)

Lemma matches_key_eqb k1 v1 k2 v2 r :
  row_vals r !! k1 = Some (PStr v1) ->
  row_vals r !! k2 = Some (PInt v2) ->
  matches [(k1, PStr v1); (k2, PInt v2)] r = true.
Proof.
  intros H1 H2. unfold matches, field. simpl. rewrite H1, H2. simpl.
  rewrite String.eqb_refl, Z.eqb_refl. reflexivity.
Qed.

Lemma head_filter_none {A} (f : A -> bool) (l : list A) :
  List.length (List.filter f l) = 0%nat -> head (List.filter f l) = None.
Proof. destruct (List.filter f l); [reflexivity | discriminate]. Qed.

Lemma head_filter_in {A} (f : A -> bool) (l : list A) (a : A) :
  head (List.filter f l) = Some a -> In a l.
Proof.
  intros H. assert (In a (List.filter f l)) as Hin.
  { destruct (List.filter f l); [discriminate | inversion H; left; reflexivity]. }
  apply List.filter_In in Hin. tauto.
Qed.

Lemma filter_none {A} (f : A -> bool) (l : list A) :
  List.length (List.filter f l) = 0%nat -> List.filter f l = [].
Proof. destruct (List.filter f l); [reflexivity | discriminate]. Qed.

(** Writing to a fresh id leaves the older rows alone. *)
Lemma map_write_row_fresh n vals (t : list row) :
  Forall (fun r => (row_id r < n)%nat) t -> List.map (write_row n vals) t = t.
Proof.
  induction 1 as [| r t Hr _ IH]; [reflexivity |].
  simpl. rewrite IH. unfold write_row.
  destruct (Nat.eqb_spec (row_id r) n); [lia | reflexivity].
Qed.

Lemma prepare_product_vals_key data inst e vals pid :
  fst (Product._prepare_product_vals data inst e) = Return vals ->
  index "id" data = Return pid ->
  vals !! "shopify_product_id" = Some (PStr (Py.str pid))
  /\ vals !! "shopify_instance_id" = Some (PInt (Z.of_nat (inst_id inst))).
Proof.
  intros H Hid. destruct data as [| | | | | | d]; try discriminate Hid.
  unfold Product._prepare_product_vals in H. unfold bind at 1 in H.
  cbn [lift as_dict] in H. unfold bind at 1 in H.
  match type of H with
  | context [match ?m e with _ => _ end] => destruct (m e) as [[ps | x] e1]
  end; [| discriminate].
  unfold bind, lift, ret, _parse_shopify_datetime in H. rewrite Hid in H.
  simpl in H. destruct (inst_currency inst); inversion H; subst; clear H.
  - rewrite !lookup_insert_ne by discriminate. split; reflexivity.
  - split; reflexivity.
Qed.

Lemma prepare_customer_vals_key data inst e vals cid :
  fst (Partner._prepare_customer_vals data inst e) = Return vals ->
  index "id" data = Return cid ->
  vals !! "shopify_customer_id" = Some (PStr (Py.str cid))
  /\ vals !! "shopify_instance_id" = Some (PInt (Z.of_nat (inst_id inst))).
Proof.
  intros H Hid. destruct data as [| | | | | | d]; try discriminate Hid.
  unfold Partner._prepare_customer_vals, bind, lift, ret, _parse_shopify_datetime in H.
  cbn [as_dict] in H. rewrite Hid in H.
  destruct (Py.float _) as [ts | x]; [| discriminate].
  simpl in H.
  destruct (truthy _).
  - destruct (as_dict _) as [address | x]; [| discriminate].
    destruct (Partner._get_country_id _ e) as [[c | x] e1]; [| discriminate].
    destruct (Partner._get_state_id _ _ e1) as [[s | x] e2]; [| discriminate].
    simpl in H. inversion H; subst; clear H.
    split; (rewrite lookup_union_r by reflexivity); reflexivity.
  - inversion H; subst; clear H. split; reflexivity.
Qed.

Lemma pure_run {A} (m : M A) e a :
  pure_on same_refs m -> fst (m e) = Return a -> m e = (Return a, e).
Proof. intros Hm H. rewrite (Hm e e (reflexivity e)). rewrite H. reflexivity. Qed.

Lemma upsert_product_creates data pid inst e vals :
  index "id" data = Return pid ->
  fst (Product._prepare_product_vals data inst e) = Return vals ->
  count_key "product.template" (Product.product_key pid inst) e = 0%nat ->
  Product.upsert_product data inst e
  = (Return true, snd (log "debug" "Created product" (snd (create "product.template" vals e)))).
Proof.
  intros Hid Hvals Hcount. unfold Product.upsert_product, bind.
  rewrite (pure_run _ e vals (prepare_product_vals_pure data inst) Hvals).
  unfold lift. rewrite Hid. unfold search.
  rewrite head_filter_none by exact Hcount.
  reflexivity.
Qed.

Lemma upsert_product_updates data pid inst e vals r :
  index "id" data = Return pid ->
  fst (Product._prepare_product_vals data inst e) = Return vals ->
  head (List.filter (matches (Product.product_key pid inst)) (table "product.template" e)) = Some r ->
  Product.upsert_product data inst e
  = (Return false,
     snd (log "debug" "Updated product" (snd (write "product.template" (row_id r) vals e)))).
Proof.
  intros Hid Hvals Hhead. unfold Product.upsert_product, bind.
  rewrite (pure_run _ e vals (prepare_product_vals_pure data inst) Hvals).
  unfold lift. rewrite Hid. unfold search. rewrite Hhead.
  reflexivity.
Qed.

Lemma fresh_ids_forall model e :
  fresh_ids model e = true -> Forall (fun r => (row_id r < next_id e)%nat) (table model e).
Proof.
  unfold fresh_ids. intros H. apply List.Forall_forall. intros r Hr.
  rewrite List.forallb_forall in H. apply Nat.ltb_lt. apply H. exact Hr.
Qed.

Lemma succeeds_return {A} (r : result A) : succeeds r = true -> exists a, r = Return a.
Proof. destruct r; [eauto | discriminate]. Qed.

(** After a create under a key nobody had, a second pass finds the new row,
    writes to it, and the key still names one row. *)
Section UpsertTwice.
Variables (model : string) (key : list (string * pyval)) (vals : gmap string pyval).
Variable e : env.
Hypothesis Hfresh : fresh_ids model e = true.
Hypothesis Hnone : count_key model key e = 0%nat.
Hypothesis Hkey : forall rest, matches key (Row (next_id e) (vals ∪ rest)) = true.

Lemma created_is_found :
  List.filter (matches key) (table model (snd (create model vals e)))
  = [Row (next_id e) (vals ∪ defaults model)].
Proof.
  rewrite table_create_eq, List.filter_app, (filter_none _ _ Hnone).
  simpl. rewrite Hkey. reflexivity.
Qed.

Lemma created_counts_one : count_key model key (snd (create model vals e)) = 1%nat.
Proof. unfold count_key. rewrite created_is_found. reflexivity. Qed.

Lemma rewritten_counts_one :
  count_key model key (snd (write model (next_id e) vals (snd (create model vals e))))
  = 1%nat.
Proof.
  unfold count_key. rewrite table_write_eq, table_create_eq, List.map_app.
  rewrite (map_write_row_fresh _ _ _ (fresh_ids_forall _ _ Hfresh)), List.filter_app,
          (filter_none _ _ Hnone).
  simpl. unfold write_row. simpl. rewrite Nat.eqb_refl, Hkey. reflexivity.
Qed.

(** Writing the values a row was created with changes no row. *)
Lemma rewritten_is_same :
  table model (snd (write model (next_id e) vals (snd (create model vals e))))
  = table model (snd (create model vals e)).
Proof.
  rewrite table_write_eq, table_create_eq, List.map_app.
  rewrite (map_write_row_fresh _ _ _ (fresh_ids_forall _ _ Hfresh)).
  simpl. unfold write_row. simpl. rewrite Nat.eqb_refl.
  rewrite (assoc_L (∪)), (idemp_L (∪) vals). reflexivity.
Qed.
End UpsertTwice.

Lemma same_refs_after_create model vals level msg e :
  model <> "res.country" -> model <> "res.country.state" ->
  same_refs (snd (log level msg (snd (create model vals e)))) e
  /\ same_refs (snd (create model vals e)) e.
Proof.
  intros H1 H2. unfold same_refs.
  rewrite !table_log, !table_create_ne by congruence. repeat split.
Qed.

Lemma count_key_log model key level msg e :
  count_key model key (snd (log level msg e)) = count_key model key e.
Proof. reflexivity. Qed.

Lemma product_key_matches pid inst n vals rest :
  vals !! "shopify_product_id" = Some (PStr (Py.str pid)) ->
  vals !! "shopify_instance_id" = Some (PInt (Z.of_nat (inst_id inst))) ->
  matches (Product.product_key pid inst) (Row n (vals ∪ rest)) = true.
Proof.
  intros H1 H2. apply matches_key_eqb; simpl; apply lookup_union_Some_l; assumption.
Qed.

Lemma customer_key_matches cid inst n vals rest :
  vals !! "shopify_customer_id" = Some (PStr (Py.str cid)) ->
  vals !! "shopify_instance_id" = Some (PInt (Z.of_nat (inst_id inst))) ->
  matches (Partner.customer_key cid inst) (Row n (vals ∪ rest)) = true.
Proof.
  intros H1 H2. apply matches_key_eqb; simpl; apply lookup_union_Some_l; assumption.
Qed.

Lemma product_import_twice data pid inst e vals :
  index "id" data = Return pid ->
  fst (Product._prepare_product_vals data inst e) = Return vals ->
  fresh_ids "product.template" e = true ->
  count_key "product.template" (Product.product_key pid inst) e = 0%nat ->
  let first := Product._process_product_batch [data] inst 0 0 e in
  let second := Product._process_product_batch [data] inst 0 0 (snd first) in
  fst first = Return (1%nat, 0%nat)
  /\ table "product.template" (snd first)
     = table "product.template" e
       ++ [Row (next_id e) (vals ∪ defaults "product.template")]
  /\ journal (snd first) = journal e
  /\ fst second = Return (0%nat, 1%nat)
  /\ journal (snd second) = journal (snd first) ++ [("product.template", next_id e, vals)]
  /\ table "product.template" (snd second) = table "product.template" (snd first)
  /\ next_id (snd second) = next_id (snd first)
  /\ count_key "product.template" (Product.product_key pid inst) (snd second) = 1%nat.
Proof.
  intros Hid Hvals Hfresh Hnone.
  destruct (prepare_product_vals_key _ _ _ _ _ Hvals Hid) as [Hk1 Hk2].
  pose proof (fun rest => product_key_matches pid inst (next_id e) vals rest Hk1 Hk2) as Hkey.
  set (e1 := snd (log "debug" "Created product" (snd (create "product.template" vals e)))).
  assert (H1 : Product._process_product_batch [data] inst 0 0 e = (Return (1%nat, 0%nat), e1)).
  { unfold Product._process_product_batch, try_except, bind.
    rewrite (upsert_product_creates _ _ _ _ _ Hid Hvals Hnone). reflexivity. }
  assert (Hvals1 : fst (Product._prepare_product_vals data inst e1) = Return vals).
  { rewrite <- Hvals. apply (pure_on_result same_refs); [apply prepare_product_vals_pure |].
    apply (proj1 (same_refs_after_create "product.template" vals "debug" "Created product" e
                    ltac:(discriminate) ltac:(discriminate))). }
  assert (Hhead : head (List.filter (matches (Product.product_key pid inst))
                                    (table "product.template" e1))
                  = Some (Row (next_id e) (vals ∪ defaults "product.template"))).
  { unfold e1. rewrite table_log.
    rewrite (created_is_found _ _ vals e Hnone Hkey). reflexivity. }
  cbv zeta. rewrite H1. cbn [fst snd].
  assert (H2 : Product._process_product_batch [data] inst 0 0 e1
               = (Return (0%nat, 1%nat),
                  snd (log "debug" "Updated product"
                         (snd (write "product.template" (next_id e) vals e1))))).
  { unfold Product._process_product_batch, try_except, bind.
    rewrite (upsert_product_updates _ _ _ _ _ _ Hid Hvals1 Hhead). reflexivity. }
  rewrite H2. cbn [fst snd].
  split; [reflexivity |]. split.
  { unfold e1. rewrite table_log. apply table_create_eq. }
  split; [reflexivity |]. split; [reflexivity |]. split; [reflexivity |].
  assert (Hsame : forall e2 : env,
             table "product.template" e2
             = table "product.template"
                 (snd (write "product.template" (next_id e) vals
                         (snd (create "product.template" vals e)))) ->
             table "product.template" e2 = table "product.template" e1).
  { intros e2 ->. unfold e1. rewrite table_log. apply rewritten_is_same. exact Hfresh. }
  split; [apply Hsame; reflexivity |]. split; [reflexivity |].
  rewrite count_key_log. unfold e1.
  change (count_key "product.template" (Product.product_key pid inst)
            (snd (write "product.template" (next_id e) vals
                    (snd (create "product.template" vals e)))) = 1%nat).
  apply rewritten_counts_one; assumption.
Qed.

Lemma customer_import_twice data cid inst e vals :
  index "id" data = Return cid ->
  fst (Partner._prepare_customer_vals data inst e) = Return vals ->
  fresh_ids "res.partner" e = true ->
  count_key "res.partner" (Partner.customer_key cid inst) e = 0%nat ->
  let first := Partner.process_customers [data] inst 0 0 e in
  let second := Partner.process_customers [data] inst 0 0 (snd first) in
  fst first = Return (1%nat, 0%nat)
  /\ table "res.partner" (snd first)
     = table "res.partner" e ++ [Row (next_id e) (vals ∪ defaults "res.partner")]
  /\ journal (snd first) = journal e
  /\ fst second = Return (0%nat, 1%nat)
  /\ journal (snd second) = journal (snd first) ++ [("res.partner", next_id e, vals)]
  /\ table "res.partner" (snd second) = table "res.partner" (snd first)
  /\ next_id (snd second) = next_id (snd first)
  /\ count_key "res.partner" (Partner.customer_key cid inst) (snd second) = 1%nat.
Proof.
  intros Hid Hvals Hfresh Hnone.
  destruct (prepare_customer_vals_key _ _ _ _ _ Hvals Hid) as [Hk1 Hk2].
  pose proof (fun rest => customer_key_matches cid inst (next_id e) vals rest Hk1 Hk2) as Hkey.
  set (e1 := snd (create "res.partner" vals e)).
  assert (H1 : Partner.process_customers [data] inst 0 0 e = (Return (1%nat, 0%nat), e1)).
  { unfold Partner.process_customers, bind.
    rewrite (pure_run _ e vals (prepare_customer_vals_pure data inst) Hvals).
    unfold lift. rewrite Hid. unfold search.
    rewrite head_filter_none by exact Hnone. reflexivity. }
  assert (Hvals1 : fst (Partner._prepare_customer_vals data inst e1) = Return vals).
  { rewrite <- Hvals. apply (pure_on_result same_refs); [apply prepare_customer_vals_pure |].
    apply (proj2 (same_refs_after_create "res.partner" vals "" "" e
                    ltac:(discriminate) ltac:(discriminate))). }
  cbv zeta. rewrite H1. cbn [fst snd].
  assert (H2 : Partner.process_customers [data] inst 0 0 e1
               = (Return (0%nat, 1%nat), snd (write "res.partner" (next_id e) vals e1))).
  { unfold Partner.process_customers, bind.
    rewrite (pure_run _ e1 vals (prepare_customer_vals_pure data inst) Hvals1).
    unfold lift. rewrite Hid. unfold search.
    unfold e1 at 1. rewrite (created_is_found _ _ vals e Hnone Hkey). reflexivity. }
  rewrite H2. cbn [fst snd].
  split; [reflexivity |]. split; [apply table_create_eq |].
  split; [reflexivity |]. split; [reflexivity |]. split; [reflexivity |].
  split; [apply rewritten_is_same; exact Hfresh |]. split; [reflexivity |].
  apply rewritten_counts_one; assumption.
Qed.

(** C6. Importing one upstream record twice with the same payload leaves
    one local row under (external id, instance). The first pass creates
    it: it counts a create, appends one row with the mapped values to
    the table and writes to no row. The second pass finds that row by
    the key and updates it: it counts an update, its one write goes to
    the row the first pass created and carries the mapped values, it
    hands out no new id, and the table is what the first pass left. The
    statement covers the product batch loop and the customer loop, each
    under its own conditions: the payload has an [id] and maps to
    [vals] without an exception, the key is not yet present, and the
    table's ids come from the store's counter. *)
Theorem upsert_twice_one_record (inst : instance) (e : env) :
  (forall (product_data pid : pyval) (vals : gmap string pyval),
     index "id" product_data = Return pid ->
     fst (Product._prepare_product_vals product_data inst e) = Return vals ->
     fresh_ids "product.template" e = true ->
     count_key "product.template" (Product.product_key pid inst) e = 0%nat ->
     let first := Product._process_product_batch [product_data] inst 0 0 e in
     let second := Product._process_product_batch [product_data] inst 0 0 (snd first) in
     fst first = Return (1%nat, 0%nat)
     /\ table "product.template" (snd first)
        = table "product.template" e
          ++ [Row (next_id e) (vals ∪ defaults "product.template")]
     /\ journal (snd first) = journal e
     /\ fst second = Return (0%nat, 1%nat)
     /\ journal (snd second) = journal (snd first) ++ [("product.template", next_id e, vals)]
     /\ table "product.template" (snd second) = table "product.template" (snd first)
     /\ next_id (snd second) = next_id (snd first)
     /\ count_key "product.template" (Product.product_key pid inst) (snd second) = 1%nat)
  /\
  (forall (customer_data cid : pyval) (vals : gmap string pyval),
     index "id" customer_data = Return cid ->
     fst (Partner._prepare_customer_vals customer_data inst e) = Return vals ->
     fresh_ids "res.partner" e = true ->
     count_key "res.partner" (Partner.customer_key cid inst) e = 0%nat ->
     let first := Partner.process_customers [customer_data] inst 0 0 e in
     let second := Partner.process_customers [customer_data] inst 0 0 (snd first) in
     fst first = Return (1%nat, 0%nat)
     /\ table "res.partner" (snd first)
        = table "res.partner" e ++ [Row (next_id e) (vals ∪ defaults "res.partner")]
     /\ journal (snd first) = journal e
     /\ fst second = Return (0%nat, 1%nat)
     /\ journal (snd second) = journal (snd first) ++ [("res.partner", next_id e, vals)]
     /\ table "res.partner" (snd second) = table "res.partner" (snd first)
     /\ next_id (snd second) = next_id (snd first)
     /\ count_key "res.partner" (Partner.customer_key cid inst) (snd second) = 1%nat).
Proof.
  split.
  - intros product_data pid vals Hid Hvals Hfresh Hnone.
    exact (product_import_twice _ _ _ _ _ Hid Hvals Hfresh Hnone).
  - intros customer_data cid vals Hid Hvals Hfresh Hnone.
    exact (customer_import_twice _ _ _ _ _ Hid Hvals Hfresh Hnone).
Qed.

Lemma upsert_twice_one_record_witness :
  (let e := Scenario.empty_env Scenario.silent [] in
   let first := Product._process_product_batch [Scenario.product 1 "Mug"] Scenario.shop 0 0 e in
   let second := Product._process_product_batch [Scenario.product 1 "Mug"] Scenario.shop 0 0
                                                (snd first) in
   fst first = Return (1%nat, 0%nat)
   /\ journal (snd first) = []
   /\ fst second = Return (0%nat, 1%nat)
   /\ List.map fst (journal (snd second)) = [("product.template", 1%nat)]
   /\ table "product.template" (snd second) = table "product.template" (snd first)
   /\ count_key "product.template" (Product.product_key (PInt 1) Scenario.shop) (snd second)
      = 1%nat)
  /\
  (let e := Scenario.empty_env Scenario.silent [] in
   let first := Partner.process_customers [Scenario.customer 5 "ada@example.com"] Scenario.shop 0 0 e in
   let second := Partner.process_customers [Scenario.customer 5 "ada@example.com"] Scenario.shop 0 0
                                           (snd first) in
   fst first = Return (1%nat, 0%nat)
   /\ journal (snd first) = []
   /\ fst second = Return (0%nat, 1%nat)
   /\ List.map fst (journal (snd second)) = [("res.partner", 1%nat)]
   /\ table "res.partner" (snd second) = table "res.partner" (snd first)
   /\ count_key "res.partner" (Partner.customer_key (PInt 5) Scenario.shop) (snd second) = 1%nat).
Proof.
  set (e := Scenario.empty_env Scenario.silent []).
  pose (pvals := match fst (Product._prepare_product_vals (Scenario.product 1 "Mug")
                              Scenario.shop e) with
                 | Return v => v
                 | Raise _ => ∅
                 end).
  pose (cvals := match fst (Partner._prepare_customer_vals
                              (Scenario.customer 5 "ada@example.com") Scenario.shop e) with
                 | Return v => v
                 | Raise _ => ∅
                 end).
  destruct (upsert_twice_one_record Scenario.shop e) as [Hproduct Hcustomer].
  split.
  - destruct (Hproduct (Scenario.product 1 "Mug") (PInt 1) pvals eq_refl
                ltac:(vm_compute; reflexivity) eq_refl eq_refl)
      as (H1 & _ & H3 & H4 & H5 & H6 & _ & H8).
    cbv zeta. fold e.
    repeat split; assumption.
  - destruct (Hcustomer (Scenario.customer 5 "ada@example.com") (PInt 5) cvals eq_refl
                ltac:(vm_compute; reflexivity) eq_refl eq_refl)
      as (H1 & _ & H3 & H4 & H5 & H6 & _ & H8).
    cbv zeta. fold e.
    repeat split; assumption.
Defined.

(** ** Stale-flag recovery *)

Lemma union_twice (vals m : gmap string pyval) : vals ∪ (vals ∪ m) = vals ∪ m.
Proof. rewrite (assoc_L (∪)). rewrite (idemp_L (∪) vals). reflexivity. Qed.

Lemma table_write_all model rs vals : forall e,
  table model (snd (write_all model rs vals e))
  = List.map (fun r => if existsb (Nat.eqb (row_id r)) (List.map row_id rs)
                       then Row (row_id r) (vals ∪ row_vals r) else r)
             (table model e).
Proof.
  induction rs as [| r0 rest IH]; intros e.
  - simpl. rewrite List.map_id. reflexivity.
  - change (write_all model (r0 :: rest) vals e)
      with (write_all model rest vals (snd (write model (row_id r0) vals e))).
    rewrite IH, table_write_eq, List.map_map.
    apply List.map_ext. intros r. unfold write_row. simpl.
    destruct (Nat.eqb_spec (row_id r) (row_id r0)) as [Heq | Hne]; simpl.
    + rewrite union_twice.
      destruct (existsb (Nat.eqb (row_id r0)) (List.map row_id rest)); congruence.
    + reflexivity.
Qed.

Lemma same_id_same_row (t : list row) (a b : row) :
  NoDup (List.map row_id t) -> In a t -> In b t -> row_id a = row_id b -> a = b.
Proof.
  induction t as [| x t IH]; simpl; [tauto |].
  intros Hnd Ha Hb Hid. inversion Hnd as [| ? ? Hnot Hnd']; subst.
  destruct Ha as [-> | Ha], Hb as [-> | Hb]; [reflexivity | | | auto].
  - exfalso. apply Hnot. rewrite Hid. apply list_elem_of_In, List.in_map, Hb.
  - exfalso. apply Hnot. rewrite <- Hid. apply list_elem_of_In, List.in_map, Ha.
Qed.

Lemma in_filter_ids (f : row -> bool) (t : list row) (r : row) :
  NoDup (List.map row_id t) -> In r t ->
  existsb (Nat.eqb (row_id r)) (List.map row_id (List.filter f t)) = f r.
Proof.
  intros Hnd Hr. destruct (f r) eqn:Hf.
  - apply List.existsb_exists. exists (row_id r). split; [| apply Nat.eqb_refl].
    apply List.in_map, List.filter_In. auto.
  - destruct (existsb _ _) eqn:Hex; [| reflexivity].
    apply List.existsb_exists in Hex as (n & Hn & Heq).
    apply Nat.eqb_eq in Heq. subst n.
    apply List.in_map_iff in Hn as (r2 & Hid & Hin).
    apply List.filter_In in Hin as [Hin Hf2].
    rewrite (same_id_same_row t r r2 Hnd Hr Hin (eq_sym Hid)) in Hf. congruence.
Qed.

Lemma filter_nil_all_false {A} (f : A -> bool) (l : list A) (a : A) :
  List.filter f l = [] -> In a l -> f a = false.
Proof.
  intros Hnil Ha. destruct (f a) eqn:Hf; [| reflexivity].
  assert (In a (List.filter f l)) by (apply List.filter_In; auto).
  rewrite Hnil in H. destruct H.
Qed.

Lemma reset_table (handler_text : string) (e : env) :
  NoDup (List.map row_id (table "shopify.scheduler" e)) ->
  table "shopify.scheduler"
        (snd (try_except
                (let* running := search_all "shopify.scheduler" [("is_running", PBool true)] in
                 match running with
                 | [] => ret tt
                 | _ => log "info" "Resetting stale running flags from previous session";;
                        write_all "shopify.scheduler" running {[ "is_running" := PBool false ]}
                 end)
                (fun x => log "warning" (handler_text ++ exn_str x)) e))
  = List.map reset_row (table "shopify.scheduler" e).
Proof.
  intros Hnd. unfold try_except, bind, search_all.
  destruct (List.filter _ (table "shopify.scheduler" e)) as [| r0 rest] eqn:Hf.
  - simpl. symmetry. rewrite <- (List.map_id (table _ e)) at 2.
    apply List.map_ext_in. intros r Hr. unfold reset_row.
    rewrite (filter_nil_all_false _ _ r Hf Hr). reflexivity.
  - set (w := write_all _ _ _).
    assert (Hret : forall e0, fst (w e0) = Return tt).
    { unfold w. generalize (r0 :: rest). intros rs.
      induction rs as [| r rs IH]; intros e0; [reflexivity | apply IH]. }
    cbn [log fst snd].
    match goal with |- context [w ?e0] => specialize (Hret e0); destruct (w e0) as [res e1] eqn:Hw end.
    simpl in Hret. subst res. cbn [snd].
    replace e1 with (snd (w (snd (log "info" "Resetting stale running flags from previous session" e))))
      by (cbn [log snd]; rewrite Hw; reflexivity).
    unfold w. rewrite table_write_all, table_log.
    apply List.map_ext_in. intros r Hr. rewrite <- Hf.
    rewrite (in_filter_ids _ _ r Hnd Hr). reflexivity.
Qed.

Lemma reset_row_not_running (r : row) : matches [("is_running", PBool true)] (reset_row r) = false.
Proof.
  unfold reset_row. destruct (matches _ r) eqn:Hm; [| exact Hm].
  unfold matches, field. simpl.
  rewrite (lookup_union_Some_l _ _ _ (PBool false)) by apply lookup_singleton_eq.
  reflexivity.
Qed.

(** What the two reset routines do when they are called: the install
    hook and [_reset_running_flags] set [is_running] to false on every
    schedule that had it true and leave every other schedule as it was;
    afterwards no schedule is marked as running. Row ids are taken to be
    unique, as a primary key is. *)
Lemma reset_sets_every_flag_false (e : env) :
  NoDup (List.map row_id (table "shopify.scheduler" e)) ->
  let before := table "shopify.scheduler" e in
  let after_hook := table "shopify.scheduler" (snd (Scheduler.post_init_hook e)) in
  let after_reset := table "shopify.scheduler" (snd (Scheduler._reset_running_flags e)) in
  after_hook = List.map reset_row before
  /\ after_reset = List.map reset_row before
  /\ Forall (fun r => matches [("is_running", PBool true)] r = false) after_hook
  /\ (forall r, In r before -> matches [("is_running", PBool true)] r = true ->
                In (Row (row_id r) ({[ "is_running" := PBool false ]} ∪ row_vals r)) after_hook)
  /\ (forall r, In r before -> matches [("is_running", PBool true)] r = false ->
                In r after_hook).
Proof.
  intros Hnd before after_hook after_reset.
  assert (Hhook : after_hook = List.map reset_row before)
    by (apply (reset_table "Could not reset running flags in post_init_hook: " e Hnd)).
  assert (Hreset : after_reset = List.map reset_row before)
    by (apply (reset_table "Could not reset running flags: " e Hnd)).
  split; [exact Hhook |]. split; [exact Hreset |].
  rewrite Hhook. split; [| split].
  - apply List.Forall_forall. intros r' Hr'.
    apply List.in_map_iff in Hr' as (r & <- & _). apply reset_row_not_running.
  - intros r Hr Hm. apply List.in_map_iff. exists r. split; [| exact Hr].
    unfold reset_row. rewrite Hm. reflexivity.
  - intros r Hr Hm. apply List.in_map_iff. exists r. split; [| exact Hr].
    unfold reset_row. rewrite Hm. reflexivity.
Qed.

Example reset_of_two_schedules :
  let e := Scenario.with_table "shopify.scheduler"
             [Scenario.schedule 1 true; Scenario.schedule 2 false]
             (Scenario.empty_env Scenario.silent []) in
  List.map (field "is_running") (table "shopify.scheduler" (snd (Scheduler.post_init_hook e)))
  = [PBool false; PBool false]
  /\ List.map (field "is_running")
              (table "shopify.scheduler" (snd (Scheduler._reset_running_flags e)))
     = [PBool false; PBool false].
Proof. vm_compute. split; reflexivity. Qed.

(** C8. The reset is written and never run at start-up. The docstring of
    [_reset_running_flags] says it resets the flags on server startup,
    yet nothing calls it, and the manifest registers [post_init_hook]
    as the hook the host runs after installing the module. So a process
    that dies after it has marked schedule 1 as running, at the commit of
    [run_scheduled_sync], leaves the flag set in the database; the server
    that starts afterwards has an empty [_running_syncs] and the flag
    still set, its first run for the schedule is skipped at the database
    check without running a sub-sync, the flag stays set, and the next
    run is skipped as well. Had [_reset_running_flags] been run at the
    start, the run would have gone through. *)
Theorem stale_flag_outlives_restart :
  let crashed :=
    snd (Scheduler.steps 3 Scenario.all_succeed None (Scheduler.start 1 1)
                         Scenario.idle_world) in
  let restarted := server_restart 1 crashed in
  let run := Scheduler.run_scheduled_sync Scenario.all_succeed None 1 1 restarted in
  let again := Scheduler.run_scheduled_sync Scenario.all_succeed None 1 1 (snd run) in
  let repaired :=
    Scheduler.World (snd (Scheduler._reset_running_flags (Scheduler.store restarted)))
                    (Scheduler._running_syncs restarted) in
  List.map (field "is_running") (durable "shopify.scheduler" (Scheduler.store crashed))
  = [PBool true]
  /\ Scheduler._running_syncs restarted = ∅
  /\ List.map (field "is_running") (table "shopify.scheduler" (Scheduler.store restarted))
     = [PBool true]
  /\ Scheduler.th_skipped (fst run) = true
  /\ Scheduler.th_ran (fst run) = false
  /\ logger (Scheduler.store (snd run))
     = logger (Scheduler.store restarted)
       ++ [("warning", "Sync is marked as running in database. Skipping.")]
  /\ List.map (field "is_running") (table "shopify.scheduler" (Scheduler.store (snd run)))
     = [PBool true]
  /\ Scheduler.th_skipped (fst again) = true
  /\ Scheduler.th_ran (fst again) = false
  /\ Scheduler.th_ran
       (fst (Scheduler.run_scheduled_sync Scenario.all_succeed None 1 1 repaired)) = true.
Proof. vm_compute. repeat split. Qed.

(** After the hook the persisted flag blocks no schedule: whichever
    schedule a new run is for, its database check finds [is_running]
    false, provided the flags held booleans to begin with. *)
Lemma no_schedule_blocked_after_reset (e : env) maps (t : Scheduler.thread) :
  NoDup (List.map row_id (table "shopify.scheduler" e)) ->
  Forall (fun r => exists b, field "is_running" r = PBool b) (table "shopify.scheduler" e) ->
  truthy (field "is_running"
            (Scheduler.self_row (Scheduler.World (snd (Scheduler.post_init_hook e)) maps) t))
  = false.
Proof.
  intros Hnd Hbool. unfold Scheduler.self_row. cbn [Scheduler.store].
  rewrite (proj1 (reset_sets_every_flag_false e Hnd)).
  destruct (head _) as [r' |] eqn:Hhead; [| reflexivity].
  apply head_filter_in in Hhead. apply List.in_map_iff in Hhead as (r & <- & Hr).
  cbn [default]. unfold reset_row.
  destruct (matches _ r) eqn:Hm.
  - unfold field, id. cbn [row_vals].
    rewrite (lookup_union_Some_l _ _ _ (PBool false)) by apply lookup_singleton_eq.
    reflexivity.
  - rewrite List.Forall_forall in Hbool. destruct (Hbool r Hr) as [b Hb].
    unfold matches in Hm. cbn [forallb fst snd] in Hm. unfold id. rewrite Hb in *.
    cbn in Hm |- *. destruct b; [discriminate | reflexivity].
Qed.

(** ** The price-rule mapper *)

Lemma add_date_spec key src data (vals : gmap string pyval) e :
  exists vals', Discount.add_date key src data vals e = (Return vals', e)
                /\ forall k, k <> key -> vals' !! k = vals !! k.
Proof.
  unfold Discount.add_date.
  destruct (get src data) as [| | | | s | |];
    try (eexists; split; [reflexivity | reflexivity]).
  destruct (truthy (PStr s)); [| eexists; split; reflexivity].
  destruct (date_parse e s); eexists; (split; [reflexivity |]).
  - intros k Hk. apply lookup_insert_ne. congruence.
  - reflexivity.
Qed.

Lemma with_dates_spec data (vals : gmap string pyval) e :
  exists vals', Discount.with_dates data vals e = (Return vals', e)
                /\ vals' !! "value" = vals !! "value".
Proof.
  unfold Discount.with_dates, bind.
  destruct (add_date_spec "starts_at" "starts_at" data vals e) as (v1 & -> & H1).
  destruct (add_date_spec "ends_at" "ends_at" data v1 e) as (v2 & -> & H2).
  destruct (add_date_spec "shopify_created_at" "created_at" data v2 e) as (v3 & -> & H3).
  destruct (add_date_spec "shopify_updated_at" "updated_at" data v3 e) as (v4 & -> & H4).
  exists v4. split; [reflexivity |].
  rewrite H4, H3, H2, H1 by discriminate. reflexivity.
Qed.

Lemma with_prerequisites_spec data (vals : gmap string pyval) e :
  snd (Discount.with_prerequisites data vals e) = e
  /\ (forall vals', fst (Discount.with_prerequisites data vals e) = Return vals' ->
                    vals' !! "value" = vals !! "value")
  /\ (truthy (get_default "prerequisite_subtotal_range" (PDict []) data) = false ->
      truthy (get_default "prerequisite_quantity_range" (PDict []) data) = false ->
      Discount.with_prerequisites data vals e = (Return vals, e)).
Proof.
  unfold Discount.with_prerequisites, bind, lift, ret.
  destruct (truthy (get_default "prerequisite_subtotal_range" _ _));
    destruct (truthy (get_default "prerequisite_quantity_range" _ _));
    repeat match goal with
      | |- context [as_dict ?x] => destruct (as_dict x)
      | |- context [Py.float ?x] => destruct (Py.float x)
      | |- context [Py.int ?x] => destruct (Py.int x)
      end;
    cbn [fst snd]; (split; [reflexivity |]); (split; [| try discriminate; reflexivity]);
    intros vals' H; inversion H; subst;
    rewrite ?lookup_insert_ne by discriminate; reflexivity.
Qed.

Lemma with_entitled_value key data (vals vals' : gmap string pyval) :
  key <> "value" -> Discount.with_entitled key data vals = Return vals' ->
  vals' !! "value" = vals !! "value".
Proof.
  intros Hk. unfold Discount.with_entitled.
  destruct (truthy _); [destruct (iterate _); [| discriminate] |];
    intros H; inversion H; subst; [| reflexivity].
  apply lookup_insert_ne. exact Hk.
Qed.

Lemma with_entitled_succeeds key data (vals : gmap string pyval) :
  succeeds (Discount.with_entitled key data vals)
  = joinable (get_default key (PList []) data).
Proof.
  unfold joinable, Discount.with_entitled.
  destruct (truthy _); [| reflexivity]. cbn [negb orb].
  destruct (iterate _); reflexivity.
Qed.

Lemma fetch_discount_code_spec inst shopify_id e :
  exists code e1, Discount.fetch_discount_code inst shopify_id e = (Return code, e1)
                  /\ table "shopify.discount" e1 = table "shopify.discount" e
                  /\ next_id e1 = next_id e.
Proof.
  unfold Discount.fetch_discount_code, try_except, bind, requests_get, ret, lift.
  cbn [fst snd].
  match goal with |- context [if ?c then _ else _] => destruct c end;
    [destruct (page_of _ _) as [codes | x];
     [destruct (truthy codes);
      [destruct (first_item codes) as [first | x];
       [destruct (as_dict first) as [code | x] |] |] |] |];
    eexists; eexists; (split; [reflexivity |]); split; reflexivity.
Qed.

(** C9. A price rule whose value type is [percentage] is stored with the
    absolute value of the upstream value, one whose value type is
    [fixed_amount] with the upstream value as it is. The row the mapper
    returns is a row of the discount table afterwards. For a rule that
    carries no prerequisite ranges the mapper returns exactly when the
    entitled ids, where it has any, can be iterated for the join. *)
Theorem percentage_stored_as_absolute
    (company_currency : nat) (price_rule : dict) (inst : instance) (e : env) (raw : Q) :
  Py.float (get_default "value" (PFloat 0) price_rule) = Return raw ->
  let value_type := get_default "value_type" (PStr "percentage") price_rule in
  let run := Discount._create_or_update_discount company_currency (PDict price_rule) inst e in
  (forall r, fst run = Return r ->
     In r (table "shopify.discount" (snd run))
     /\ (value_type = PStr "percentage" -> field "value" r = PFloat (Qabs raw))
     /\ (value_type = PStr "fixed_amount" -> field "value" r = PFloat raw))
  /\ (truthy (get_default "prerequisite_subtotal_range" (PDict []) price_rule) = false ->
      truthy (get_default "prerequisite_quantity_range" (PDict []) price_rule) = false ->
      succeeds (fst run)
      = joinable (get_default "entitled_product_ids" (PList []) price_rule)
        && joinable (get_default "entitled_collection_ids" (PList []) price_rule)).
Proof.
  intros Hraw value_type run.
  set (value := if Py.eqb value_type (PStr "percentage") then Qabs raw else raw).
  assert (Hpct : value_type = PStr "percentage" -> value = Qabs raw).
  { intros Hvt. unfold value. rewrite Hvt. reflexivity. }
  assert (Hfix : value_type = PStr "fixed_amount" -> value = raw).
  { intros Hvt. unfold value. rewrite Hvt. reflexivity. }
  unfold run, Discount._create_or_update_discount, bind, search, lift.
  cbn [as_dict].
  rewrite Hraw. fold value_type. fold value.
  destruct (fetch_discount_code_spec inst (Py.str (get "id" price_rule)) e)
    as (code & e1 & -> & Htab & _).
  match goal with
  | |- context [Discount.with_prerequisites price_rule ?v e1] =>
      set (vals0 := v);
      destruct (with_prerequisites_spec price_rule v e1) as (Hp_env & Hp_val & Hp_ret)
  end.
  assert (Hval0 : vals0 !! "value" = Some (PFloat value)) by reflexivity.
  fold vals0 in Hp_env, Hp_val, Hp_ret. clearbody vals0.
  split.
  - destruct (Discount.with_prerequisites price_rule vals0 e1) as [[vals1 | x] e2];
      cbn [fst snd] in *; [| discriminate]. subst e2.
    specialize (Hp_val vals1 eq_refl).
    destruct (Discount.with_entitled "entitled_product_ids" price_rule vals1)
      as [vals1' | x] eqn:Hprod; [| intros r Hr; discriminate Hr].
    destruct (Discount.with_entitled "entitled_collection_ids" price_rule vals1')
      as [vals2 | x] eqn:Hcoll; [| intros r Hr; discriminate Hr].
    assert (Hval2 : vals2 !! "value" = Some (PFloat value)).
    { rewrite (with_entitled_value "entitled_collection_ids" _ _ _ ltac:(discriminate) Hcoll).
      rewrite (with_entitled_value "entitled_product_ids" _ _ _ ltac:(discriminate) Hprod).
      congruence. }
    clear Hprod Hcoll.
    destruct (with_dates_spec price_rule vals2 e1) as (vals3 & -> & Hd).
    assert (Hval3 : vals3 !! "value" = Some (PFloat value)) by congruence.
    assert (Hfield : forall n rest, field "value" (Row n (vals3 ∪ rest)) = PFloat value).
    { intros n rest. unfold field. simpl.
      rewrite (lookup_union_Some_l _ _ _ _ Hval3). reflexivity. }
    destruct (head (List.filter _ (table "shopify.discount" e))) as [r0 |] eqn:Hhead.
    + cbn [write ret fst snd]. intros r Hr. inversion Hr; subst r; clear Hr.
      split; [| split].
      * change (In (Row (row_id r0) (vals3 ∪ row_vals r0))
                  (table "shopify.discount"
                     (snd (write "shopify.discount" (row_id r0) vals3 e1)))).
        rewrite table_write_eq, Htab. apply List.in_map_iff.
        exists r0. split; [| exact (head_filter_in _ _ _ Hhead)].
        unfold write_row. rewrite Nat.eqb_refl. reflexivity.
      * intros Hvt. rewrite Hfield, (Hpct Hvt). reflexivity.
      * intros Hvt. rewrite Hfield, (Hfix Hvt). reflexivity.
    + intros r Hr.
      change (fst (create "shopify.discount" vals3 e1) = Return r) in Hr.
      change (In r (table "shopify.discount" (snd (create "shopify.discount" vals3 e1)))
              /\ (value_type = PStr "percentage" -> field "value" r = PFloat (Qabs raw))
              /\ (value_type = PStr "fixed_amount" -> field "value" r = PFloat raw)).
      rewrite table_create_eq. cbn [create fst] in Hr. inversion Hr; subst r; clear Hr.
      split; [| split].
      * apply List.in_or_app. right. left. reflexivity.
      * intros Hvt. rewrite Hfield, (Hpct Hvt). reflexivity.
      * intros Hvt. rewrite Hfield, (Hfix Hvt). reflexivity.
  - intros Hs Hq. rewrite (Hp_ret Hs Hq).
    rewrite <- (with_entitled_succeeds "entitled_product_ids" price_rule vals0).
    destruct (Discount.with_entitled "entitled_product_ids" price_rule vals0)
      as [vals1 | x]; [| reflexivity].
    rewrite <- (with_entitled_succeeds "entitled_collection_ids" price_rule vals1).
    destruct (Discount.with_entitled "entitled_collection_ids" price_rule vals1)
      as [vals2 | x]; [| reflexivity].
    destruct (with_dates_spec price_rule vals2 e1) as (vals3 & -> & _).
    destruct (head (List.filter _ (table "shopify.discount" e))); reflexivity.
Qed.

Lemma percentage_stored_as_absolute_witness :
  Py.float (get_default "value" (PFloat 0) (Scenario.price_rule "percentage" "-15.0"))
  = Return (Qmake (-15) 1)
  /\ (let run := Discount._create_or_update_discount
                   1 (PDict (Scenario.price_rule "percentage" "-15.0")) Scenario.shop
                   (Scenario.empty_env Scenario.silent []) in
      forall r, fst run = Return r ->
        In r (table "shopify.discount" (snd run))
        /\ (PStr "percentage" = PStr "percentage" -> field "value" r = PFloat (Qmake 15 1))
        /\ (PStr "percentage" = PStr "fixed_amount" -> field "value" r = PFloat (Qmake (-15) 1))).
Proof.
  split; [reflexivity |].
  exact (proj1 (percentage_stored_as_absolute
                  1 (Scenario.price_rule "percentage" "-15.0") Scenario.shop
                  (Scenario.empty_env Scenario.silent []) (Qmake (-15) 1) eq_refl)).
Defined.

Example minus_fifteen_percent_is_stored_as_fifteen :
  option_map (field "value")
    (head (table "shopify.discount"
             (snd (Discount._create_or_update_discount
                     1 (PDict (Scenario.price_rule "percentage" "-15.0")) Scenario.shop
                     (Scenario.empty_env Scenario.silent [])))))
  = Some (PFloat (Qmake 15 1)).
Proof. vm_compute. reflexivity. Qed.

Example fixed_amount_keeps_its_sign :
  option_map (field "value")
    (head (table "shopify.discount"
             (snd (Discount._create_or_update_discount
                     1 (PDict (Scenario.price_rule "fixed_amount" "-10.0")) Scenario.shop
                     (Scenario.empty_env Scenario.silent [])))))
  = Some (PFloat (Qmake (-10) 1)).
Proof. vm_compute. reflexivity. Qed.

(** ** Orders: what the two paths touch *)

Lemma preserves_weaken {A} (R R' : relation env) (m : M A) :
  (forall e e', R e e' -> R' e e') -> preserves R m -> preserves R' m.
Proof. intros Hw Hm e. apply Hw, Hm. Qed.

Ltac frame_call :=
  first [ apply pure_preserves; [exact _ | first [ apply prepare_customer_vals_pure
                                                  | apply get_country_id_pure
                                                  | apply get_state_id_pure
                                                  | apply parse_datetime_pure ]]
        | apply search_preserves; exact _
        | apply preserves_lift; exact _
        | apply preserves_ret; exact _
        | apply preserves_raise; exact _ ].

Ltac frame_go :=
  repeat match goal with
    | |- preserves _ (bind _ _) => apply preserves_bind; [try exact _ | | intros ?]
    | |- preserves _ (try_except _ _) => apply preserves_try_except; [try exact _ | | intros ?]
    | |- preserves _ (match ?x with _ => _ end) => destruct x
    | |- preserves _ _ => first [frame_call | solve [prim]]
    end.

Lemma get_or_create_customer_frame data inst :
  preserves order_tables_kept (Order._get_or_create_customer data inst).
Proof. unfold Order._get_or_create_customer. frame_go. Qed.

Lemma get_or_create_shipping_address_frame addr parent :
  preserves order_tables_kept (Order._get_or_create_shipping_address addr parent).
Proof. unfold Order._get_or_create_shipping_address. frame_go. Qed.

Lemma prepare_order_vals_frame data inst :
  preserves order_tables_kept (Order._prepare_order_vals data inst).
Proof.
  unfold Order._prepare_order_vals.
  apply preserves_bind; [exact _ | apply preserves_lift; exact _ | intros order].
  apply preserves_bind; [exact _ | apply get_or_create_customer_frame | intros customer].
  frame_go. apply get_or_create_shipping_address_frame.
Qed.

Lemma process_order_webhook_lines topic data inst :
  preserves lines_kept (Webhook._process_order_webhook topic data inst).
Proof.
  unfold Webhook._process_order_webhook.
  destruct (_ || _); [| apply preserves_ret; exact _].
  apply preserves_bind; [exact _ | | intros vals].
  - apply (preserves_weaken order_tables_kept); [| apply prepare_order_vals_frame].
    intros a b (_ & H2 & H3). split; assumption.
  - frame_go.
Qed.

Lemma get_or_create_product_frame item inst :
  preserves (same_table "sale.order.line") (Order._get_or_create_product item inst)
  /\ preserves (same_table "sale.order") (Order._get_or_create_product item inst).
Proof. split; unfold Order._get_or_create_product; frame_go. Qed.

Lemma create_generic_product_frame item inst :
  preserves (same_table "sale.order.line") (Order._create_generic_product item inst)
  /\ preserves (same_table "sale.order") (Order._create_generic_product item inst).
Proof. split; unfold Order._create_generic_product; frame_go. Qed.

(** The product lookup of a line never comes back empty-handed: it
    returns a product or raises, and it returns when the price converts. *)
Lemma get_or_create_product_result (item : dict) inst e :
  fst (Order._get_or_create_product (PDict item) inst e) <> Return None
  /\ (succeeds (float_or 0 (get_default "price" (PStr "0") item)) = true ->
      exists p, fst (Order._get_or_create_product (PDict item) inst e) = Return (Some p)).
Proof.
  unfold Order._get_or_create_product. unfold bind at 1. cbn [lift as_dict].
  unfold bind, search, ret, lift, try_except.
  destruct (truthy (get "product_id" item));
    [destruct (head (List.filter _ (table "product.template" e))) |];
    cbn [fst snd]; try (split; [discriminate | intros _; eexists; reflexivity]).
  all: destruct (truthy (get "sku" item));
    [destruct (head (List.filter (matches [("default_code", _)]) _)) |];
    cbn [fst snd]; try (split; [discriminate | intros _; eexists; reflexivity]).
  all: destruct (float_or 0 _); cbn [fst snd succeeds];
    (split; [discriminate | first [intros _; eexists; reflexivity | discriminate]]).
Qed.

(** One turn of the line loop. An item that is an object ends the turn
    quietly, with one more line when its price and quantity convert; any
    other item raises in the handler, which asks it for its title. *)
Lemma create_order_line_spec order inst item e :
  let run := try_except (Order.create_order_line order inst item)
                        (fun x =>
                           let* it := lift (as_dict item) in
                           log "error" ("Error creating order line for "
                                        ++ Py.str (get "title" it) ++ ": " ++ exn_str x)) e in
  fst run = (if is_dict item then Return tt else Raise (no_attribute item "get"))
  /\ table "sale.order" (snd run) = table "sale.order" e
  /\ if line_converts item
     then exists l, table "sale.order.line" (snd run) = table "sale.order.line" e ++ [l]
                    /\ field "order_id" l = id_val (row_id order)
     else table "sale.order.line" (snd run) = table "sale.order.line" e.
Proof.
  destruct item as [| | | | | | item];
    try (cbv zeta; repeat split; reflexivity).
  unfold try_except, Order.create_order_line, bind.
  pose proof (proj1 (get_or_create_product_frame (PDict item) inst) e) as Hlines.
  pose proof (proj2 (get_or_create_product_frame (PDict item) inst) e) as Horders.
  destruct (get_or_create_product_result item inst e) as [Hnone Hsome].
  unfold same_table in Hlines, Horders.
  destruct (Order._get_or_create_product (PDict item) inst e) as [[[p |] | x] e1];
    cbn [fst snd lift as_dict is_dict] in *.
  - unfold ret, lift, line_converts.
    destruct (float_or 0 _) as [price | x]; cbn [fst snd];
      [| repeat split; assumption].
    destruct (float_or 1 _) as [quantity | x]; cbn [fst snd];
      [| repeat split; assumption].
    split; [reflexivity |]. split.
    + etransitivity; [| exact Horders].
      match goal with |- context [create "sale.order.line" ?v e1] =>
        change (table "sale.order" (snd (log "info" "Created order line"
                                           (snd (create "sale.order.line" v e1))))
                = table "sale.order" e1) end.
      rewrite table_log, table_create_ne by discriminate. reflexivity.
    + match goal with |- context [create "sale.order.line" ?v e1] =>
        exists (Row (next_id e1) (v ∪ defaults "sale.order.line"));
        change (table "sale.order.line" (snd (log "info" "Created order line"
                                                (snd (create "sale.order.line" v e1))))
                = table "sale.order.line" e ++ [Row (next_id e1) (v ∪ defaults "sale.order.line")]
                /\ field "order_id" (Row (next_id e1) (v ∪ defaults "sale.order.line"))
                   = id_val (row_id order)) end.
      rewrite table_log, table_create_eq, Hlines. split; reflexivity.
  - congruence.
  - split; [reflexivity |]. split; [exact Horders |].
    unfold line_converts.
    destruct (float_or 0 _) as [price | y]; [| exact Hlines].
    destruct (Hsome eq_refl) as [p Hp]. discriminate.
Qed.

(** The line loop ends at the first item that is not an object, with the
    exception of its handler; up to there every item whose price and
    quantity convert has its line. *)
Lemma order_lines_loop_spec order inst items : forall e,
  fst (Order.order_lines_loop order inst items e)
  = match List.find (fun v => negb (is_dict v)) items with
    | None => Return tt
    | Some v => Raise (no_attribute v "get")
    end
  /\ table "sale.order" (snd (Order.order_lines_loop order inst items e)) = table "sale.order" e
  /\ exists new_lines,
       table "sale.order.line" (snd (Order.order_lines_loop order inst items e))
       = table "sale.order.line" e ++ new_lines
       /\ List.length new_lines = List.length (List.filter line_converts (leading_dicts items))
       /\ Forall (fun l => field "order_id" l = id_val (row_id order)) new_lines.
Proof.
  induction items as [| item rest IH]; intros e.
  - split; [reflexivity |]. split; [reflexivity |].
    exists []. rewrite List.app_nil_r. repeat split. constructor.
  - cbn [Order.order_lines_loop]. unfold bind.
    destruct (create_order_line_spec order inst item e) as (Hret & Horders & Hlines).
    cbv zeta in Hret, Horders, Hlines.
    destruct (try_except _ _ e) as [res e1]. cbn [fst snd] in *. subst res.
    destruct item as [| | | | | | item]; cbn [is_dict List.find negb leading_dicts fst snd];
      try (split; [reflexivity |]; split; [exact Horders |];
           exists []; rewrite List.app_nil_r; repeat split; [exact Hlines | constructor]).
    destruct (IH e1) as (IHret & IHorders & L & IHlines & IHlen & IHall).
    split; [exact IHret |]. split; [congruence |].
    cbn [List.filter]. destruct (line_converts (PDict item)).
    + destruct Hlines as (l & Hl & Hlo). exists (l :: L).
      rewrite IHlines, Hl, <- List.app_assoc. cbn [List.length].
      repeat split; [congruence | constructor; assumption].
    + exists L. rewrite IHlines, Hlines. repeat split; assumption.
Qed.

Lemma leading_dicts_chars s : leading_dicts (chars s) = [].
Proof. destruct s; reflexivity. Qed.

Lemma leading_dicts_keys d : leading_dicts (keys d) = [].
Proof. destruct d; reflexivity. Qed.

(** [_create_order_lines] on whatever the payload holds under
    [line_items]: the orders are left alone, and the new lines are one
    per convertible item the loop gets through. *)
Lemma create_order_lines_spec order inst (line_items : pyval) e :
  table "sale.order" (snd (Order._create_order_lines order inst line_items e))
  = table "sale.order" e
  /\ exists new_lines,
       table "sale.order.line" (snd (Order._create_order_lines order inst line_items e))
       = table "sale.order.line" e ++ new_lines
       /\ List.length new_lines
          = List.length (List.filter line_converts (lines_reached line_items))
       /\ Forall (fun l => field "order_id" l = id_val (row_id order)) new_lines.
Proof.
  assert (Hnone : forall e0 : env,
             table "sale.order" e0 = table "sale.order" e ->
             table "sale.order.line" e0 = table "sale.order.line" e ->
             table "sale.order" e0 = table "sale.order" e
             /\ exists new_lines,
                  table "sale.order.line" e0 = table "sale.order.line" e ++ new_lines
                  /\ List.length new_lines = 0%nat
                  /\ Forall (fun l => field "order_id" l = id_val (row_id order)) new_lines).
  { intros e0 H1 H2. split; [exact H1 |]. exists [].
    rewrite List.app_nil_r. repeat split; [exact H2 | constructor]. }
  unfold Order._create_order_lines.
  destruct line_items as [| b | z | q | s | items | d];
    try (apply Hnone; reflexivity);
    unfold bind; cbn [lift len iterate log fst snd lines_reached].
  - match goal with |- context [Order.order_lines_loop order inst (chars s) ?e0] =>
      destruct (order_lines_loop_spec order inst (chars s) e0) as (_ & H2 & L & H3 & H4 & H5)
    end.
    rewrite leading_dicts_chars in H4.
    destruct (Order.order_lines_loop order inst (chars s) _) as [[[] | x] e2];
      (split; [exact H2 |]; exists L; repeat split; assumption).
  - match goal with |- context [Order.order_lines_loop order inst items ?e0] =>
      destruct (order_lines_loop_spec order inst items e0) as (_ & H2 & L & H3 & H4 & H5)
    end.
    destruct (Order.order_lines_loop order inst items _) as [[[] | x] e2];
      (split; [exact H2 |]; exists L; repeat split; assumption).
  - match goal with |- context [Order.order_lines_loop order inst (keys d) ?e0] =>
      destruct (order_lines_loop_spec order inst (keys d) e0) as (_ & H2 & L & H3 & H4 & H5)
    end.
    rewrite leading_dicts_keys in H4.
    destruct (Order.order_lines_loop order inst (keys d) _) as [[[] | x] e2];
      (split; [exact H2 |]; exists L; repeat split; assumption).
Qed.

(** No old line belongs to an order id that has not been handed out. *)
Lemma no_lines_of_future_order e n :
  lines_wf e = true -> (next_id e <= n)%nat ->
  List.filter (matches [("order_id", id_val n)]) (table "sale.order.line" e) = [].
Proof.
  unfold lines_wf. intros Hwf Hn.
  induction (table "sale.order.line" e) as [| l t IH]; [reflexivity |].
  cbn [forallb] in Hwf. apply andb_prop in Hwf as [Hl Ht].
  cbn [List.filter]. rewrite (IH Ht).
  unfold matches. cbn [forallb fst snd]. unfold id_val.
  destruct (field "order_id" l) as [| | z | | | |]; try reflexivity.
  cbn [Py.eqb]. apply Z.ltb_lt in Hl.
  destruct (Z.eqb_spec z (Z.of_nat n)); [lia | reflexivity].
Qed.

Lemma all_lines_of_order n (lines : list row) :
  Forall (fun l => field "order_id" l = id_val n) lines ->
  List.filter (matches [("order_id", id_val n)]) lines = lines.
Proof.
  induction 1 as [| l t Hl _ IH]; [reflexivity |].
  cbn [List.filter]. rewrite IH. unfold matches. cbn [forallb fst snd].
  rewrite Hl. unfold id_val. cbn [Py.eqb]. rewrite Z.eqb_refl. reflexivity.
Qed.

(** C10. The order webhook, on [orders/create] and [orders/updated],
    writes or creates the order row with the values of
    [_prepare_order_vals] and never adds a line: the line table is as it
    was. An order it creates has no lines whatever the payload's
    [line_items], where the bulk path on the same input gives the new
    order one line per line item whose price and quantity convert, of
    the items its loop gets through. *)
Theorem webhook_upserts_header_only
    (topic : string) (order : dict) (inst : instance) (e e1 : env)
    (vals : gmap string pyval) (oid : pyval) :
  topic = "orders/create" \/ topic = "orders/updated" ->
  let data := PDict order in
  Order._prepare_order_vals data inst e = (Return vals, e1) ->
  index "id" data = Return oid ->
  let webhook := snd (Webhook._process_order_webhook topic data inst e) in
  let bulk := snd (Order.upsert_order data inst e) in
  table "sale.order.line" webhook = table "sale.order.line" e
  /\ match head (List.filter (matches (Order.order_key oid inst)) (table "sale.order" e)) with
     | Some r =>
         table "sale.order" webhook
         = List.map (write_row (row_id r) vals) (table "sale.order" e)
     | None =>
         table "sale.order" webhook
         = table "sale.order" e ++ [Row (next_id e1) (vals ∪ defaults "sale.order")]
         /\ (lines_wf e = true ->
             Order.order_line (next_id e1) webhook = []
             /\ List.length (Order.order_line (next_id e1) bulk)
                = List.length (List.filter line_converts
                                 (lines_reached (get_default "line_items" (PList []) order))))
     end.
Proof.
  intros Htopic data Hprep Hid webhook bulk.
  split; [apply (process_order_webhook_lines topic data inst e) |].
  pose proof (prepare_order_vals_frame data inst e) as (Horders & Hlines & Hmono).
  rewrite Hprep in Horders, Hlines, Hmono. cbn [snd] in *.
  unfold same_table, id_mono in *.
  assert (Hweb : Webhook._process_order_webhook topic data inst e
                 = match head (List.filter (matches (Order.order_key oid inst))
                                           (table "sale.order" e)) with
                   | Some r => write "sale.order" (row_id r) vals e1
                   | None => (Return tt, snd (create "sale.order" vals e1))
                   end).
  { unfold Webhook._process_order_webhook.
    replace (String.eqb topic "orders/create" || String.eqb topic "orders/updated") with true
      by (destruct Htopic; subst; reflexivity).
    unfold bind. rewrite Hprep. unfold lift. rewrite Hid. unfold search.
    rewrite Horders. destruct (head _); reflexivity. }
  assert (Hbulk : head (List.filter (matches (Order.order_key oid inst))
                                    (table "sale.order" e)) = None ->
                  bulk = snd (Order._create_order_lines
                                (Row (next_id e1) (vals ∪ defaults "sale.order")) inst
                                (get_default "line_items" (PList []) order)
                                (snd (create "sale.order" vals e1)))).
  { intros Hnone. unfold bulk, Order.upsert_order, bind.
    rewrite Hprep. unfold lift. rewrite Hid. unfold search.
    rewrite Horders, Hnone. cbn [create fst snd as_dict data].
    destruct (Order._create_order_lines _ _ _ _) as [[[] | x] e3]; reflexivity. }
  unfold webhook. rewrite Hweb.
  destruct (head (List.filter _ (table "sale.order" e))) as [r |] eqn:Hhead.
  - rewrite table_write_eq, Horders. reflexivity.
  - cbn [snd]. rewrite table_create_eq, Horders.
    split; [reflexivity |]. intros Hwf. split.
    + unfold Order.order_line. rewrite table_create_ne, Hlines by discriminate.
      apply no_lines_of_future_order; assumption.
    + rewrite (Hbulk eq_refl). unfold Order.order_line.
      match goal with |- context [Order._create_order_lines ?o inst ?items ?e0] =>
        destruct (create_order_lines_spec o inst items e0) as (_ & L & HL & Hlen & Hall) end.
      rewrite HL, table_create_ne, Hlines, List.filter_app by discriminate.
      rewrite (no_lines_of_future_order e (next_id e1) Hwf Hmono).
      cbn [row_id] in Hall. rewrite (all_lines_of_order _ _ Hall). exact Hlen.
Qed.

Lemma webhook_upserts_header_only_witness :
  let e := Scenario.empty_env Scenario.silent [] in
  let e1 := snd (Order._prepare_order_vals (Scenario.order 1) Scenario.shop e) in
  let webhook := snd (Webhook._process_order_webhook "orders/create" (Scenario.order 1)
                                                      Scenario.shop e) in
  let bulk := snd (Order.upsert_order (Scenario.order 1) Scenario.shop e) in
  lines_wf e = true
  /\ Order.order_line (next_id e1) webhook = []
  /\ List.length (Order.order_line (next_id e1) bulk) = 2%nat.
Proof.
  intros e e1 webhook bulk.
  pose (vals := match fst (Order._prepare_order_vals (Scenario.order 1) Scenario.shop e) with
                | Return v => v
                | Raise _ => ∅
                end).
  assert (Hprep : Order._prepare_order_vals (Scenario.order 1) Scenario.shop e
                  = (Return vals, e1)) by (vm_compute; reflexivity).
  assert (Hhead : head (List.filter (matches (Order.order_key (PInt 1) Scenario.shop))
                                    (table "sale.order" e)) = None) by reflexivity.
  pose proof (webhook_upserts_header_only "orders/create" (Scenario.order_fields 1) Scenario.shop
                e e1 vals (PInt 1) (or_introl eq_refl) Hprep eq_refl) as [_ H].
  rewrite Hhead in H. destruct H as [_ H].
  split; [reflexivity | exact (H eq_refl)].
Defined.

Example webhook_order_has_no_lines_bulk_order_has_two :
  let e := Scenario.empty_env Scenario.silent [] in
  List.length (table "sale.order.line"
                 (snd (Webhook._process_order_webhook "orders/create" (Scenario.order 1)
                                                       Scenario.shop e))) = 0%nat
  /\ List.length (table "sale.order.line"
                    (snd (Order._process_order_batch [Scenario.order 1] Scenario.shop 0 0 e)))
     = 2%nat.
Proof. vm_compute. split; reflexivity. Qed.

(** An item that is not an object ends the line loop: the lines of the
    items before it stay, those after it are never tried. *)
Example line_loop_is_left_at_a_bare_number :
  let e := Scenario.empty_env Scenario.silent [] in
  let run := Order._create_order_lines
               (Row 5 ∅) Scenario.shop
               (PList [ PDict [("title", PStr "Mug"); ("price", PStr "8.00")];
                        PInt 7;
                        PDict [("title", PStr "Pen"); ("price", PStr "1.50")] ]) e in
  fst run = Raise (AttributeError "'int' object has no attribute 'get'")
  /\ List.length (table "sale.order.line" (snd run)) = 1%nat.
Proof. vm_compute. split; reflexivity. Qed.

(** ** Orders that have moved on *)

(** On the bulk path an order that is neither [draft] nor [sent] is left
    alone, and an order that has lines gets no further ones. *)
Lemma bulk_import_respects_existing_order
    (data : pyval) (inst : instance) (e e1 : env) (vals : gmap string pyval)
    (oid : pyval) (existing : row) :
  Order._prepare_order_vals data inst e = (Return vals, e1) ->
  index "id" data = Return oid ->
  head (List.filter (matches (Order.order_key oid inst)) (table "sale.order" e)) = Some existing ->
  let after := snd (Order.upsert_order data inst e) in
  (Order.in_draft_or_sent existing = false ->
   table "sale.order" after = table "sale.order" e
   /\ table "sale.order.line" after = table "sale.order.line" e)
  /\ (Order.order_line (row_id existing) e <> [] ->
      table "sale.order.line" after = table "sale.order.line" e).
Proof.
  intros Hprep Hid Hhead after.
  destruct data as [| | | | | | order]; try discriminate Hid.
  pose proof (prepare_order_vals_frame (PDict order) inst e) as (Horders & Hlines & _).
  rewrite Hprep in Horders, Hlines. cbn [snd] in *. unfold same_table in *.
  unfold after, Order.upsert_order, bind. rewrite Hprep. unfold lift. rewrite Hid.
  unfold search. rewrite Horders, Hhead. cbn [as_dict].
  destruct (Order.in_draft_or_sent existing).
  - split; [discriminate |]. intros Hhas.
    cbn [write fst snd].
    match goal with |- context [Order.order_line (row_id existing) ?e0] =>
      assert (Hsame : Order.order_line (row_id existing) e0
                      = Order.order_line (row_id existing) e)
        by (unfold Order.order_line;
            change (table "sale.order.line" e0)
              with (table "sale.order.line"
                      (snd (write "sale.order" (row_id existing) vals e1)));
            rewrite table_write_ne, Hlines by discriminate; reflexivity);
      rewrite Hsame;
      change (table "sale.order.line" e0)
        with (table "sale.order.line" (snd (write "sale.order" (row_id existing) vals e1)))
    end.
    destruct (Order.order_line (row_id existing) e) as [| l ls]; [congruence |].
    cbn [ret fst snd].
    match goal with |- table _ ?e0 = _ =>
      change (table "sale.order.line" e0)
        with (table "sale.order.line" (snd (write "sale.order" (row_id existing) vals e1)))
    end.
    rewrite table_write_ne, Hlines by discriminate. reflexivity.
  - cbn [ret fst snd]. split; [intros _; split; assumption | intros _; assumption].
Qed.

(** C3. The bulk path holds the claim (see
    [bulk_import_respects_existing_order]); the webhook path does not: an
    order that is already confirmed locally ([state = sale]) is written
    to when an [orders/updated] webhook for it arrives, where the bulk
    importer on the same record leaves the row as it is. *)
Theorem webhook_overwrites_confirmed_order :
  let e := Scenario.with_table "sale.order" [Scenario.confirmed_order]
             (Scenario.empty_env Scenario.silent []) in
  let webhook := snd (Webhook._process_order_webhook "orders/updated" Scenario.order_update
                                                      Scenario.shop e) in
  let bulk := snd (Order._process_order_batch [Scenario.order_update] Scenario.shop 0 0 e) in
  Order.in_draft_or_sent Scenario.confirmed_order = false
  /\ List.map (field "note") (table "sale.order" e) = [PStr "checked by sales"]
  /\ List.map (field "note") (table "sale.order" webhook) = [PStr "changed upstream"]
  /\ List.map (field "state") (table "sale.order" webhook) = [PStr "sale"]
  /\ List.map fst (journal webhook) = [("sale.order", 7%nat)]
  /\ table "sale.order" bulk = [Scenario.confirmed_order]
  /\ journal bulk = [].
Proof.
  vm_compute. repeat split.
Qed.

(** ** The scheduled run *)

Lemma finish_spec fault t e :
  exists vals,
    journal (snd (Scheduler.finish fault t e))
    = journal e ++ [("shopify.scheduler", Scheduler.th_self t, vals)]
    /\ table "shopify.scheduler" (snd (Scheduler.finish fault t e))
       = List.map (write_row (Scheduler.th_self t) vals) (table "shopify.scheduler" e)
    /\ vals !! "is_running" = Some (PBool false)
    /\ vals !! "last_run" = Some (PStr (clock e))
    /\ vals !! "last_run_status"
       = Some (PStr (run_status fault (Scheduler.th_errors t) (Scheduler.th_success_messages t)))
    /\ is_Some (vals !! "last_run_message").
Proof.
  unfold Scheduler.finish, run_status.
  destruct fault as [x |].
  - unfold bind. cbn [log datetime_now fst snd clock].
    eexists. split; [reflexivity |]. split.
    + rewrite table_write_eq. reflexivity.
    + repeat split. eexists. reflexivity.
  - set (status := match Scheduler.th_errors t with
                   | [] => "success"
                   | _ => match Scheduler.th_success_messages t with
                          | [] => "failed" | _ => "partial" end
                   end).
    set (message := match Scheduler.th_errors t with [] => _ | _ => _ end).
    unfold bind. cbn [datetime_now fst snd].
    match goal with |- context [write ?m ?i ?v e] =>
      exists v;
      change (journal (snd (log "info" ("Scheduled sync completed with status: " ++ status)
                              (snd (write m i v e))))
              = journal e ++ [(m, i, v)]
              /\ table m (snd (log "info" ("Scheduled sync completed with status: " ++ status)
                                 (snd (write m i v e))))
                 = List.map (write_row i v) (table m e)
              /\ v !! "is_running" = Some (PBool false)
              /\ v !! "last_run" = Some (PStr (clock e))
              /\ v !! "last_run_status" = Some (PStr status)
              /\ is_Some (v !! "last_run_message"))
    end.
    split; [reflexivity |]. split; [rewrite table_log, table_write_eq; reflexivity |].
    repeat split. eexists. reflexivity.
Qed.

Lemma running_get_after_set b w t t' :
  Scheduler.th_proc t' = Scheduler.th_proc t ->
  Scheduler.th_self t' = Scheduler.th_self t ->
  Scheduler.running_get (Scheduler.running_set b w t) t' = b.
Proof.
  intros Hp Hs. unfold Scheduler.running_get, Scheduler.running_set.
  cbn [Scheduler._running_syncs]. rewrite Hp, Hs.
  rewrite lookup_insert_eq. cbn. rewrite lookup_insert_eq. reflexivity.
Qed.

Lemma written_rows_carry (self : nat) (vals : gmap string pyval) (k : string) (v : pyval)
    (t : list row) :
  vals !! k = Some v ->
  Forall (fun r => row_id r = self -> field k r = v) (List.map (write_row self vals) t).
Proof.
  intros Hk. apply List.Forall_forall. intros r' Hr'.
  apply List.in_map_iff in Hr' as (r & <- & _). unfold write_row.
  destruct (Nat.eqb_spec (row_id r) self) as [Heq | Hne]; cbn.
  - intros _. unfold field. cbn. rewrite (lookup_union_Some_l _ _ _ _ Hk). reflexivity.
  - intros Hself. contradiction.
Qed.

(** C7. A run that gets past both guards and marks itself running ends
    with one write to its schedule that carries [last_run],
    [last_run_status], [last_run_message] and [is_running = False]
    together, whether every sub-sync succeeded, some failed, all failed, or
    the outer handler caught an exception; after it the schedule's row has
    [is_running] false and the dictionary entry is released. *)
Theorem completed_run_clears_flag
    (outcome : string -> option string) (fault : option exn) (proc self : nat)
    (w : Scheduler.world) :
  let run := Scheduler.run_scheduled_sync outcome fault proc self w in
  Scheduler.th_skipped (fst run) = false ->
  Scheduler.th_crashed (fst run) = false ->
  Scheduler.th_pc (fst run) = Scheduler.Done
  /\ Scheduler.th_ran (fst run) = true
  /\ Scheduler.running_get (snd run) (fst run) = false
  /\ (exists vals,
        last (journal (Scheduler.store (snd run))) = Some ("shopify.scheduler", self, vals)
        /\ vals !! "is_running" = Some (PBool false)
        /\ is_Some (vals !! "last_run")
        /\ vals !! "last_run_status"
           = Some (PStr (run_status fault (Scheduler.th_errors (fst run))
                                    (Scheduler.th_success_messages (fst run))))
        /\ is_Some (vals !! "last_run_message"))
  /\ Forall (fun r => row_id r = self -> field "is_running" r = PBool false)
            (table "shopify.scheduler" (Scheduler.store (snd run))).
Proof.
  cbv zeta. unfold Scheduler.run_scheduled_sync, Scheduler.start.
  cbn [Scheduler.steps]. unfold Scheduler.step.
  cbn [Scheduler.th_pc].
  destruct (Scheduler.running_get w _); [cbn; discriminate |].
  cbn [Scheduler.th_pc Scheduler.at_pc].
  destruct (truthy _); [cbn; discriminate |].
  cbn [Scheduler.th_pc Scheduler.at_pc Scheduler.th_self
       Scheduler.th_proc Scheduler.th_ran Scheduler.th_skipped
       Scheduler.th_crashed Scheduler.th_errors
       Scheduler.th_success_messages Scheduler.store
       Scheduler._running_syncs].
  match goal with |- context [bind ?a ?b ?e0] =>
    destruct (bind a b e0) as [[u | x] e2] end;
    [| cbn; intros _ Hc; discriminate Hc].
  cbn [Scheduler.th_pc Scheduler.at_pc Scheduler.th_self
       Scheduler.th_proc Scheduler.th_ran Scheduler.th_skipped
       Scheduler.th_crashed Scheduler.th_errors
       Scheduler.th_success_messages].
  destruct (Scheduler.run_sub_syncs _ _ _ _ _) as [errors success_messages].
  cbn [Scheduler.th_pc Scheduler.at_pc Scheduler.th_self
       Scheduler.th_proc Scheduler.th_ran Scheduler.th_skipped
       Scheduler.th_crashed Scheduler.th_errors
       Scheduler.th_success_messages fst snd].
  intros _ _.
  split; [reflexivity |]. split; [reflexivity |]. split.
  { apply running_get_after_set; reflexivity. }
  unfold Scheduler.running_set, Scheduler.in_store. cbn [Scheduler.store].
  match goal with |- context [Scheduler.finish fault ?t0 e2] =>
    destruct (finish_spec fault t0 e2) as (vals & Hj & Htab & Hrun & Hlast & Hstatus & Hmsg) end.
  cbn [Scheduler.th_self Scheduler.th_errors Scheduler.th_success_messages] in *.
  split.
  - exists vals. rewrite Hj, last_snoc.
    repeat split; try assumption. eexists; exact Hlast.
  - rewrite Htab. apply written_rows_carry. exact Hrun.
Qed.

Lemma completed_run_clears_flag_witness :
  let run := Scheduler.run_scheduled_sync Scenario.orders_fail None 1 1 Scenario.idle_world in
  Scheduler.th_skipped (fst run) = false
  /\ Scheduler.th_crashed (fst run) = false
  /\ Scheduler.th_pc (fst run) = Scheduler.Done
  /\ Scheduler.th_ran (fst run) = true
  /\ Scheduler.running_get (snd run) (fst run) = false
  /\ (exists vals,
        last (journal (Scheduler.store (snd run))) = Some ("shopify.scheduler", 1%nat, vals)
        /\ vals !! "is_running" = Some (PBool false)
        /\ is_Some (vals !! "last_run")
        /\ vals !! "last_run_status"
           = Some (PStr (run_status None (Scheduler.th_errors (fst run))
                                    (Scheduler.th_success_messages (fst run))))
        /\ is_Some (vals !! "last_run_message"))
  /\ Forall (fun r => row_id r = 1%nat -> field "is_running" r = PBool false)
            (table "shopify.scheduler" (Scheduler.store (snd run))).
Proof.
  intros run.
  assert (H1 : Scheduler.th_skipped (fst run) = false) by (vm_compute; reflexivity).
  assert (H2 : Scheduler.th_crashed (fst run) = false) by (vm_compute; reflexivity).
  split; [exact H1 |]. split; [exact H2 |].
  exact (completed_run_clears_flag Scenario.orders_fail None 1 1 Scenario.idle_world H1 H2).
Defined.

(** The three outcomes on the schedule of the scenario, which has products
    and orders enabled. *)
Example run_statuses :
  let status_after outcome fault :=
    List.map (fun r => (field "last_run_status" r, field "is_running" r))
             (table "shopify.scheduler"
                (Scheduler.store
                   (snd (Scheduler.run_scheduled_sync outcome fault 1 1 Scenario.idle_world)))) in
  status_after Scenario.all_succeed None = [(PStr "success", PBool false)]
  /\ status_after Scenario.orders_fail None = [(PStr "partial", PBool false)]
  /\ status_after (fun _ => Some "down") None = [(PStr "failed", PBool false)]
  /\ status_after Scenario.all_succeed (Some (StorageError "lost connection"))
     = [(PStr "failed", PBool false)].
Proof. vm_compute. repeat split. Qed.

(** ** The run-once guard under interleaving *)

Lemma schedules_complete (n : nat) : forall s, List.length s = n -> In s (schedules n).
Proof.
  induction n as [| n IH]; intros s Hlen.
  - destruct s; [left; reflexivity | discriminate].
  - destruct s as [| b s]; [discriminate |]. injection Hlen as Hlen.
    cbn [schedules]. apply List.in_flat_map. exists s. split; [apply IH, Hlen |].
    destruct b; cbn; auto.
Qed.

(** Inside one server process the dictionary under the lock decides:
    whatever the interleaving of two invocations that run to their end
    (twelve steps cover it), if they overlapped then exactly one ran the
    sub-syncs and the other logged a skip. *)
Lemma same_process_guard (schedule : list bool) :
  List.length schedule = 12%nat ->
  guard_held (Scheduler.exec Scenario.all_succeed None schedule (Scenario.two_runs 1 1)) = true.
Proof.
  intros Hlen. apply schedules_complete in Hlen. revert schedule Hlen.
  apply List.forallb_forall. vm_compute. reflexivity.
Qed.

(** C1. Two invocations of the same schedule in two server processes,
    stepping in turn: each takes the entry of its own dictionary, each
    reads [is_running] as false before the other has written it, and both
    run the sub-syncs; nothing is skipped and no skip is logged. *)
Theorem two_workers_both_run :
  let schedule := [false; true; false; true; false; true;
                   false; true; false; true; false; true] in
  let s := Scheduler.exec Scenario.all_succeed None schedule (Scenario.two_runs 1 2) in
  Scheduler.overlap s = true
  /\ Scheduler.th_pc (Scheduler.first s) = Scheduler.Done
  /\ Scheduler.th_pc (Scheduler.second s) = Scheduler.Done
  /\ Scheduler.th_ran (Scheduler.first s) = true
  /\ Scheduler.th_ran (Scheduler.second s) = true
  /\ Scheduler.th_skipped (Scheduler.first s) = false
  /\ Scheduler.th_skipped (Scheduler.second s) = false
  /\ skips_logged s = 0%nat
  /\ guard_held s = false.
Proof. vm_compute. repeat split. Qed.

(** If the store refuses the second of the two commits instead, the second
    invocation leaves by that exception before its [try]: it does not run
    the sub-syncs, but it logs no skip either, and the entry of its
    process's dictionary stays set. *)
Example second_worker_commit_refused :
  let schedule := [false; true; false; true; false; true;
                   false; true; false; true; false; true] in
  let refusing :=
    Scheduler.System
      (Scheduler.World
         (Scenario.with_table "shopify.scheduler" [Scenario.schedule 1 false]
                              (Scenario.empty_env Scenario.silent [false; true])) ∅)
      (Scheduler.start 1 1) (Scheduler.start 2 1) false in
  let s := Scheduler.exec Scenario.all_succeed None schedule refusing in
  Scheduler.th_ran (Scheduler.first s) = true
  /\ Scheduler.th_ran (Scheduler.second s) = false
  /\ Scheduler.th_crashed (Scheduler.second s) = true
  /\ Scheduler.th_skipped (Scheduler.second s) = false
  /\ skips_logged s = 0%nat
  /\ Scheduler.running_get (Scheduler.sys_world s) (Scheduler.second s) = true.
Proof. vm_compute. repeat split. Qed.

(** When the second worker reads the flag after the first has committed
    it, the persisted flag does its work: the second is skipped through
    the database check and logs it. *)
Example second_worker_sees_committed_flag :
  let schedule := [false; false; false; true; true; true;
                   false; false; false; true; true; true] in
  let s := Scheduler.exec Scenario.all_succeed None schedule (Scenario.two_runs 1 2) in
  Scheduler.overlap s = true
  /\ Scheduler.th_ran (Scheduler.first s) = true
  /\ Scheduler.th_ran (Scheduler.second s) = false
  /\ Scheduler.th_skipped (Scheduler.second s) = true
  /\ skips_logged s = 1%nat
  /\ guard_held s = true.
Proof. vm_compute. repeat split. Qed.

(** ** Pagination *)

#[local] Instance requests_within_preorder P : PreOrder (requests_within P).
Proof.
  split.
  - intros e. exists []. rewrite List.app_nil_r. split; [reflexivity | constructor].
  - intros a b c (n1 & H1 & F1) (n2 & H2 & F2). exists (n1 ++ n2).
    rewrite H2, H1, List.app_assoc. split; [reflexivity | apply Forall_app; split; assumption].
Qed.

Lemma same_http_within P e e' : same_http e e' -> requests_within P e e'.
Proof.
  intros H. exists []. rewrite List.app_nil_r. split; [exact H | constructor].
Qed.

Lemma requests_get_within (P : request -> Prop) url params :
  P (Request url params) -> preserves (requests_within P) (requests_get url params).
Proof.
  intros HP e. exists [Request url params]. split; [reflexivity |].
  constructor; [exact HP | constructor].
Qed.

Ltac http_call :=
  first [ apply pure_preserves; [exact _ | first [ apply prepare_customer_vals_pure
                                                  | apply prepare_product_vals_pure
                                                  | apply get_country_id_pure
                                                  | apply get_state_id_pure
                                                  | apply parse_datetime_pure ]]
        | apply search_preserves; exact _
        | apply preserves_lift; exact _
        | apply preserves_ret; exact _
        | apply preserves_raise; exact _ ].

Ltac http_go :=
  repeat match goal with
    | |- preserves _ (bind _ _) => apply preserves_bind; [try exact _ | | intros ?]
    | |- preserves _ (try_except _ _) => apply preserves_try_except; [try exact _ | | intros ?]
    | |- preserves _ (match ?x with _ => _ end) => destruct x
    | |- preserves _ _ => first [http_call | solve [prim]]
    end.

Lemma process_product_batch_http batch inst : forall c u,
  preserves same_http (Product._process_product_batch batch inst c u).
Proof.
  induction batch as [| p rest IH]; intros c u; cbn [Product._process_product_batch].
  - apply preserves_ret; exact _.
  - apply preserves_bind; [exact _ | | intros cu; apply IH].
    unfold Product.upsert_product. http_go.
Qed.

Lemma product_batches_http batches inst : forall c u,
  preserves same_http (Product.product_batches batches inst c u).
Proof.
  induction batches as [| b rest IH]; intros c u; cbn [Product.product_batches].
  - apply preserves_ret; exact _.
  - apply preserves_bind; [exact _ | | intros r].
    + apply preserves_try_except; [exact _ | | intros x].
      * apply preserves_bind; [exact _ | apply process_product_batch_http | intros bc].
        apply preserves_ret; exact _.
      * http_go.
    + destruct r as [[bc bu] |]; [| apply IH].
      apply preserves_bind; [exact _ | | intros ?; apply IH].
      http_go.
Qed.

Lemma cursor_request_pure params (page_info : pyval) url :
  params !! "page_info" = None ->
  cursor_pure params
    (Request url (if truthy page_info then {[ "page_info" := page_info ]} else params)).
Proof.
  intros Hno. unfold cursor_pure. cbn [req_params].
  destruct (truthy page_info).
  - rewrite lookup_singleton_eq. reflexivity.
  - rewrite Hno. reflexivity.
Qed.

(** On the product path every request is cursor-pure. *)
Lemma products_loop_cursor_pure fuel inst batch_size url params :
  params !! "page_info" = None ->
  forall page_info acc,
    preserves (requests_within (cursor_pure params))
              (Product.products_loop fuel inst batch_size url params page_info acc).
Proof.
  intros Hno. induction fuel as [| fuel IH]; intros page_info acc;
    cbn [Product.products_loop].
  - apply preserves_ret; exact _.
  - apply preserves_bind; [exact _ | | intros ?].
    { intros e. apply same_http_within. reflexivity. }
    apply preserves_bind; [exact _ | | intros response].
    { apply requests_get_within. apply cursor_request_pure, Hno. }
    destruct (negb _); [apply preserves_raise; exact _ |].
    apply preserves_bind; [exact _ | apply preserves_lift; exact _ | intros products].
    destruct (negb (truthy products)).
    { apply preserves_bind; [exact _ | | intros ?; apply preserves_ret; exact _].
      intros e. apply same_http_within. reflexivity. }
    apply preserves_bind; [exact _ | apply preserves_lift; exact _ | intros fetched_now].
    destruct (Nat.eqb batch_size 0); [apply preserves_raise; exact _ |].
    apply preserves_bind; [exact _ | apply preserves_lift; exact _ | intros batches].
    apply preserves_bind; [exact _ | | intros cu].
    { intros e. apply same_http_within. apply product_batches_http. }
    apply preserves_bind; [exact _ | apply preserves_lift; exact _ | intros nxt].
    destruct nxt as [p' |]; [apply IH | apply preserves_ret; exact _].
Qed.

Lemma import_products_cursor_pure fuel inst batch_size :
  preserves (requests_within (cursor_pure {[ "limit" := PInt 250 ]}))
            (Product.import_shopify_products fuel inst batch_size).
Proof.
  unfold Product.import_shopify_products.
  apply preserves_try_except; [exact _ | | intros x].
  - apply preserves_bind; [exact _ | | intros r].
    + apply products_loop_cursor_pure. reflexivity.
    + intros e. apply same_http_within. revert e.
      change (preserves same_http
                match r with
                | Some t =>
                    log "info" "Product import complete!";;
                    (let* now := datetime_now in
                     write "shopify.instance" (inst_id inst) {[ "last_product_sync" := now ]};;
                     ret (Some t))
                | None => ret None
                end).
      http_go.
  - intros e. apply same_http_within. reflexivity.
Qed.

(** Order path: nothing but the loop itself sends requests. *)
Lemma get_or_create_customer_http data inst :
  preserves same_http (Order._get_or_create_customer data inst).
Proof. unfold Order._get_or_create_customer. http_go. Qed.

Lemma get_or_create_shipping_address_http addr parent :
  preserves same_http (Order._get_or_create_shipping_address addr parent).
Proof. unfold Order._get_or_create_shipping_address. http_go. Qed.

Lemma prepare_order_vals_http data inst :
  preserves same_http (Order._prepare_order_vals data inst).
Proof.
  unfold Order._prepare_order_vals.
  apply preserves_bind; [exact _ | apply preserves_lift; exact _ | intros order].
  apply preserves_bind; [exact _ | apply get_or_create_customer_http | intros customer].
  http_go. apply get_or_create_shipping_address_http.
Qed.

Lemma create_order_line_http order inst item :
  preserves same_http (Order.create_order_line order inst item).
Proof.
  unfold Order.create_order_line, Order._get_or_create_product,
    Order._create_generic_product.
  http_go.
Qed.

Lemma order_lines_loop_http order inst items :
  preserves same_http (Order.order_lines_loop order inst items).
Proof.
  induction items as [| item rest IH]; cbn [Order.order_lines_loop].
  - apply preserves_ret; exact _.
  - apply preserves_bind; [exact _ | | intros ?; exact IH].
    apply preserves_try_except; [exact _ | apply create_order_line_http | intros x; http_go].
Qed.

Lemma create_order_lines_http order inst line_items :
  preserves same_http (Order._create_order_lines order inst line_items).
Proof.
  unfold Order._create_order_lines.
  apply preserves_bind; [exact _ | apply preserves_lift; exact _ | intros count].
  apply preserves_bind; [exact _ | prim | intros ?].
  apply preserves_bind; [exact _ | apply preserves_lift; exact _ | intros items].
  apply order_lines_loop_http.
Qed.

Lemma upsert_order_http data inst : preserves same_http (Order.upsert_order data inst).
Proof.
  unfold Order.upsert_order.
  apply preserves_bind; [exact _ | apply prepare_order_vals_http | intros vals].
  apply preserves_bind; [exact _ | apply preserves_lift; exact _ | intros oid].
  apply preserves_bind; [exact _ | apply search_preserves; exact _ | intros existing].
  apply preserves_bind; [exact _ | apply preserves_lift; exact _ | intros order].
  destruct existing as [r |].
  - destruct (Order.in_draft_or_sent r); [| apply preserves_ret; exact _].
    apply preserves_bind; [exact _ | prim | intros ?].
    apply preserves_bind; [exact _ | intros e; reflexivity | intros lines].
    apply preserves_bind; [exact _ | | intros ?; apply preserves_ret; exact _].
    destruct lines; [apply create_order_lines_http | apply preserves_ret; exact _].
  - apply preserves_bind; [exact _ | prim | intros new_order].
    apply preserves_bind; [exact _ | apply create_order_lines_http | intros ?].
    apply preserves_ret; exact _.
Qed.

Lemma process_order_batch_http batch inst : forall c u,
  preserves same_http (Order._process_order_batch batch inst c u).
Proof.
  induction batch as [| o rest IH]; intros c u; cbn [Order._process_order_batch].
  - apply preserves_ret; exact _.
  - apply preserves_bind; [exact _ | | intros cu; apply IH].
    apply preserves_try_except; [exact _ | | intros x; http_go].
    apply preserves_bind; [exact _ | apply upsert_order_http | intros o'].
    apply preserves_ret; exact _.
Qed.

Lemma order_batches_http batches inst : forall c u,
  preserves same_http (Order.order_batches batches inst c u).
Proof.
  induction batches as [| b rest IH]; intros c u; cbn [Order.order_batches].
  - apply preserves_ret; exact _.
  - apply preserves_bind; [exact _ | apply process_order_batch_http | intros bc].
    apply preserves_bind; [exact _ | prim | intros ?].
    apply preserves_bind; [exact _ | prim | intros ?]. apply IH.
Qed.

(** On the order path every request is cursor-pure. *)
Lemma orders_loop_cursor_pure fuel inst batch_size url params :
  params !! "page_info" = None ->
  forall page_info acc,
    preserves (requests_within (cursor_pure params))
              (Order.orders_loop fuel inst batch_size url params page_info acc).
Proof.
  intros Hno. induction fuel as [| fuel IH]; intros page_info acc;
    cbn [Order.orders_loop].
  - apply preserves_ret; exact _.
  - apply preserves_bind; [exact _ | | intros ?].
    { intros e. apply same_http_within. reflexivity. }
    apply preserves_bind; [exact _ | | intros response].
    { apply requests_get_within. apply cursor_request_pure, Hno. }
    destruct (negb _); [apply preserves_raise; exact _ |].
    apply preserves_bind; [exact _ | apply preserves_lift; exact _ | intros orders].
    destruct (negb (truthy orders)); [apply preserves_ret; exact _ |].
    apply preserves_bind; [exact _ | apply preserves_lift; exact _ | intros fetched_now].
    destruct (Nat.eqb batch_size 0); [apply preserves_raise; exact _ |].
    apply preserves_bind; [exact _ | apply preserves_lift; exact _ | intros batches].
    apply preserves_bind; [exact _ | | intros cu].
    { intros e. apply same_http_within. apply order_batches_http. }
    apply preserves_bind; [exact _ | apply preserves_lift; exact _ | intros nxt].
    destruct nxt as [p' |]; [apply IH | apply preserves_ret; exact _].
Qed.

(** C2. The customer import keeps [limit] next to the cursor: on an
    upstream of two pages its second request carries both [page_info] and
    [limit = 250], so it is not cursor-pure. The product import on the
    same upstream sends the cursor alone, as it does on every upstream
    (see [products_loop_cursor_pure]). *)
Theorem customer_cursor_request_keeps_limit :
  let upstream resource := Scenario.two_pages resource (Scenario.customer 1 "ada@example.com")
                                               (Scenario.customer 2 "bob@example.com") in
  let customers := snd (Partner.import_shopify_customers
                          5 Scenario.shop (Scenario.empty_env (upstream "customers") [])) in
  let products := snd (Product.import_shopify_products
                         5 Scenario.shop 25 (Scenario.empty_env (upstream "products") [])) in
  List.map (fun rq => (req_params rq !! "page_info", req_params rq !! "limit"))
           (http_log customers)
  = [ (None, Some (PInt 250)); (Some (PStr "p2"), Some (PInt 250)) ]
  /\ ~ Forall (cursor_pure {[ "limit" := PInt 250 ]}) (http_log customers)
  /\ List.map (fun rq => (req_params rq !! "page_info", req_params rq !! "limit"))
              (http_log products)
     = [ (None, Some (PInt 250)); (Some (PStr "p2"), None) ]
  /\ Forall (cursor_pure {[ "limit" := PInt 250 ]}) (http_log products).
Proof.
  intros upstream customers products.
  assert (Hc : List.map (fun rq => (req_params rq !! "page_info", req_params rq !! "limit"))
                        (http_log customers)
               = [ (None, Some (PInt 250)); (Some (PStr "p2"), Some (PInt 250)) ])
    by (vm_compute; reflexivity).
  split; [exact Hc |]. split; [| split].
  - intros HF.
    destruct (http_log customers) as [| rq1 [| rq2 [| rq3 rest]]]; try discriminate Hc.
    cbn [List.map] in Hc. injection Hc as _ _ Hpi Hlim.
    inversion HF as [| ? ? _ HF2]; subst. inversion HF2 as [| ? ? H2 _]; subst.
    unfold cursor_pure in H2. rewrite Hpi in H2. rewrite H2 in Hlim.
    rewrite lookup_singleton_ne in Hlim by discriminate. discriminate.
  - vm_compute. reflexivity.
  - destruct (import_products_cursor_pure 5 Scenario.shop 25
                (Scenario.empty_env (upstream "products") [])) as (new & Hlog & HF).
    fold products in Hlog. rewrite Hlog. exact HF.
Qed.

(** ** Failure isolation *)

(** The product batch loop absorbs every exception of a record that is
    an object. A record that is anything else fails in the mapper and
    once more in the handler, which asks it for its id and title: that
    exception leaves the loop. *)
Lemma process_product_batch_result batch inst : forall c u e,
  match List.find (fun r => negb (is_dict r)) batch with
  | None => succeeds (fst (Product._process_product_batch batch inst c u e)) = true
  | Some r => fst (Product._process_product_batch batch inst c u e)
              = Raise (no_attribute r "get")
  end.
Proof.
  induction batch as [| p rest IH]; intros c u e; [reflexivity |].
  destruct p as [| | | | | | d]; try reflexivity.
  cbn [List.find is_dict negb].
  set (Q := fun run : result (nat * nat) * env =>
              match List.find (fun r => negb (is_dict r)) rest with
              | None => succeeds (fst run) = true
              | Some r => fst run = Raise (no_attribute r "get")
              end).
  change (forall c u e, Q (Product._process_product_batch rest inst c u e)) in IH.
  change (Q (Product._process_product_batch (PDict d :: rest) inst c u e)).
  cbn [Product._process_product_batch].
  unfold bind at 1, try_except.
  destruct (bind (Product.upsert_product (PDict d) inst) _ e) as [[cu | x] e1]; [apply IH |].
  unfold bind at 1. cbn [lift as_dict log fst snd]. apply IH.
Qed.

(** The product import absorbs every exception of a batch, the one of its
    commit included. *)
Lemma product_batches_returns batches inst : forall c u e,
  succeeds (fst (Product.product_batches batches inst c u e)) = true.
Proof.
  induction batches as [| b rest IH]; intros c u e; [reflexivity |].
  cbn [Product.product_batches]. unfold bind at 1, try_except at 1.
  destruct (bind (Product._process_product_batch b inst 0 0) _ e) as [[[[bc bu] |] | x] e1].
  - unfold bind at 1, try_except.
    destruct (bind commit _ e1) as [[[] | y] e2]; [apply IH |].
    destruct (bind (log _ _) _ e2) as [[[] | z] e3] eqn:Hh; [apply IH |].
    unfold bind in Hh. cbn in Hh. discriminate.
  - apply IH.
  - destruct (bind (bind (log _ _) _) _ e1) as [[[r |] | z] e3] eqn:Hh;
      unfold bind in Hh; cbn in Hh; try discriminate.
    apply IH.
Qed.

(** C4. The order import has no handler around a batch: when the commit of
    a batch raises, the import ends with a [UserError], the next page is
    never requested and the next order never imported. The product import
    on the same upstream and the same storage fault rolls the batch back
    and goes on. A batch committed before the fault stays committed on
    both paths. *)
Theorem order_import_aborts_on_batch_fault :
  let orders faults :=
    Order.import_shopify_orders
      5 Scenario.shop None 50
      (Scenario.empty_env (Scenario.two_pages "orders" (Scenario.order 1) (Scenario.order 2))
                          faults) in
  let products faults :=
    Product.import_shopify_products
      5 Scenario.shop 25
      (Scenario.empty_env (Scenario.two_pages "products" (Scenario.product 1 "Mug")
                                              (Scenario.product 2 "Pen"))
                          faults) in
  fst (orders [true]) = Raise (UserError "Error importing orders: commit failed")
  /\ List.length (http_log (snd (orders [true]))) = 1%nat
  /\ List.map (field "shopify_order_id") (table "sale.order" (snd (orders [true]))) = [PStr "1"]
  /\ durable "sale.order" (snd (orders [true])) = []
  /\ succeeds (fst (products [true])) = true
  /\ List.length (http_log (snd (products [true]))) = 2%nat
  /\ List.map (field "shopify_product_id") (durable "product.template" (snd (products [true])))
     = [PStr "2"]
  /\ fst (orders [false; true]) = Raise (UserError "Error importing orders: commit failed")
  /\ List.map (field "shopify_order_id") (durable "sale.order" (snd (orders [false; true])))
     = [PStr "1"]
  /\ succeeds (fst (products [false; true])) = true
  /\ List.map (field "shopify_product_id")
              (durable "product.template" (snd (products [false; true])))
     = [PStr "1"].
Proof. vm_compute. repeat split. Qed.

(** C5. The customer loop has no handler around a record: a customer
    without an [id] ends the whole import with a [UserError] and the
    customer after it is never processed. The product batch loop on a
    batch of the same shape logs the bad record and processes the rest. *)
Theorem customer_import_aborts_on_bad_record :
  let customers :=
    Partner.import_shopify_customers
      5 Scenario.shop
      (Scenario.empty_env
         (Scenario.one_page "customers"
            [ Scenario.customer 1 "ada@example.com"; Scenario.broken_customer;
              Scenario.customer 3 "cy@example.com" ]) []) in
  let products :=
    Product._process_product_batch
      [ Scenario.product 1 "Mug"; Scenario.broken_product; Scenario.product 3 "Pen" ]
      Scenario.shop 0 0 (Scenario.empty_env Scenario.silent []) in
  fst customers = Raise (UserError "Error importing customers: 'id'")
  /\ List.map (field "shopify_customer_id") (table "res.partner" (snd customers)) = [PStr "1"]
  /\ fst products = Return (2%nat, 0%nat)
  /\ List.map (field "shopify_product_id") (table "product.template" (snd products))
     = [PStr "1"; PStr "3"]
  /\ List.filter (fun entry => String.eqb (fst entry) "error") (logger (snd products))
     = [("error", "Error processing product None (No id): 'id'")].
Proof. vm_compute. repeat split. Qed.

(** ** Small checks of the building blocks *)

Example same_process_second_is_skipped :
  let schedule := [false; true; false; false; false; false;
                   false; true; true; true; true; true] in
  let s := Scheduler.exec Scenario.all_succeed None schedule (Scenario.two_runs 1 1) in
  Scheduler.overlap s = true
  /\ Scheduler.th_ran (Scheduler.first s) = true
  /\ Scheduler.th_ran (Scheduler.second s) = false
  /\ Scheduler.th_skipped (Scheduler.second s) = true
  /\ skips_logged s = 1%nat.
Proof. vm_compute. repeat split. Qed.

Example float_minus_fifteen : Py.float (PStr "-15.0") = Return (Qmake (-15) 1).
Proof. reflexivity. Qed.

Example float_rejects_words : succeeds (Py.float (PStr "free")) = false.
Proof. reflexivity. Qed.

Example str_of_id : Py.str (PInt 4501) = "4501".
Proof. reflexivity. Qed.

Example split_like_python : split "," "a,b,,c," = ["a"; "b"; ""; "c"; ""].
Proof. reflexivity. Qed.

Example chunks_of_two : chunks 2 [1; 2; 3; 4; 5]%nat = [[1; 2]; [3; 4]; [5]]%nat.
Proof. reflexivity. Qed.

Example next_page_reads_the_cursor :
  next_page (Response 200 (Return PNone) "" (Some (Scenario.next_link "products" "abc"))) PNone
  = Return (Some (PStr "abc")).
Proof. reflexivity. Qed.

Example next_page_stops_without_link :
  next_page (Response 200 (Return PNone) "" None) (PStr "abc") = Return None.
Proof. reflexivity. Qed.

(** * Further properties *)

(** ** The importers *)

(** X1. Whatever the upstream answers, every request of the product
    import is cursor-pure: it is the original query [limit = 250], or it
    carries [page_info] and nothing else. *)
Theorem product_import_is_cursor_pure (fuel : nat) (inst : instance) (batch_size : nat) (e : env) :
  exists new,
    http_log (snd (Product.import_shopify_products fuel inst batch_size e)) = http_log e ++ new
    /\ Forall (cursor_pure {[ "limit" := PInt 250 ]}) new.
Proof. exact (import_products_cursor_pure fuel inst batch_size e). Qed.

Lemma order_query_has_no_cursor date_from : order_query date_from !! "page_info" = None.
Proof. destruct date_from; reflexivity. Qed.

(** X2. The same for the order import, whose original query is [limit],
    [status = any] and, when a start date is given, [created_at_min]. *)
Theorem order_import_is_cursor_pure
    (fuel : nat) (inst : instance) (date_from : option string) (batch_size : nat) (e : env) :
  exists new,
    http_log (snd (Order.import_shopify_orders fuel inst date_from batch_size e))
    = http_log e ++ new
    /\ Forall (cursor_pure (order_query date_from)) new.
Proof.
  revert e.
  change (preserves (requests_within (cursor_pure (order_query date_from)))
                    (Order.import_shopify_orders fuel inst date_from batch_size)).
  unfold Order.import_shopify_orders.
  apply preserves_try_except; [exact _ | | intros x].
  - apply preserves_bind; [exact _ | | intros r].
    + apply orders_loop_cursor_pure.
      pose proof (order_query_has_no_cursor date_from) as H. unfold order_query in H.
      destruct date_from; exact H.
    + intros e. apply same_http_within. revert e.
      change (preserves same_http
                match r with
                | Some t =>
                    log "info" "Total orders processed";;
                    (let* now := datetime_now in
                     write "shopify.instance" (inst_id inst) {[ "last_order_sync" := now ]};;
                     ret (Some t))
                | None => ret None
                end).
      http_go.
  - intros e. apply same_http_within. reflexivity.
Qed.

Lemma errors_logged_debug e level msg :
  level <> "error" ->
  errors_logged (snd (log level msg e)) = errors_logged e.
Proof.
  intros Hne. unfold errors_logged. cbn [log snd logger].
  rewrite List.filter_app, List.length_app. cbn [List.filter fst].
  destruct (String.eqb_spec level "error"); [contradiction | cbn; lia].
Qed.

Lemma errors_logged_error e msg :
  errors_logged (snd (log "error" msg e)) = S (errors_logged e).
Proof.
  unfold errors_logged. cbn [log snd logger].
  rewrite List.filter_app, List.length_app. cbn. lia.
Qed.

(** One product: it is created, or updated, with no error logged, or it
    raises with the log as it was. *)
Lemma upsert_product_log data inst e :
  match Product.upsert_product data inst e with
  | (Return _, e1) => errors_logged e1 = errors_logged e
  | (Raise _, e1) => errors_logged e1 = errors_logged e
  end.
Proof.
  unfold Product.upsert_product, bind.
  rewrite (prepare_product_vals_pure data inst e e (reflexivity e)).
  destruct (fst (Product._prepare_product_vals data inst e)) as [vals | x]; [| reflexivity].
  unfold lift. destruct (index "id" data) as [pid | x]; [| reflexivity].
  unfold search. destruct (head _) as [r |].
  - change (errors_logged (snd (log "debug" "Updated product"
                                  (snd (write "product.template" (row_id r) vals e))))
            = errors_logged e).
    rewrite errors_logged_debug by discriminate. reflexivity.
  - change (errors_logged (snd (log "debug" "Created product"
                                  (snd (create "product.template" vals e))))
            = errors_logged e).
    rewrite errors_logged_debug by discriminate. reflexivity.
Qed.

Lemma process_product_batch_cons (d : dict) rest inst created updated e :
  Product._process_product_batch (PDict d :: rest) inst created updated e
  = match Product.upsert_product (PDict d) inst e with
    | (Return was_created, e1) =>
        Product._process_product_batch
          rest inst (if was_created : bool then S created else created)
          (if was_created : bool then updated else S updated) e1
    | (Raise x, e1) =>
        Product._process_product_batch
          rest inst created updated
          (snd (log "error" ("Error processing product " ++ Py.str (get "id" d)
                             ++ " (" ++ Py.str (get "title" d) ++ "): " ++ exn_str x) e1))
    end.
Proof.
  cbn [Product._process_product_batch]. unfold bind, try_except.
  destruct (Product.upsert_product (PDict d) inst e) as [[[] | x] e1]; reflexivity.
Qed.

(** X3. The product batch loop accounts for every record of a batch of
    objects exactly once, and returns: a record is counted as created or
    as updated, or it is logged as an error. A record that is not an
    object is beyond its handler, which calls [.get] on it: the loop
    raises that [AttributeError] at the first such record. *)
Theorem product_batch_accounts_for_every_record
    (batch : list pyval) (inst : instance) (created updated : nat) (e : env) :
  match List.find (fun r => negb (is_dict r)) batch with
  | None =>
      exists created' updated',
        fst (Product._process_product_batch batch inst created updated e)
        = Return (created', updated')
        /\ (created <= created')%nat /\ (updated <= updated')%nat
        /\ ((created' - created) + (updated' - updated)
            + (errors_logged (snd (Product._process_product_batch batch inst created updated e))
               - errors_logged e)
            = List.length batch)%nat
        /\ (errors_logged e
            <= errors_logged
                 (snd (Product._process_product_batch batch inst created updated e)))%nat
  | Some r =>
      fst (Product._process_product_batch batch inst created updated e)
      = Raise (no_attribute r "get")
  end.
Proof.
  destruct (List.find (fun r => negb (is_dict r)) batch) as [bad |] eqn:Hfind.
  { pose proof (process_product_batch_result batch inst created updated e) as H.
    rewrite Hfind in H. exact H. }
  revert created updated e.
  induction batch as [| data rest IH]; intros created updated e.
  - exists created, updated. cbn. repeat split; lia.
  - destruct data as [| | | | | | d]; try discriminate Hfind.
    cbn [List.find is_dict negb] in Hfind. specialize (IH Hfind).
    rewrite process_product_batch_cons.
    pose proof (upsert_product_log (PDict d) inst e) as Hlog.
    destruct (Product.upsert_product (PDict d) inst e) as [[was_created | x] e1].
    + match goal with |- context [Product._process_product_batch rest inst ?c ?u e1] =>
        destruct (IH c u e1) as (c' & u' & Hret & Hc & Hu & Hsum & Hmono) end.
      exists c', u'. rewrite Hret.
      destruct was_created; cbn [List.length]; repeat split; lia.
    + match goal with |- context [log "error" ?m e1] =>
        pose proof (errors_logged_error e1 m) as Herr;
        set (e2 := snd (log "error" m e1)) in *
      end.
      destruct (IH created updated e2) as (c' & u' & Hret & Hc & Hu & Hsum & Hmono).
      exists c', u'. rewrite Hret. cbn [List.length]. repeat split; lia.
Qed.

Example product_batch_is_left_at_a_null_record :
  let run := Product._process_product_batch
               [ Scenario.product 1 "Mug"; PNone; Scenario.product 3 "Pen" ]
               Scenario.shop 0 0 (Scenario.empty_env Scenario.silent []) in
  fst run = Raise (AttributeError "'NoneType' object has no attribute 'get'")
  /\ List.map (field "shopify_product_id") (table "product.template" (snd run)) = [PStr "1"].
Proof. vm_compute. split; reflexivity. Qed.

Lemma process_order_batch_cons (d : dict) rest inst created updated e :
  Order._process_order_batch (PDict d :: rest) inst created updated e
  = match Order.upsert_order (PDict d) inst e with
    | (Return o, e1) =>
        Order._process_order_batch
          rest inst
          (match o with Order.Created => S created | _ => created end)
          (match o with Order.Updated => S updated | _ => updated end) e1
    | (Raise x, e1) =>
        Order._process_order_batch
          rest inst created updated
          (snd (log "error" ("Error processing order " ++ Py.str (get "id" d)
                             ++ ": " ++ exn_str x) e1))
    end.
Proof.
  cbn [Order._process_order_batch]. unfold bind, try_except.
  destruct (Order.upsert_order (PDict d) inst e) as [[[] | x] e1]; reflexivity.
Qed.

Lemma process_order_batch_bare r rest inst created updated e :
  is_dict r = false ->
  fst (Order._process_order_batch (r :: rest) inst created updated e)
  = Raise (no_attribute r "get").
Proof. destruct r; intros H; try discriminate H; reflexivity. Qed.

(** X4. On a batch of objects the order batch loop returns, and its two
    counters grow together by at most the number of records; an order
    left untouched because it is confirmed is in neither. A record that
    is not an object is beyond its handler, which calls [.get] on it:
    the loop raises that [AttributeError] at the first such record. *)
Theorem order_batch_counts_are_bounded
    (batch : list pyval) (inst : instance) (created updated : nat) (e : env) :
  match List.find (fun r => negb (is_dict r)) batch with
  | None =>
      exists created' updated',
        fst (Order._process_order_batch batch inst created updated e)
        = Return (created', updated')
        /\ (created <= created')%nat /\ (updated <= updated')%nat
        /\ ((created' - created) + (updated' - updated) <= List.length batch)%nat
  | Some r =>
      fst (Order._process_order_batch batch inst created updated e)
      = Raise (no_attribute r "get")
  end.
Proof.
  revert created updated e.
  induction batch as [| data rest IH]; intros created updated e.
  - exists created, updated. cbn. repeat split; lia.
  - destruct (is_dict data) eqn:Hdict.
    2:{ cbn [List.find]. rewrite Hdict. cbn [negb].
        apply process_order_batch_bare. exact Hdict. }
    destruct data as [| | | | | | d]; try discriminate Hdict.
    cbn [List.find is_dict negb]. rewrite process_order_batch_cons.
    destruct (Order.upsert_order (PDict d) inst e) as [[o | x] e1].
    + match goal with |- context [Order._process_order_batch rest inst ?c ?u e1] =>
        specialize (IH c u e1) end.
      destruct (List.find _ rest); [exact IH |].
      destruct IH as (c' & u' & Hret & Hc & Hu & Hsum).
      exists c', u'. rewrite Hret.
      destruct o; cbn [List.length]; repeat split; lia.
    + match goal with |- context [log "error" ?m e1] =>
        set (e2 := snd (log "error" m e1)) in * end.
      specialize (IH created updated e2).
      destruct (List.find _ rest); [exact IH |].
      destruct IH as (c' & u' & Hret & Hc & Hu & Hsum).
      exists c', u'. rewrite Hret. cbn [List.length]. repeat split; lia.
Qed.

#[local] Instance same_oracles_preorder : PreOrder same_oracles.
Proof.
  split.
  - intros e. split; reflexivity.
  - intros a b c [H1 H2] [H3 H4]. split; congruence.
Qed.

Lemma commit_oracles : preserves same_oracles commit.
Proof. intros e. unfold commit. destruct (commit_faults e) as [| [] ?]; split; reflexivity. Qed.

Ltac oracle_leaf :=
  first [ apply pure_preserves; [exact _ | first [ apply prepare_customer_vals_pure
                                                  | apply prepare_product_vals_pure
                                                  | apply get_country_id_pure
                                                  | apply get_state_id_pure
                                                  | apply parse_datetime_pure ]]
        | apply commit_oracles
        | apply search_preserves; exact _
        | apply preserves_lift; exact _
        | apply preserves_ret; exact _
        | apply preserves_raise; exact _
        | solve [intros ?; split; reflexivity] ].

Ltac oracle_go :=
  repeat match goal with
    | |- preserves _ (bind _ _) => apply preserves_bind; [try exact _ | | intros ?]
    | |- preserves _ (try_except _ _) => apply preserves_try_except; [try exact _ | | intros ?]
    | |- preserves _ (match ?x with _ => _ end) => destruct x
    | |- preserves _ _ => oracle_leaf
    end.

Lemma process_product_batch_oracles batch inst : forall c u,
  preserves same_oracles (Product._process_product_batch batch inst c u).
Proof.
  induction batch as [| p rest IH]; intros c u; cbn [Product._process_product_batch].
  - apply preserves_ret; exact _.
  - apply preserves_bind; [exact _ | | intros cu; apply IH].
    unfold Product.upsert_product. oracle_go.
Qed.

Lemma product_batches_oracles batches inst : forall c u,
  preserves same_oracles (Product.product_batches batches inst c u).
Proof.
  induction batches as [| b rest IH]; intros c u; cbn [Product.product_batches].
  - apply preserves_ret; exact _.
  - apply preserves_bind; [exact _ | | intros r].
    + apply preserves_try_except; [exact _ | | intros x].
      * apply preserves_bind; [exact _ | apply process_product_batch_oracles | intros bc].
        apply preserves_ret; exact _.
      * oracle_go.
    + destruct r as [[bc bu] |]; [| apply IH].
      apply preserves_bind; [exact _ | | intros ?; apply IH].
      oracle_go.
Qed.

Lemma products_loop_returns fuel inst batch_size url params :
  batch_size <> 0%nat ->
  forall page_info acc e,
    (forall rq, status_code (upstream e rq) = 200) ->
    (forall rq, page_ok "products" (upstream e rq) = true) ->
    (forall rq p, succeeds (next_page (upstream e rq) p) = true) ->
    cursor_walk_ends fuel (upstream e) "products" url params page_info = true ->
    exists t,
      fst (Product.products_loop fuel inst batch_size url params page_info acc e)
      = Return (Some t).
Proof.
  intros Hbs. induction fuel as [| fuel IH]; intros page_info acc e Hok Hpage Hlink Hwalk;
    [discriminate Hwalk |].
  cbn [Product.products_loop]. unfold bind at 1. cbn [log fst snd].
  unfold bind at 1. cbn [requests_get fst snd upstream].
  cbn [cursor_walk_ends] in Hwalk.
  rewrite Hok in *. cbn [Z.eqb Pos.eqb negb orb] in *.
  match goal with |- context [page_of "products" (upstream e ?rq)] =>
    pose proof (Hlink rq page_info) as Hnext; pose proof (Hpage rq) as Hp;
    set (response := upstream e rq) in * end.
  unfold page_ok in Hp. unfold bind at 1, lift.
  destruct (page_of "products" response) as [products | x]; [| discriminate Hp].
  destruct (truthy products); cbn [negb orb] in *; [| eexists; reflexivity].
  assert (Hcut : exists n batches,
             len products = Return n /\ slices batch_size products = Return batches).
  { destruct products; try discriminate Hp; eexists; eexists; split; reflexivity. }
  destruct Hcut as (n & batches & -> & Hbatches).
  unfold bind at 1.
  destruct (Nat.eqb_spec batch_size 0) as [| _]; [contradiction |].
  unfold bind at 1. rewrite Hbatches. unfold bind at 1.
  match goal with |- context [Product.product_batches ?bs inst ?c ?u ?e0] =>
    pose proof (product_batches_returns bs inst c u e0) as Hret;
    pose proof (product_batches_oracles bs inst c u e0) as [Hup _];
    destruct (Product.product_batches bs inst c u e0) as [[cu | x] e1]
  end; [| discriminate Hret].
  cbn [snd upstream] in Hup.
  unfold bind at 1, lift.
  destruct (next_page response page_info) as [[p' |] | x];
    [| eexists; reflexivity | discriminate Hnext].
  apply IH; intros; rewrite Hup; auto.
Qed.

(** X5. No record and no storage fault can end a product import. When
    every response has status 200, a body that is an object with a list
    (or nothing) under [products] and a Link header the parser accepts,
    the batch size is positive and the chain of next links ends within
    the pages the loop is given, the import returns its totals, whatever
    the records look like and whichever commits fail. *)
Theorem product_import_survives_records_and_storage
    (fuel : nat) (inst : instance) (batch_size : nat) (e : env) :
  batch_size <> 0%nat ->
  (forall rq, status_code (upstream e rq) = 200) ->
  (forall rq, page_ok "products" (upstream e rq) = true) ->
  (forall rq p, succeeds (next_page (upstream e rq) p) = true) ->
  cursor_walk_ends fuel (upstream e) "products" (inst_base_url inst ++ "/products.json")
                   {[ "limit" := PInt 250 ]} PNone = true ->
  exists t, fst (Product.import_shopify_products fuel inst batch_size e) = Return (Some t).
Proof.
  intros Hbs Hok Hpage Hlink Hwalk.
  unfold Product.import_shopify_products, try_except, bind at 1.
  destruct (products_loop_returns fuel inst batch_size
              (inst_base_url inst ++ "/products.json")%string
              {[ "limit" := PInt 250 ]} Hbs PNone (Product.Totals 0 0 0) e
              Hok Hpage Hlink Hwalk) as [t Hret].
  destruct (Product.products_loop _ _ _ _ _ _ _ e) as [r e1].
  cbn [fst] in Hret. subst r. exists t. reflexivity.
Qed.

Lemma product_import_survives_records_and_storage_witness :
  let e := Scenario.empty_env
             (Scenario.two_pages "products" Scenario.broken_product (PInt 7))
             [true; true] in
  exists t, fst (Product.import_shopify_products 5 Scenario.shop 25 e) = Return (Some t).
Proof.
  intros e.
  apply (product_import_survives_records_and_storage 5 Scenario.shop 25 e).
  - discriminate.
  - intros rq. unfold e. cbn [upstream Scenario.empty_env]. unfold Scenario.two_pages.
    repeat case_match; reflexivity.
  - intros rq. unfold e. cbn [upstream Scenario.empty_env]. unfold Scenario.two_pages.
    repeat case_match; reflexivity.
  - intros rq p. unfold e. cbn [upstream Scenario.empty_env]. unfold Scenario.two_pages.
    repeat case_match; reflexivity.
  - reflexivity.
Defined.

(** ** Orders on the bulk path *)

(** X6. In a bulk batch, a record whose order exists locally in a state
    other than [draft] and [sent] is passed over: neither counter moves,
    and the store is left exactly as the customer lookup of the mapper
    left it, so there is no write to the order, no new line and no log
    entry. *)
Theorem bulk_batch_passes_over_processed_order
    (data : pyval) (inst : instance) (e : env) (oid : pyval) (existing : row)
    (created_count updated_count : nat) :
  succeeds (fst (Order._prepare_order_vals data inst e)) = true ->
  index "id" data = Return oid ->
  head (List.filter (matches (Order.order_key oid inst)) (table "sale.order" e)) = Some existing ->
  Order.in_draft_or_sent existing = false ->
  let run := Order._process_order_batch [data] inst created_count updated_count e in
  fst run = Return (created_count, updated_count)
  /\ snd run = snd (Order._prepare_order_vals data inst e)
  /\ table "sale.order" (snd run) = table "sale.order" e
  /\ table "sale.order.line" (snd run) = table "sale.order.line" e.
Proof.
  intros Hprep Hid Hhead Hstate run.
  destruct data as [| | | | | | order]; try discriminate Hid.
  pose proof (prepare_order_vals_frame (PDict order) inst e) as (Horders & Hlines & _).
  unfold same_table in Horders, Hlines.
  assert (Hrun : run = (Return (created_count, updated_count),
                        snd (Order._prepare_order_vals (PDict order) inst e))).
  { unfold run. cbn [Order._process_order_batch]. unfold bind, try_except, Order.upsert_order, bind.
    destruct (Order._prepare_order_vals (PDict order) inst e) as [[vals | x] e1];
      [| discriminate].
    cbn [fst snd] in *. unfold lift. rewrite Hid. unfold search.
    rewrite Horders, Hhead. cbn [as_dict]. rewrite Hstate. reflexivity. }
  rewrite Hrun. cbn [fst snd]. repeat split; assumption.
Qed.

Lemma bulk_batch_passes_over_processed_order_witness :
  let e := Scenario.with_table "sale.order" [Scenario.confirmed_order]
             (Scenario.empty_env Scenario.silent []) in
  fst (Order._process_order_batch [Scenario.order_update] Scenario.shop 3 5 e) = Return (3, 5)%nat
  /\ table "sale.order" (snd (Order._process_order_batch [Scenario.order_update] Scenario.shop 3 5 e))
     = table "sale.order" e.
Proof.
  intros e.
  pose proof (bulk_batch_passes_over_processed_order Scenario.order_update Scenario.shop e
                (PInt 42) Scenario.confirmed_order 3 5
                ltac:(vm_compute; reflexivity) eq_refl ltac:(vm_compute; reflexivity)
                ltac:(vm_compute; reflexivity)) as (H1 & _ & H2 & _).
  split; [exact H1 | exact H2].
Defined.

Lemma lines_of_another_order (n m : nat) (lines : list row) :
  n <> m ->
  Forall (fun l => field "order_id" l = id_val m) lines ->
  List.filter (matches [("order_id", id_val n)]) lines = [].
Proof.
  intros Hne. induction 1 as [| l t Hl _ IH]; [reflexivity |].
  cbn [List.filter]. rewrite IH. unfold matches. cbn [forallb fst snd].
  rewrite Hl. unfold id_val. cbn [Py.eqb].
  destruct (Z.eqb_spec (Z.of_nat m) (Z.of_nat n)); [lia | reflexivity].
Qed.

Lemma create_order_lines_result order inst items e :
  fst (Order._create_order_lines order inst (PList items) e)
  = match List.find (fun v => negb (is_dict v)) items with
    | None => Return tt
    | Some v => Raise (no_attribute v "get")
    end.
Proof.
  unfold Order._create_order_lines, bind. cbn [lift len iterate log fst snd].
  match goal with |- context [Order.order_lines_loop order inst items ?e0] =>
    destruct (order_lines_loop_spec order inst items e0) as (H1 & _)
  end.
  destruct (Order.order_lines_loop order inst items _) as [[[] | x] e2];
    cbn [fst] in *; exact H1.
Qed.

(** X7. [_create_order_lines] leaves the order table as it is, gives the
    order one line for each line item it gets through whose price and
    quantity convert, in addition to the lines it had, and leaves the
    lines of every other order as they were. It gets through the items of
    a list up to the first that is not an object: there the handler of
    the loop, which asks the item for its title, raises, and the items
    after it are never tried. On a list of objects it returns. *)
Theorem order_lines_one_per_convertible_item
    (order : row) (inst : instance) (line_items : pyval) (e : env) :
  let run := Order._create_order_lines order inst line_items e in
  table "sale.order" (snd run) = table "sale.order" e
  /\ List.length (Order.order_line (row_id order) (snd run))
     = (List.length (Order.order_line (row_id order) e)
        + List.length (List.filter line_converts (lines_reached line_items)))%nat
  /\ (forall other, other <> row_id order ->
        Order.order_line other (snd run) = Order.order_line other e)
  /\ (forall items, line_items = PList items ->
        fst run = match List.find (fun v => negb (is_dict v)) items with
                  | None => Return tt
                  | Some v => Raise (no_attribute v "get")
                  end).
Proof.
  cbv zeta.
  destruct (create_order_lines_spec order inst line_items e) as (Horders & L & HL & Hlen & Hall).
  split; [exact Horders |].
  unfold Order.order_line. rewrite HL. split; [| split].
  - rewrite List.filter_app, List.length_app, (all_lines_of_order _ _ Hall), Hlen. reflexivity.
  - intros other Hother.
    rewrite List.filter_app, (lines_of_another_order other (row_id order) L Hother Hall).
    apply List.app_nil_r.
  - intros items ->. apply create_order_lines_result.
Qed.

Lemma order_lines_one_per_convertible_item_witness :
  let e := Scenario.empty_env Scenario.silent [] in
  let items := [ PDict [("title", PStr "Mug"); ("price", PStr "8.00")];
                 PInt 7;
                 PDict [("title", PStr "Pen"); ("price", PStr "1.50")] ] in
  let run := Order._create_order_lines (Row 5 ∅) Scenario.shop (PList items) e in
  fst run = Raise (no_attribute (PInt 7) "get")
  /\ List.length (Order.order_line 5 (snd run)) = 1%nat.
Proof.
  intros e items run.
  destruct (order_lines_one_per_convertible_item (Row 5 ∅) Scenario.shop (PList items) e)
    as (_ & Hlen & _ & Hres).
  split; [exact (Hres items eq_refl) | exact Hlen].
Defined.

(** ** The scheduler guard in one process *)

Lemma entry_set b w t proc self :
  Scheduler.th_proc t = proc -> Scheduler.th_self t = self ->
  entry (Scheduler.running_set b w t) proc self = b.
Proof.
  intros <- <-. unfold entry, Scheduler.running_set. cbn [Scheduler._running_syncs].
  rewrite lookup_insert_eq. cbn. rewrite lookup_insert_eq. reflexivity.
Qed.

Lemma running_get_entry w t :
  Scheduler.running_get w t = entry w (Scheduler.th_proc t) (Scheduler.th_self t).
Proof. reflexivity. Qed.

(** What one step does to the thread that takes it and to the entry of
    its schedule. *)
Lemma step_effect outcome fault t w :
  let t' := fst (Scheduler.step outcome fault t w) in
  let w' := snd (Scheduler.step outcome fault t w) in
  let held := entry w (Scheduler.th_proc t) (Scheduler.th_self t) in
  let held' := entry w' (Scheduler.th_proc t) (Scheduler.th_self t) in
  Scheduler.th_proc t' = Scheduler.th_proc t
  /\ Scheduler.th_self t' = Scheduler.th_self t
  /\ match Scheduler.th_pc t with
     | Scheduler.Acquire =>
         if held
         then Scheduler.th_pc t' = Scheduler.Done /\ Scheduler.th_skipped t' = true
              /\ Scheduler.th_ran t' = Scheduler.th_ran t /\ held' = true
         else Scheduler.th_pc t' = Scheduler.CheckDb
              /\ Scheduler.th_skipped t' = Scheduler.th_skipped t
              /\ Scheduler.th_ran t' = Scheduler.th_ran t /\ held' = true
     | Scheduler.CheckDb =>
         held' = held /\ Scheduler.th_ran t' = Scheduler.th_ran t
         /\ ((Scheduler.th_pc t' = Scheduler.ReleaseSkipped /\ Scheduler.th_skipped t' = true)
             \/ (Scheduler.th_pc t' = Scheduler.Mark
                 /\ Scheduler.th_skipped t' = Scheduler.th_skipped t))
     | Scheduler.ReleaseSkipped =>
         held' = false /\ Scheduler.th_pc t' = Scheduler.Done
         /\ Scheduler.th_skipped t' = Scheduler.th_skipped t
         /\ Scheduler.th_ran t' = Scheduler.th_ran t
     | Scheduler.Mark =>
         held' = held /\ Scheduler.th_skipped t' = Scheduler.th_skipped t
         /\ Scheduler.th_ran t' = Scheduler.th_ran t
         /\ (Scheduler.th_pc t' = Scheduler.SubSyncs \/ Scheduler.th_pc t' = Scheduler.Done)
     | Scheduler.SubSyncs =>
         held' = held /\ Scheduler.th_skipped t' = Scheduler.th_skipped t
         /\ Scheduler.th_pc t' = Scheduler.Finish
     | Scheduler.Finish =>
         held' = held /\ Scheduler.th_skipped t' = Scheduler.th_skipped t
         /\ Scheduler.th_ran t' = Scheduler.th_ran t
         /\ Scheduler.th_pc t' = Scheduler.Release
     | Scheduler.Release =>
         held' = false /\ Scheduler.th_pc t' = Scheduler.Done
         /\ Scheduler.th_skipped t' = Scheduler.th_skipped t
         /\ Scheduler.th_ran t' = Scheduler.th_ran t
     | Scheduler.Done => t' = t /\ w' = w
     end.
Proof.
  destruct t as [p s pc ran sk cr er ms]. cbv zeta.
  cbn [Scheduler.th_proc Scheduler.th_self Scheduler.th_pc Scheduler.th_ran
       Scheduler.th_skipped].
  unfold Scheduler.step. cbn [Scheduler.th_pc].
  destruct pc.
  - rewrite running_get_entry. cbn [Scheduler.th_proc Scheduler.th_self].
    destruct (entry w p s) eqn:He; cbn [fst snd Scheduler.th_proc Scheduler.th_self
      Scheduler.th_pc Scheduler.th_ran Scheduler.th_skipped Scheduler.at_pc].
    + repeat split; try reflexivity. exact He.
    + repeat split; try reflexivity. apply entry_set; reflexivity.
  - destruct (truthy _); cbn; repeat split; auto.
  - cbn [fst snd Scheduler.th_proc Scheduler.th_self Scheduler.th_pc Scheduler.th_ran
         Scheduler.th_skipped Scheduler.at_pc].
    repeat split; try reflexivity. apply entry_set; reflexivity.
  - match goal with |- context [bind ?a ?b ?e0] =>
      destruct (bind a b e0) as [[u | x] e2] end; cbn; repeat split; auto.
  - destruct (Scheduler.run_sub_syncs _ _ _ _ _) as [errors success_messages].
    cbn. repeat split; auto.
  - cbn. repeat split; auto.
  - cbn [fst snd Scheduler.th_proc Scheduler.th_self Scheduler.th_pc Scheduler.th_ran
         Scheduler.th_skipped Scheduler.at_pc].
    repeat split; try reflexivity. apply entry_set; reflexivity.
  - cbn. repeat split.
Qed.

Lemma entry_in_store {A} (m : M A) w proc self :
  entry (Scheduler.in_store m w) proc self = entry w proc self.
Proof. reflexivity. Qed.

Lemma guard_inv_step outcome fault proc self s who :
  guard_inv proc self s -> guard_inv proc self (Scheduler.sys_step outcome fault s who).
Proof.
  destruct s as [w a b ov]. unfold guard_inv, skipped_is_out, ran_is_late.
  cbn [Scheduler.sys_world Scheduler.first Scheduler.second Scheduler.overlap].
  intros (Hpa & Hsa & Hpb & Hsb & Hentry & Hexcl & Hska & Hskb & Hra & Hrb & Hov).
  unfold Scheduler.sys_step.
  cbn [Scheduler.sys_world Scheduler.first Scheduler.second Scheduler.overlap].
  destruct who.
  - pose proof (step_effect outcome fault b w) as Heff. cbv zeta in Heff.
    rewrite Hpb, Hsb in Heff.
    destruct (Scheduler.step outcome fault b w) as [b' w'].
    cbn [fst snd Scheduler.sys_world Scheduler.first Scheduler.second Scheduler.overlap] in *.
    destruct Heff as (Hp' & Hs' & Heff).
    unfold Scheduler.mid_run, Scheduler.begins in *.
    destruct a as [pa sa pca ra ska cra ea ma], b as [pb sb pcb rb skb crb eb mb],
             b' as [pb' sb' pcb' rb' skb' crb' eb' mb'].
    cbn [Scheduler.th_proc Scheduler.th_self Scheduler.th_pc Scheduler.th_ran
         Scheduler.th_skipped] in *.
    subst.
    destruct pcb; cbn [orb andb] in *;
      destruct (entry w proc self) eqn:He;
      destruct pca; cbn [orb andb] in *;
      repeat match goal with
        | H : _ /\ _ |- _ => destruct H
        | H : _ \/ _ |- _ => destruct H
        | H : Scheduler.Thread _ _ _ _ _ _ _ _ = Scheduler.Thread _ _ _ _ _ _ _ _ |- _ =>
            inversion H; clear H
        end;
      subst; repeat split; intros;
      rewrite ?Bool.orb_false_r, ?Bool.orb_true_r in *;
      try solve [ discriminate | congruence | auto
                | try match goal with
                      | |- ?b = false => destruct b eqn:?; [exfalso | reflexivity]
                      end;
                  repeat match goal with
                    | Hs : ?a = true -> _, Ha : ?a = true |- _ => specialize (Hs Ha)
                    | Hs : ?x = ?x -> _ |- _ => specialize (Hs eq_refl)
                    end;
                  intuition (discriminate || congruence || auto) ].
  - pose proof (step_effect outcome fault a w) as Heff. cbv zeta in Heff.
    rewrite Hpa, Hsa in Heff.
    destruct (Scheduler.step outcome fault a w) as [a' w'].
    cbn [fst snd Scheduler.sys_world Scheduler.first Scheduler.second Scheduler.overlap] in *.
    destruct Heff as (Hp' & Hs' & Heff).
    unfold Scheduler.mid_run, Scheduler.begins in *.
    destruct a as [pa sa pca ra ska cra ea ma], b as [pb sb pcb rb skb crb eb mb],
             a' as [pa' sa' pca' ra' ska' cra' ea' ma'].
    cbn [Scheduler.th_proc Scheduler.th_self Scheduler.th_pc Scheduler.th_ran
         Scheduler.th_skipped] in *.
    subst.
    destruct pca; cbn [orb andb] in *;
      destruct (entry w proc self) eqn:He;
      destruct pcb; cbn [orb andb] in *;
      repeat match goal with
        | H : _ /\ _ |- _ => destruct H
        | H : _ \/ _ |- _ => destruct H
        | H : Scheduler.Thread _ _ _ _ _ _ _ _ = Scheduler.Thread _ _ _ _ _ _ _ _ |- _ =>
            inversion H; clear H
        end;
      subst; repeat split; intros;
      rewrite ?Bool.orb_false_r, ?Bool.orb_true_r in *;
      try solve [ discriminate | congruence | auto
                | try match goal with
                      | |- ?b = false => destruct b eqn:?; [exfalso | reflexivity]
                      end;
                  repeat match goal with
                    | Hs : ?a = true -> _, Ha : ?a = true |- _ => specialize (Hs Ha)
                    | Hs : ?x = ?x -> _ |- _ => specialize (Hs eq_refl)
                    end;
                  intuition (discriminate || congruence || auto) ].
Qed.

Lemma guard_inv_start proc self w :
  guard_inv proc self
    (Scheduler.System w (Scheduler.start proc self) (Scheduler.start proc self) false).
Proof.
  unfold guard_inv, skipped_is_out, ran_is_late; cbn.
  repeat split; intros; discriminate.
Qed.

Lemma guard_inv_exec outcome fault proc self schedule s :
  guard_inv proc self s -> guard_inv proc self (Scheduler.exec outcome fault schedule s).
Proof.
  unfold Scheduler.exec. revert s.
  induction schedule as [| who schedule IH]; intros s Hs; [exact Hs |].
  cbn [fold_left]. apply IH, guard_inv_step, Hs.
Qed.

(** X8. Two invocations of the same schedule in one server process, from
    any store and any state of the dictionary, under any schedule: they
    are never both between their first and their last step; if one began
    while the other was there, one of the two was skipped; and a skipped
    invocation never reached the sub-syncs. *)
Theorem same_process_runs_exclude_each_other outcome fault proc self w schedule :
  let s := Scheduler.exec outcome fault schedule
             (Scheduler.System w (Scheduler.start proc self) (Scheduler.start proc self) false) in
  Scheduler.mid_run (Scheduler.first s) && Scheduler.mid_run (Scheduler.second s) = false
  /\ (Scheduler.overlap s = true ->
      Scheduler.th_skipped (Scheduler.first s) = true
      \/ Scheduler.th_skipped (Scheduler.second s) = true)
  /\ (Scheduler.th_skipped (Scheduler.first s) = true -> Scheduler.th_ran (Scheduler.first s) = false)
  /\ (Scheduler.th_skipped (Scheduler.second s) = true -> Scheduler.th_ran (Scheduler.second s) = false).
Proof.
  cbv zeta.
  pose proof (guard_inv_exec outcome fault proc self schedule _ (guard_inv_start proc self w))
    as (_ & _ & _ & _ & _ & Hexcl & Hska & Hskb & _ & _ & Hov).
  repeat split; auto.
  - intros H. apply Hska, H.
  - intros H. apply Hskb, H.
Qed.

(** ** The scheduled run at its guards *)

(** X9. After the start-up hook, in a server process that has just
    started (its dictionary is empty), a run for any schedule gets past
    both guards: it is not skipped. Row ids are unique and the flags hold
    booleans. *)
Theorem run_after_restart_is_not_skipped
    (outcome : string -> option string) (fault : option exn) (proc self : nat) (e : env) :
  NoDup (List.map row_id (table "shopify.scheduler" e)) ->
  Forall (fun r => exists b, field "is_running" r = PBool b) (table "shopify.scheduler" e) ->
  let w := Scheduler.World (snd (Scheduler.post_init_hook e)) ∅ in
  let run := Scheduler.run_scheduled_sync outcome fault proc self w in
  Scheduler.th_skipped (fst run) = false
  /\ Scheduler.th_pc (fst run) = Scheduler.Done
  /\ (Scheduler.th_crashed (fst run) = false -> Scheduler.th_ran (fst run) = true).
Proof.
  intros Hnd Hbool w run.
  set (Q := fun t : Scheduler.thread =>
              Scheduler.th_skipped t = false
              /\ Scheduler.th_pc t = Scheduler.Done
              /\ (Scheduler.th_crashed t = false -> Scheduler.th_ran t = true)).
  change (Q (fst run)). unfold run, w.
  unfold Scheduler.run_scheduled_sync, Scheduler.start.
  cbn [Scheduler.steps]. unfold Scheduler.step. cbn [Scheduler.th_pc].
  unfold Scheduler.running_get at 1. cbn [Scheduler._running_syncs Scheduler.th_proc].
  rewrite lookup_empty. cbn [default from_option]. rewrite lookup_empty. cbn [default from_option].
  cbn [Scheduler.th_pc Scheduler.at_pc].
  match goal with |- context [Scheduler.self_row ?w0 ?t0] =>
    change (Scheduler.self_row w0 t0)
      with (Scheduler.self_row (Scheduler.World (snd (Scheduler.post_init_hook e))
                                                (Scheduler._running_syncs w0)) t0);
    rewrite (no_schedule_blocked_after_reset e _ t0 Hnd Hbool)
  end.
  cbn [Scheduler.th_pc Scheduler.at_pc Scheduler.th_self
       Scheduler.th_proc Scheduler.th_ran Scheduler.th_skipped
       Scheduler.th_crashed Scheduler.th_errors
       Scheduler.th_success_messages Scheduler.store
       Scheduler._running_syncs].
  match goal with |- context [bind ?a ?b ?e0] =>
    destruct (bind a b e0) as [[u | x] e2] end;
    [| cbn [fst snd]; unfold Q; cbn; repeat split; intros; congruence].
  cbn [Scheduler.th_pc Scheduler.at_pc Scheduler.th_self
       Scheduler.th_proc Scheduler.th_ran Scheduler.th_skipped
       Scheduler.th_crashed Scheduler.th_errors
       Scheduler.th_success_messages].
  destruct (Scheduler.run_sub_syncs _ _ _ _ _) as [errors success_messages].
  cbn [fst snd Scheduler.th_pc Scheduler.at_pc Scheduler.th_self
       Scheduler.th_proc Scheduler.th_ran Scheduler.th_skipped
       Scheduler.th_crashed Scheduler.th_errors
       Scheduler.th_success_messages].
  unfold Q; cbn. repeat split.
Qed.

Lemma run_after_restart_is_not_skipped_witness :
  let e := Scenario.with_table "shopify.scheduler"
             [Scenario.schedule 1 true; Scenario.schedule 2 false]
             (Scenario.empty_env Scenario.silent []) in
  Scheduler.th_skipped
    (fst (Scheduler.run_scheduled_sync Scenario.all_succeed None 1 1
            (Scheduler.World (snd (Scheduler.post_init_hook e)) ∅))) = false.
Proof.
  intros e.
  assert (Hnd : NoDup (List.map row_id (table "shopify.scheduler" e))).
  { apply (bool_decide_unpack _). vm_compute. exact I. }
  assert (Hbool : Forall (fun r => exists b, field "is_running" r = PBool b)
                         (table "shopify.scheduler" e)).
  { repeat constructor; eexists; reflexivity. }
  exact (proj1 (run_after_restart_is_not_skipped Scenario.all_succeed None 1 1 e Hnd Hbool)).
Defined.

Lemma busy_run outcome fault proc self w :
  Scheduler.running_get w (Scheduler.start proc self) = true ->
  Scheduler.run_scheduled_sync outcome fault proc self w
  = (Scheduler.Thread proc self Scheduler.Done false true false [] [],
     Scheduler.in_store (log "warning" "Sync is already running. Skipping this execution.") w).
Proof.
  intros Hbusy. unfold Scheduler.run_scheduled_sync. cbn [Scheduler.steps].
  unfold Scheduler.step at 1. cbn [Scheduler.th_pc Scheduler.start].
  fold (Scheduler.start proc self). rewrite Hbusy. reflexivity.
Qed.

(** X10. A run that finds its entry set in the process's dictionary is
    skipped and has no effect but one warning in the log: the tables, the
    journal of writes, the committed state and the dictionary are as
    before, and no sub-sync ran. *)
Theorem busy_entry_skips_without_effect
    (outcome : string -> option string) (fault : option exn) (proc self : nat)
    (w : Scheduler.world) :
  Scheduler.running_get w (Scheduler.start proc self) = true ->
  let run := Scheduler.run_scheduled_sync outcome fault proc self w in
  Scheduler.th_skipped (fst run) = true
  /\ Scheduler.th_ran (fst run) = false
  /\ Scheduler._running_syncs (snd run) = Scheduler._running_syncs w
  /\ working (Scheduler.store (snd run)) = working (Scheduler.store w)
  /\ committed (Scheduler.store (snd run)) = committed (Scheduler.store w)
  /\ journal (Scheduler.store (snd run)) = journal (Scheduler.store w)
  /\ logger (Scheduler.store (snd run))
     = logger (Scheduler.store w)
       ++ [("warning", "Sync is already running. Skipping this execution.")].
Proof.
  intros Hbusy run. unfold run. rewrite (busy_run outcome fault proc self w Hbusy).
  cbn. repeat split.
Qed.

Lemma busy_entry_skips_without_effect_witness :
  let w := Scheduler.running_set true Scenario.idle_world (Scheduler.start 1 1) in
  Scheduler.th_skipped (fst (Scheduler.run_scheduled_sync Scenario.all_succeed None 1 1 w)) = true
  /\ journal (Scheduler.store (snd (Scheduler.run_scheduled_sync Scenario.all_succeed None 1 1 w)))
     = journal (Scheduler.store w).
Proof.
  intros w.
  pose proof (busy_entry_skips_without_effect Scenario.all_succeed None 1 1 w
                ltac:(vm_compute; reflexivity)) as (H1 & _ & _ & _ & _ & H2 & _).
  split; [exact H1 | exact H2].
Defined.

(** X11. A run that gets the dictionary entry but finds [is_running] set
    on its row is skipped: no sub-sync runs, nothing is written, one
    warning is logged, and the entry it took is given back, so the
    process's dictionary does not stay blocked. *)
Theorem flag_in_database_skips_and_releases
    (outcome : string -> option string) (fault : option exn) (proc self : nat)
    (w : Scheduler.world) :
  Scheduler.running_get w (Scheduler.start proc self) = false ->
  truthy (field "is_running" (Scheduler.self_row w (Scheduler.start proc self))) = true ->
  let run := Scheduler.run_scheduled_sync outcome fault proc self w in
  Scheduler.th_skipped (fst run) = true
  /\ Scheduler.th_ran (fst run) = false
  /\ Scheduler.running_get (snd run) (Scheduler.start proc self) = false
  /\ working (Scheduler.store (snd run)) = working (Scheduler.store w)
  /\ committed (Scheduler.store (snd run)) = committed (Scheduler.store w)
  /\ journal (Scheduler.store (snd run)) = journal (Scheduler.store w)
  /\ logger (Scheduler.store (snd run))
     = logger (Scheduler.store w)
       ++ [("warning", "Sync is marked as running in database. Skipping.")].
Proof.
  intros Hfree Hflag run.
  assert (Hrun : run = (Scheduler.Thread proc self Scheduler.Done false true false [] [],
                        Scheduler.running_set false
                          (Scheduler.in_store
                             (log "warning" "Sync is marked as running in database. Skipping.")
                             (Scheduler.running_set true w (Scheduler.start proc self)))
                          (Scheduler.start proc self))).
  { unfold run, Scheduler.run_scheduled_sync. cbn [Scheduler.steps].
    unfold Scheduler.step at 1. cbn [Scheduler.th_pc Scheduler.start].
    fold (Scheduler.start proc self). rewrite Hfree.
    unfold Scheduler.step at 1. cbn [Scheduler.th_pc Scheduler.at_pc].
    change (Scheduler.self_row (Scheduler.running_set true w (Scheduler.start proc self))
                               (Scheduler.at_pc Scheduler.CheckDb (Scheduler.start proc self)))
      with (Scheduler.self_row w (Scheduler.start proc self)).
    rewrite Hflag. reflexivity. }
  rewrite Hrun. cbn [fst snd Scheduler.th_skipped Scheduler.th_ran].
  split; [reflexivity |]. split; [reflexivity |].
  split; [apply running_get_after_set; reflexivity |].
  repeat split.
Qed.

Lemma flag_in_database_skips_and_releases_witness :
  let w := Scheduler.World
             (Scenario.with_table "shopify.scheduler" [Scenario.schedule 1 true]
                (Scenario.empty_env Scenario.silent [])) ∅ in
  Scheduler.th_skipped (fst (Scheduler.run_scheduled_sync Scenario.all_succeed None 1 1 w)) = true
  /\ Scheduler.running_get (snd (Scheduler.run_scheduled_sync Scenario.all_succeed None 1 1 w))
                           (Scheduler.start 1 1) = false.
Proof.
  intros w.
  pose proof (flag_in_database_skips_and_releases Scenario.all_succeed None 1 1 w
                ltac:(vm_compute; reflexivity) ltac:(vm_compute; reflexivity))
    as (H1 & _ & H2 & _).
  split; [exact H1 | exact H2].
Defined.

(** X12. When marking the run fails (the write or its commit raises
    before the [try] is entered) the dictionary entry stays set, since
    only the [finally] of the [try] gives it back; every later run of the
    schedule in that process is then skipped at the first guard. *)
Theorem failed_mark_blocks_later_runs
    (outcome outcome' : string -> option string) (fault fault' : option exn) (proc self : nat)
    (w : Scheduler.world) :
  let run := Scheduler.run_scheduled_sync outcome fault proc self w in
  Scheduler.th_crashed (fst run) = true ->
  Scheduler.th_ran (fst run) = false
  /\ Scheduler.running_get (snd run) (Scheduler.start proc self) = true
  /\ let later := Scheduler.run_scheduled_sync outcome' fault' proc self (snd run) in
     Scheduler.th_skipped (fst later) = true /\ Scheduler.th_ran (fst later) = false.
Proof.
  cbv zeta.
  assert (Hlater : forall w0, Scheduler.running_get w0 (Scheduler.start proc self) = true ->
            Scheduler.th_skipped
              (fst (Scheduler.run_scheduled_sync outcome' fault' proc self w0)) = true
            /\ Scheduler.th_ran
                 (fst (Scheduler.run_scheduled_sync outcome' fault' proc self w0)) = false).
  { intros w0 H0. rewrite (busy_run outcome' fault' proc self w0 H0). split; reflexivity. }
  set (Q := fun r : Scheduler.thread * Scheduler.world =>
              Scheduler.th_crashed (fst r) = true ->
              Scheduler.th_ran (fst r) = false
              /\ Scheduler.running_get (snd r) (Scheduler.start proc self) = true
              /\ Scheduler.th_skipped
                   (fst (Scheduler.run_scheduled_sync outcome' fault' proc self (snd r))) = true
              /\ Scheduler.th_ran
                   (fst (Scheduler.run_scheduled_sync outcome' fault' proc self (snd r))) = false).
  change (Q (Scheduler.run_scheduled_sync outcome fault proc self w)).
  unfold Scheduler.run_scheduled_sync at 1. unfold Scheduler.start at 1.
  cbn [Scheduler.steps]. unfold Scheduler.step. cbn [Scheduler.th_pc].
  destruct (Scheduler.running_get w _) eqn:Hget; [unfold Q; cbn; discriminate |].
  cbn [Scheduler.th_pc Scheduler.at_pc].
  destruct (truthy _); [unfold Q; cbn; discriminate |].
  cbn [Scheduler.th_pc Scheduler.at_pc Scheduler.th_self
       Scheduler.th_proc Scheduler.th_ran Scheduler.th_skipped
       Scheduler.th_crashed Scheduler.th_errors
       Scheduler.th_success_messages Scheduler.store
       Scheduler._running_syncs].
  match goal with |- context [bind ?a ?b ?e0] =>
    destruct (bind a b e0) as [[u | x] e2] end.
  - cbn [Scheduler.th_pc Scheduler.at_pc Scheduler.th_self
         Scheduler.th_proc Scheduler.th_ran Scheduler.th_skipped
         Scheduler.th_crashed Scheduler.th_errors
         Scheduler.th_success_messages].
    destruct (Scheduler.run_sub_syncs _ _ _ _ _) as [errors success_messages].
    unfold Q. cbn [fst snd Scheduler.th_pc Scheduler.at_pc Scheduler.th_self
         Scheduler.th_proc Scheduler.th_ran Scheduler.th_skipped
         Scheduler.th_crashed Scheduler.th_errors
         Scheduler.th_success_messages]. discriminate.
  - unfold Q. cbn [fst snd Scheduler.th_ran Scheduler.th_crashed Scheduler.th_pc]. intros _.
    assert (Hheld : Scheduler.running_get
                      (Scheduler.World (snd (rollback e2))
                         (Scheduler._running_syncs
                            (Scheduler.running_set true w
                               (Scheduler.Thread proc self Scheduler.Acquire false false false [] []))))
                      (Scheduler.start proc self) = true).
    { unfold Scheduler.running_get, Scheduler.running_set, Scheduler.start.
      cbn [Scheduler._running_syncs Scheduler.th_proc Scheduler.th_self].
      rewrite lookup_insert_eq. cbn. rewrite lookup_insert_eq. reflexivity. }
    split; [reflexivity |]. split; [exact Hheld |]. apply Hlater, Hheld.
Qed.

Lemma failed_mark_blocks_later_runs_witness :
  let w := Scheduler.World
             (Scenario.with_table "shopify.scheduler" [Scenario.schedule 1 false]
                (Scenario.empty_env Scenario.silent [true])) ∅ in
  let run := Scheduler.run_scheduled_sync Scenario.all_succeed None 1 1 w in
  Scheduler.th_crashed (fst run) = true
  /\ Scheduler.th_skipped
       (fst (Scheduler.run_scheduled_sync Scenario.all_succeed None 1 1 (snd run))) = true.
Proof.
  intros w run.
  assert (Hc : Scheduler.th_crashed (fst run) = true) by (vm_compute; reflexivity).
  split; [exact Hc |].
  exact (proj1 (proj2 (proj2 (failed_mark_blocks_later_runs Scenario.all_succeed
                                Scenario.all_succeed None None 1 1 w Hc)))).
Defined.

(** ** Webhooks *)

Lemma get_or_create_customer_keeps_sync_log data inst :
  preserves (same_table "shopify.sync.log") (Order._get_or_create_customer data inst).
Proof. unfold Order._get_or_create_customer. frame_go. Qed.

Lemma get_or_create_shipping_address_keeps_sync_log addr parent :
  preserves (same_table "shopify.sync.log") (Order._get_or_create_shipping_address addr parent).
Proof. unfold Order._get_or_create_shipping_address. frame_go. Qed.

Lemma prepare_order_vals_keeps_sync_log data inst :
  preserves (same_table "shopify.sync.log") (Order._prepare_order_vals data inst).
Proof.
  unfold Order._prepare_order_vals.
  apply preserves_bind; [exact _ | apply preserves_lift; exact _ | intros order].
  apply preserves_bind; [exact _ | apply get_or_create_customer_keeps_sync_log | intros customer].
  frame_go. apply get_or_create_shipping_address_keeps_sync_log.
Qed.

Lemma process_product_webhook_keeps_sync_log topic data inst :
  preserves (same_table "shopify.sync.log") (Webhook._process_product_webhook topic data inst).
Proof.
  unfold Webhook._process_product_webhook.
  destruct (_ || _).
  - apply preserves_bind; [exact _ | | intros vals].
    + apply pure_preserves; [exact _ | apply prepare_product_vals_pure].
    + frame_go.
  - destruct (String.eqb topic "products/delete"); frame_go.
Qed.

Lemma process_order_webhook_keeps_sync_log topic data inst :
  preserves (same_table "shopify.sync.log") (Webhook._process_order_webhook topic data inst).
Proof.
  unfold Webhook._process_order_webhook.
  destruct (_ || _); [| apply preserves_ret; exact _].
  apply preserves_bind; [exact _ | apply prepare_order_vals_keeps_sync_log | intros vals].
  frame_go.
Qed.

Lemma process_customer_webhook_keeps_sync_log topic data inst :
  preserves (same_table "shopify.sync.log") (Webhook._process_customer_webhook topic data inst).
Proof.
  unfold Webhook._process_customer_webhook.
  destruct (_ || _); [| apply preserves_ret; exact _].
  frame_go.
Qed.

(** X13. [process_webhook] never raises: it returns an acknowledgement
    on every input. When no instance answers to the shop domain the
    acknowledgement is [False], nothing is stored or written and the log
    gets one warning; a [True] acknowledgement is only given for a
    resolved instance. *)
Theorem webhook_handler_never_raises
    (resolve : string -> option instance) (topic : string) (data : pyval)
    (shopify_domain : string) (e : env) :
  let run := Webhook.process_webhook resolve topic data shopify_domain e in
  exists ack : bool,
    fst run = Return ack
    /\ (resolve shopify_domain = None ->
        ack = false
        /\ working (snd run) = working e
        /\ journal (snd run) = journal e
        /\ logger (snd run)
           = logger e ++ [("warning", ("No instance found for domain: " ++ shopify_domain)%string)])
    /\ (ack = true -> exists inst, resolve shopify_domain = Some inst).
Proof.
  cbv zeta. unfold Webhook.process_webhook, try_except.
  destruct (resolve shopify_domain) as [inst |].
  - match goal with |- context [bind ?a ?b e] => destruct (bind a b e) as [[ack | x] e1] end.
    + exists ack. split; [reflexivity |]. split; [discriminate | eauto].
    + exists false. split; [reflexivity |]. split; discriminate.
  - exists false. cbn. repeat split. discriminate.
Qed.

(** X14. For a resolved instance the receipt of a webhook is recorded
    before the payload is looked at: the sync-log table gains exactly one
    row, with status [success] and the topic in its message, whether the
    processing that follows succeeds or raises. *)
Theorem webhook_receipt_is_recorded_first
    (resolve : string -> option instance) (topic : string) (data : pyval)
    (shopify_domain : string) (inst : instance) (e : env) :
  resolve shopify_domain = Some inst ->
  let run := Webhook.process_webhook resolve topic data shopify_domain e in
  exists receipt,
    table "shopify.sync.log" (snd run) = table "shopify.sync.log" e ++ [receipt]
    /\ row_id receipt = next_id e
    /\ field "shopify_instance_id" receipt = id_val (inst_id inst)
    /\ field "sync_type" receipt = PStr "webhook"
    /\ field "direction" receipt = PStr "import"
    /\ field "status" receipt = PStr "success"
    /\ field "message" receipt = PStr ("Received webhook: " ++ topic).
Proof.
  intros Hinst. cbv zeta. unfold Webhook.process_webhook. rewrite Hinst.
  unfold try_except, bind at 1.
  unfold Webhook.log_sync at 1.
  match goal with |- context [create "shopify.sync.log" ?v e] =>
    set (vals := v);
    destruct (create "shopify.sync.log" vals e) as [[r | x] e1] eqn:Hcreate;
      [| discriminate Hcreate];
    exists (Row (next_id e) (vals ∪ defaults "shopify.sync.log"));
    assert (Hlog : table "shopify.sync.log" e1
                   = table "shopify.sync.log" e
                     ++ [Row (next_id e) (vals ∪ defaults "shopify.sync.log")])
      by (change e1 with (snd (Return r, e1)); rewrite <- Hcreate; apply table_create_eq)
  end.
  split; [| repeat split].
  unfold bind.
  set (handle := if String.prefix "products/" topic then _ else _).
  assert (Hkeep : preserves (same_table "shopify.sync.log") handle).
  { unfold handle.
    repeat match goal with |- preserves _ (if ?c then _ else _) => destruct c end;
      first [ apply process_product_webhook_keeps_sync_log
            | apply process_order_webhook_keeps_sync_log
            | apply process_customer_webhook_keeps_sync_log
            | frame_go ]. }
  specialize (Hkeep e1). unfold same_table in Hkeep.
  destruct (handle e1) as [[u | x] e2]; cbn [fst snd log ret] in *;
    unfold table in *; cbn [working] in *; congruence.
Qed.

Lemma webhook_receipt_is_recorded_first_witness :
  let e := Scenario.empty_env Scenario.silent [] in
  let run := Webhook.process_webhook (fun _ => Some Scenario.shop) "products/create"
                                     Scenario.broken_product "demo.myshopify.com" e in
  fst run = Return false
  /\ exists receipt,
       table "shopify.sync.log" (snd run) = table "shopify.sync.log" e ++ [receipt]
       /\ field "status" receipt = PStr "success".
Proof.
  intros e run. split; [vm_compute; reflexivity |].
  destruct (webhook_receipt_is_recorded_first (fun _ => Some Scenario.shop) "products/create"
              Scenario.broken_product "demo.myshopify.com" Scenario.shop e eq_refl)
    as (receipt & H1 & _ & _ & _ & _ & H2 & _).
  exists receipt. split; [exact H1 | exact H2].
Defined.

Lemma not_handled topic name :
  ~ In topic handled_topics -> In name handled_topics -> String.eqb topic name = false.
Proof.
  intros Hout Hin. apply String.eqb_neq. intros ->. contradiction.
Qed.

(** X15. A webhook whose topic is not one of the seven the handlers act
    on is acknowledged with [True] and does nothing to the store beyond
    the receipt in the sync log: every other table is as before and
    nothing is written to an existing row. *)
Theorem unhandled_topic_is_acknowledged_only
    (resolve : string -> option instance) (topic : string) (data : pyval)
    (shopify_domain : string) (inst : instance) (e : env) :
  resolve shopify_domain = Some inst ->
  ~ In topic handled_topics ->
  let run := Webhook.process_webhook resolve topic data shopify_domain e in
  fst run = Return true
  /\ journal (snd run) = journal e
  /\ (forall model, model <> "shopify.sync.log" -> table model (snd run) = table model e).
Proof.
  intros Hinst Hout. cbv zeta. unfold Webhook.process_webhook. rewrite Hinst.
  unfold Webhook._process_product_webhook, Webhook._process_order_webhook,
         Webhook._process_customer_webhook.
  rewrite !(not_handled topic _ Hout) by (cbn; tauto).
  cbn [orb].
  unfold try_except, bind, Webhook.log_sync.
  repeat match goal with |- context [if ?c then _ else _] => destruct c end;
    cbn [create log ret fst snd journal];
    (split; [reflexivity |]; split; [reflexivity |]);
    intros model Hmodel; unfold table; cbn [working];
    rewrite lookup_insert_ne by congruence; reflexivity.
Qed.

Lemma unhandled_topic_is_acknowledged_only_witness :
  let e := Scenario.empty_env Scenario.silent [] in
  fst (Webhook.process_webhook (fun _ => Some Scenario.shop) "orders/paid"
                               (Scenario.order 1) "demo.myshopify.com" e) = Return true
  /\ table "sale.order"
       (snd (Webhook.process_webhook (fun _ => Some Scenario.shop) "orders/paid"
                                     (Scenario.order 1) "demo.myshopify.com" e)) = [].
Proof.
  intros e.
  assert (Hout : ~ In "orders/paid" handled_topics).
  { cbn. intros H. repeat destruct H as [H | H]; try discriminate H. exact H. }
  destruct (unhandled_topic_is_acknowledged_only (fun _ => Some Scenario.shop) "orders/paid"
              (Scenario.order 1) "demo.myshopify.com" Scenario.shop e eq_refl Hout)
    as (H1 & _ & H2).
  split; [exact H1 |]. rewrite H2 by discriminate. reflexivity.
Defined.

Lemma field_write_row_other id vals k r :
  vals !! k = None -> field k (write_row id vals r) = field k r.
Proof.
  intros Hk. unfold write_row. destruct (Nat.eqb_spec (row_id r) id); [| reflexivity].
  unfold field. cbn [row_vals]. rewrite lookup_union_r by exact Hk. reflexivity.
Qed.

Lemma row_id_write_row id vals r : row_id (write_row id vals r) = row_id r.
Proof.
  unfold write_row. destruct (Nat.eqb_spec (row_id r) id) as [-> |]; reflexivity.
Qed.

(** X16. [products/delete] removes nothing: the product table keeps its
    rows and their ids. The product found under the key is marked
    inactive; every field other than [active] of every row is as before,
    so the product stays findable under its key; no other table is
    touched. With no product under the key the store is left as it is. *)
Theorem product_delete_webhook_deactivates
    (data : pyval) (inst : instance) (e : env) (pid : pyval) :
  index "id" data = Return pid ->
  let run := Webhook._process_product_webhook "products/delete" data inst e in
  let before := table "product.template" e in
  let after := table "product.template" (snd run) in
  fst run = Return tt
  /\ List.map row_id after = List.map row_id before
  /\ List.map (matches (Product.product_key pid inst)) after
     = List.map (matches (Product.product_key pid inst)) before
  /\ (forall k, k <> "active" -> List.map (field k) after = List.map (field k) before)
  /\ (forall model, model <> "product.template" -> table model (snd run) = table model e)
  /\ match head (List.filter (matches (Product.product_key pid inst)) before) with
     | Some r => Forall (fun r' => row_id r' = row_id r -> field "active" r' = PBool false) after
     | None => snd run = e
     end.
Proof.
  intros Hid. cbv zeta. unfold Webhook._process_product_webhook.
  cbn [String.eqb Ascii.eqb Bool.eqb orb andb]. unfold bind, lift. rewrite Hid. unfold search.
  destruct (head _) as [r |] eqn:Hhead.
  - rewrite !table_write_eq.
    split; [reflexivity |]. rewrite !List.map_map.
    split; [apply List.map_ext; intros; apply row_id_write_row |].
    split.
    { apply List.map_ext. intros r0. unfold matches, Product.product_key.
      cbn [forallb fst snd]. rewrite !field_write_row_other by reflexivity. reflexivity. }
    split.
    { intros k Hk. rewrite List.map_map. apply List.map_ext. intros r0.
      apply field_write_row_other. apply lookup_singleton_ne. congruence. }
    split.
    { intros model Hmodel. apply table_write_ne. exact Hmodel. }
    apply written_rows_carry. apply lookup_singleton_eq.
  - cbn [ret fst snd]. repeat split.
Qed.

Lemma product_delete_webhook_deactivates_witness :
  let e := Scenario.with_table "product.template"
             [Row 4 (list_to_map [ ("shopify_product_id", PStr "77");
                                   ("shopify_instance_id", id_val 1);
                                   ("active", PBool true) ])]
             (Scenario.empty_env Scenario.silent []) in
  let run := Webhook._process_product_webhook "products/delete" (Scenario.product 77 "Mug")
                                              Scenario.shop e in
  List.map row_id (table "product.template" (snd run)) = [4%nat]
  /\ List.map (field "active") (table "product.template" (snd run)) = [PBool false].
Proof.
  intros e run.
  pose proof (product_delete_webhook_deactivates (Scenario.product 77 "Mug") Scenario.shop e
                (PInt 77) eq_refl) as (_ & H1 & _).
  split; [exact H1 | vm_compute; reflexivity].
Defined.

(** ** Batches and the ends of an import *)

Lemma chunks_aux_spec {A} (n : nat) :
  n <> 0%nat ->
  forall (fuel : nat) (l : list A), (List.length l <= fuel)%nat ->
    concat (chunks_aux fuel n l) = l
    /\ Forall (fun c => c <> [] /\ (List.length c <= n)%nat) (chunks_aux fuel n l).
Proof.
  intros Hn. induction fuel as [| fuel IH]; intros l Hl.
  - destruct l; [split; [reflexivity | constructor] | cbn in Hl; lia].
  - destruct l as [| a l]; [split; [reflexivity | constructor] |].
    cbn [chunks_aux].
    destruct (IH (drop n (a :: l))) as [Hcat Hall].
    { rewrite length_drop. cbn [List.length] in *. lia. }
    split.
    + cbn [concat]. rewrite Hcat. apply take_drop.
    + constructor; [| exact Hall]. split.
      * destruct n; [lia | discriminate].
      * rewrite length_take. lia.
Qed.

(** X17. The batches of a page partition it: put one after the other
    they give back the page, record by record and in order, so that no
    record is dropped or processed twice; no batch is empty and none is
    longer than the batch size. *)
Theorem batches_partition_the_page {A} (batch_size : nat) (records : list A) :
  batch_size <> 0%nat ->
  concat (chunks batch_size records) = records
  /\ Forall (fun batch => batch <> [] /\ (List.length batch <= batch_size)%nat)
            (chunks batch_size records).
Proof.
  intros Hn. unfold chunks. apply chunks_aux_spec; [exact Hn | lia].
Qed.

Lemma batches_partition_the_page_witness :
  concat (chunks 2 [1; 2; 3; 4; 5]%nat) = [1; 2; 3; 4; 5]%nat.
Proof.
  exact (proj1 (batches_partition_the_page 2 [1; 2; 3; 4; 5]%nat ltac:(discriminate))).
Defined.

(** X18. When the first page request is answered with a status other
    than 200, the product import raises a [UserError] that carries the
    status and the response text, after that one request: nothing is
    stored, written or committed. *)
Theorem product_import_reports_http_error
    (fuel : nat) (inst : instance) (batch_size : nat) (e : env) :
  let first_request :=
    Request (inst_base_url inst ++ "/products.json") {[ "limit" := PInt 250 ]} in
  status_code (upstream e first_request) <> 200 ->
  let run := Product.import_shopify_products (S fuel) inst batch_size e in
  fst run
  = Raise (UserError ("Error importing products: "
                      ++ ("Failed to fetch products: "
                          ++ pretty (status_code (upstream e first_request))
                          ++ " - " ++ text (upstream e first_request))))
  /\ http_log (snd run) = http_log e ++ [first_request]
  /\ working (snd run) = working e
  /\ committed (snd run) = committed e
  /\ journal (snd run) = journal e.
Proof.
  intros first_request Hstatus run.
  eassert (Hrun : run = _).
  { unfold run, Product.import_shopify_products, try_except, bind at 1.
    cbn [Product.products_loop truthy]. unfold bind at 1.
    cbn [log fst snd]. unfold bind at 1. cbn [requests_get fst snd upstream].
    fold first_request.
    rewrite (proj2 (Z.eqb_neq _ _) Hstatus).
    cbn [negb raise log bind ret fst snd]. reflexivity. }
  rewrite Hrun. cbn. repeat split.
Qed.

Lemma product_import_reports_http_error_witness :
  let e := Scenario.empty_env (fun _ => Response 503 (Return PNone) "Service Unavailable" None) [] in
  let run := Product.import_shopify_products 5 Scenario.shop 25 e in
  succeeds (fst run) = false
  /\ List.length (http_log (snd run)) = 1%nat
  /\ working (snd run) = working e.
Proof.
  intros e run.
  pose proof (product_import_reports_http_error 4 Scenario.shop 25 e ltac:(discriminate))
    as (H1 & H2 & H3 & _).
  fold run in H1, H2, H3.
  split; [rewrite H1; reflexivity |]. split; [rewrite H2; reflexivity | exact H3].
Defined.

(** X19. When the first page comes back with status 200 and a body that
    is an object with nothing under [products] (the key is missing, or
    its value is empty or [null]), the import makes that one request,
    creates and changes no record of any other model, and still stamps
    the instance with the time of the run; it reports zero fetched,
    created and updated. *)
Theorem product_import_of_empty_shop
    (fuel : nat) (inst : instance) (batch_size : nat) (e : env) (products : pyval) :
  let first_request :=
    Request (inst_base_url inst ++ "/products.json") {[ "limit" := PInt 250 ]} in
  status_code (upstream e first_request) = 200 ->
  page_of "products" (upstream e first_request) = Return products ->
  truthy products = false ->
  let run := Product.import_shopify_products (S fuel) inst batch_size e in
  fst run = Return (Some (Product.Totals 0 0 0))
  /\ http_log (snd run) = http_log e ++ [first_request]
  /\ journal (snd run)
     = journal e ++ [("shopify.instance", inst_id inst, {[ "last_product_sync" := PStr (clock e) ]})]
  /\ next_id (snd run) = next_id e
  /\ (forall model, model <> "shopify.instance" -> table model (snd run) = table model e).
Proof.
  intros first_request Hstatus Hpage Hnone run.
  set (Q := fun r : result (option Product.totals) * env =>
              fst r = Return (Some (Product.Totals 0 0 0))
              /\ http_log (snd r) = http_log e ++ [first_request]
              /\ journal (snd r)
                 = journal e
                   ++ [("shopify.instance", inst_id inst,
                        {[ "last_product_sync" := PStr (clock e) ]})]
              /\ next_id (snd r) = next_id e
              /\ (forall model, model <> "shopify.instance" ->
                    table model (snd r) = table model e)).
  change (Q run).
  unfold run, Product.import_shopify_products, try_except, bind at 1.
  cbn [Product.products_loop truthy]. unfold bind at 1.
  cbn [log fst snd]. unfold bind at 1. cbn [requests_get fst snd upstream].
  fold first_request. rewrite Hstatus. cbn [Z.eqb Pos.eqb negb].
  unfold bind at 1, lift. rewrite Hpage, Hnone.
  unfold Q. cbn [negb raise log bind ret fst snd write datetime_now
                 http_log journal next_id clock].
  repeat split.
  intros model Hmodel. unfold table. cbn [working].
  apply (f_equal (default [])). apply lookup_insert_ne. congruence.
Qed.

Lemma product_import_of_empty_shop_witness :
  let e := Scenario.empty_env Scenario.silent [] in
  fst (Product.import_shopify_products 5 Scenario.shop 25 e)
  = Return (Some (Product.Totals 0 0 0)).
Proof.
  intros e.
  exact (proj1 (product_import_of_empty_shop 4 Scenario.shop 25 e (PList [])
                  eq_refl eq_refl eq_refl)).
Defined.

(** A body that is not an object is no empty shop: the import raises. *)
Example product_import_of_a_bare_list :
  let e := Scenario.empty_env (fun _ => Response 200 (Return (PList [])) "" None) [] in
  fst (Product.import_shopify_products 5 Scenario.shop 25 e)
  = Raise (UserError "Error importing products: 'list' object has no attribute 'get'").
Proof. vm_compute. reflexivity. Qed.

(** ** The customer and the products of an order *)

Lemma get_truthy_index (k : string) (d : dict) :
  truthy (get k d) = true ->
  truthy (PDict d) = true /\ index k (PDict d) = Return (get k d).
Proof.
  unfold get. cbn [index]. destruct (assoc k d) as [x |] eqn:Hk; [| discriminate].
  intros _. split; [| reflexivity].
  destruct d; [discriminate | reflexivity].
Qed.

Lemma get_or_create_customer_found data inst e p :
  truthy (get "id" data) = true ->
  head (List.filter (matches (Partner.customer_key (get "id" data) inst))
                    (table "res.partner" e)) = Some p ->
  Order._get_or_create_customer (PDict data) inst e = (Return p, e).
Proof.
  intros Hid Hhead. destruct (get_truthy_index "id" data Hid) as [Hdata Hindex].
  unfold Order._get_or_create_customer. rewrite Hdata. cbn [negb].
  unfold bind at 1. cbn [lift as_dict]. rewrite Hid.
  unfold bind, lift. rewrite Hindex. unfold search. rewrite Hhead. reflexivity.
Qed.

(** After a write of values that satisfy a key nobody satisfied, the
    first row under the key is one of the rows written to. *)
Lemma head_after_keyed_write key id vals (t : list row) (partner : row) :
  List.filter (matches key) t = [] ->
  In partner t -> row_id partner = id ->
  (forall r, matches key (Row id (vals ∪ row_vals r)) = true) ->
  exists p', head (List.filter (matches key) (List.map (write_row id vals) t)) = Some p'
             /\ row_id p' = id.
Proof.
  intros Hnone Hin Hid Hkey. induction t as [| a t IH]; [destruct Hin |].
  cbn [List.filter] in Hnone. cbn [List.map List.filter].
  destruct (Nat.eqb_spec (row_id a) id) as [Ha | Ha].
  - replace (write_row id vals a) with (Row id (vals ∪ row_vals a))
      by (unfold write_row; rewrite (proj2 (Nat.eqb_eq _ _) Ha); reflexivity).
    rewrite Hkey. eexists. split; reflexivity.
  - replace (write_row id vals a) with a
      by (unfold write_row; rewrite (proj2 (Nat.eqb_neq _ _) Ha); reflexivity).
    destruct (matches key a); [discriminate |].
    apply IH; [exact Hnone |]. destruct Hin as [-> | Hin]; [contradiction | exact Hin].
Qed.

Lemma get_or_create_customer_leaves_it_keyed data inst e p :
  truthy (get "id" data) = true ->
  fst (Order._get_or_create_customer (PDict data) inst e) = Return p ->
  exists q,
    head (List.filter (matches (Partner.customer_key (get "id" data) inst))
            (table "res.partner" (snd (Order._get_or_create_customer (PDict data) inst e)))) = Some q
    /\ row_id q = row_id p.
Proof.
  intros Hid.
  destruct (get_truthy_index "id" data Hid) as [Hdata Hindex].
  set (key := Partner.customer_key (get "id" data) inst).
  set (Q := fun r : result row * env =>
              fst r = Return p ->
              exists q, head (List.filter (matches key) (table "res.partner" (snd r))) = Some q
                        /\ row_id q = row_id p).
  change (Q (Order._get_or_create_customer (PDict data) inst e)).
  unfold Order._get_or_create_customer. rewrite Hdata. cbn [negb].
  unfold bind at 1. cbn [lift as_dict]. rewrite Hid.
  unfold bind at 1. unfold bind at 1. unfold lift at 1. rewrite Hindex.
  unfold search at 1. fold key.
  destruct (head (List.filter (matches key) (table "res.partner" e)))
    as [partner |] eqn:Hhead.
  - unfold Q. cbn [ret fst snd]. intros Hret. inversion Hret; subst partner.
    exists p. split; [exact Hhead | reflexivity].
  - assert (Hnone : List.filter (matches key) (table "res.partner" e) = []).
    { destruct (List.filter _ _); [reflexivity | discriminate]. }
    assert (Hnew : Q ((let* customer_vals := Partner._prepare_customer_vals (PDict data) inst in
                       create "res.partner" customer_vals) e)).
    { unfold Q, bind.
      destruct (Partner._prepare_customer_vals (PDict data) inst e) as [[vals | x] e2] eqn:Hprep;
        [| discriminate].
      assert (Hvals : fst (Partner._prepare_customer_vals (PDict data) inst e) = Return vals)
        by (rewrite Hprep; reflexivity).
      pose proof (pure_run _ e vals (prepare_customer_vals_pure (PDict data) inst) Hvals) as Hpure.
      rewrite Hprep in Hpure. inversion Hpure; subst e2.
      destruct (prepare_customer_vals_key (PDict data) inst e vals (get "id" data) Hvals Hindex)
        as [Hk1 Hk2].
      cbn [create fst]. intros Hp. inversion Hp; subst p.
      eexists. split; [| reflexivity].
      rewrite table_create_eq, List.filter_app, Hnone.
      cbn [List.filter app]. unfold key.
      rewrite (customer_key_matches (get "id" data) inst _ vals _ Hk1 Hk2). reflexivity. }
    destruct (truthy (get "email" data)) eqn:Hemail.
    + destruct (get_truthy_index "email" data Hemail) as [_ Hmail].
      unfold bind at 1. unfold lift at 1. rewrite Hmail. unfold search at 1.
      unfold bind at 1. cbv beta iota.
      destruct (head (List.filter (matches [("email", get "email" data)])
                                  (table "res.partner" e))) as [partner |] eqn:Hby_email;
        [| exact Hnew].
      unfold bind at 1. unfold lift at 1. cbv beta iota.
      unfold bind at 1.
      match goal with |- context [write "res.partner" ?i ?v e] =>
        set (vals := v);
        change (Q (ret partner (snd (write "res.partner" i vals e))))
      end.
      unfold Q. cbn [ret fst snd]. intros Hret. inversion Hret; subst partner.
      rewrite table_write_eq.
      apply (head_after_keyed_write key (row_id p) vals (table "res.partner" e) p Hnone
               (head_filter_in _ _ _ Hby_email) eq_refl).
      intros r. apply customer_key_matches; reflexivity.
    + exact Hnew.
Qed.

(** X20. The customer of an order is resolved once: when the payload
    names the customer by id and the lookup returns a partner, whether it
    found one by id, adopted one by e-mail or created one, a second lookup
    with the same payload returns the partner with the same database id
    and leaves the store as it is. No second partner is created. *)
Theorem order_customer_is_resolved_once
    (data : dict) (inst : instance) (e : env) :
  truthy (get "id" data) = true ->
  succeeds (fst (Order._get_or_create_customer (PDict data) inst e)) = true ->
  let e1 := snd (Order._get_or_create_customer (PDict data) inst e) in
  exists p p',
    fst (Order._get_or_create_customer (PDict data) inst e) = Return p
    /\ Order._get_or_create_customer (PDict data) inst e1 = (Return p', e1)
    /\ row_id p' = row_id p.
Proof.
  intros Hid Hret e1.
  destruct (succeeds_return _ Hret) as [p Hp].
  destruct (get_or_create_customer_leaves_it_keyed data inst e p Hid Hp) as (q & Hq & Hrow).
  exists p, q. split; [exact Hp |]. split; [| exact Hrow].
  apply get_or_create_customer_found; assumption.
Qed.

Lemma order_customer_is_resolved_once_witness :
  let e := Scenario.empty_env Scenario.silent [] in
  let e1 := snd (Order._get_or_create_customer (Scenario.customer 5 "ada@example.com")
                                                Scenario.shop e) in
  List.length (table "res.partner" e1) = 1%nat
  /\ exists p p',
       fst (Order._get_or_create_customer (Scenario.customer 5 "ada@example.com")
                                          Scenario.shop e) = Return p
       /\ Order._get_or_create_customer (Scenario.customer 5 "ada@example.com")
                                        Scenario.shop e1 = (Return p', e1)
       /\ row_id p' = row_id p.
Proof.
  intros e e1. split; [vm_compute; reflexivity |].
  exact (order_customer_is_resolved_once (Scenario.customer_fields 5 "ada@example.com")
           Scenario.shop e eq_refl ltac:(vm_compute; reflexivity)).
Defined.

Lemma get_or_create_product_by_id item inst e p :
  truthy (get "product_id" item) = true ->
  head (List.filter (matches (Product.product_key (get "product_id" item) inst))
                    (table "product.template" e)) = Some p ->
  Order._get_or_create_product (PDict item) inst e = (Return (Some p), e).
Proof.
  intros H1 H2. unfold Order._get_or_create_product. unfold bind at 1.
  cbn [lift as_dict]. unfold bind. rewrite H1.
  unfold search. rewrite H2. reflexivity.
Qed.

Lemma get_or_create_product_by_sku item inst e p :
  truthy (get "product_id" item) = false
  \/ head (List.filter (matches (Product.product_key (get "product_id" item) inst))
                       (table "product.template" e)) = None ->
  truthy (get "sku" item) = true ->
  head (List.filter (matches [("default_code", get "sku" item)])
                    (table "product.template" e)) = Some p ->
  Order._get_or_create_product (PDict item) inst e = (Return (Some p), e).
Proof.
  intros H1 H2 H3. unfold Order._get_or_create_product. unfold bind at 1.
  cbn [lift as_dict]. unfold bind.
  destruct (truthy (get "product_id" item)).
  - destruct H1 as [H1 | H1]; [discriminate |].
    unfold search at 1. rewrite H1. cbv beta iota. rewrite H2.
    unfold search. rewrite H3. reflexivity.
  - cbn [ret]. rewrite H2. unfold search. rewrite H3. reflexivity.
Qed.

Lemma head_none_filter_nil {A} (f : A -> bool) (l : list A) :
  head (List.filter f l) = None -> List.filter f l = [].
Proof. destruct (List.filter f l); [reflexivity | discriminate]. Qed.

Lemma head_filter_after_create model (f : row -> bool) vals e :
  List.filter f (table model e) = [] ->
  f (Row (next_id e) (vals ∪ defaults model)) = true ->
  head (List.filter f (table model (snd (create model vals e))))
  = Some (Row (next_id e) (vals ∪ defaults model)).
Proof.
  intros Hnone Hnew. rewrite table_create_eq, List.filter_app, Hnone.
  cbn [List.filter app]. rewrite Hnew. reflexivity.
Qed.

(** X21. The product of an order line is resolved once: for a line that
    carries a product id, or a SKU that is a non-empty string, a lookup
    that returns yields a product, and a second lookup with the same line
    returns that very product and leaves the store as it is, whether the
    first one found the product by id, by SKU, or created it. *)
Theorem line_product_is_resolved_once (item : dict) (inst : instance) (e : env) :
  truthy (get "product_id" item) = true
  \/ (exists s, get "sku" item = PStr s /\ s <> "") ->
  succeeds (fst (Order._get_or_create_product (PDict item) inst e)) = true ->
  let e1 := snd (Order._get_or_create_product (PDict item) inst e) in
  exists p,
    fst (Order._get_or_create_product (PDict item) inst e) = Return (Some p)
    /\ Order._get_or_create_product (PDict item) inst e1 = (Return (Some p), e1).
Proof.
  intros Hnamed.
  set (Q := fun r : result (option row) * env =>
              succeeds (fst r) = true ->
              exists p, fst r = Return (Some p)
                        /\ Order._get_or_create_product (PDict item) inst (snd r)
                           = (Return (Some p), snd r)).
  change (Q (Order._get_or_create_product (PDict item) inst e)).
  unfold Order._get_or_create_product. unfold bind at 1. cbn [lift as_dict].
  unfold bind at 1.
  set (key := Product.product_key (get "product_id" item) inst).
  assert (Hleaf : forall by_id_none :
              truthy (get "product_id" item) = false
              \/ List.filter (matches key) (table "product.template" e) = [],
            truthy (get "sku" item) = false
            \/ List.filter (matches [("default_code", get "sku" item)])
                           (table "product.template" e) = [] ->
            forall vals : gmap string pyval,
              vals !! "shopify_product_id"
              = Some (if truthy (get "product_id" item)
                      then PStr (Py.str (get "product_id" item)) else PBool false) ->
              vals !! "shopify_instance_id" = Some (id_val (inst_id inst)) ->
              vals !! "default_code" = Some (py_or (get "sku" item) (PStr "")) ->
              Q (try_except
                   (let* product := create "product.template" vals in
                    log "info" "Created product from order line";;
                    ret (Some product))
                   (fun x => log "error" ("Error creating product: " ++ exn_str x);; ret None)
                   e)).
  { intros Hid Hsku vals Hv1 Hv2 Hv3. unfold Q, try_except, bind.
    cbn [create log ret fst snd]. intros _.
    eexists. split; [reflexivity |].
    match goal with |- Order._get_or_create_product (PDict item) inst ?e' = _ =>
      assert (Htab : table "product.template" e'
                     = table "product.template" (snd (create "product.template" vals e)))
        by reflexivity
    end.
    destruct (truthy (get "product_id" item)) eqn:Hpid.
    - destruct Hid as [Hid | Hid]; [discriminate |].
      apply get_or_create_product_by_id; [exact Hpid |].
      rewrite Htab. apply head_filter_after_create; [exact Hid |].
      apply product_key_matches; assumption.
    - destruct Hnamed as [Hn | (s & Hs & Hne)]; [discriminate |].
      assert (Htruthy : truthy (get "sku" item) = true).
      { rewrite Hs. cbn. destruct (String.eqb_spec s ""); [contradiction | reflexivity]. }
      destruct Hsku as [Hsku | Hsku]; [congruence |].
      apply get_or_create_product_by_sku; [left; exact Hpid | exact Htruthy |].
      rewrite Htab. apply head_filter_after_create; [exact Hsku |].
      unfold matches, field. cbn [forallb fst snd row_vals andb].
      rewrite (lookup_union_Some_l _ _ _ _ Hv3). unfold py_or. rewrite Htruthy, Hs.
      cbn. rewrite String.eqb_refl. reflexivity. }
  assert (Hcreate : forall by_id_none :
              truthy (get "product_id" item) = false
              \/ List.filter (matches key) (table "product.template" e) = [],
            truthy (get "sku" item) = false
            \/ List.filter (matches [("default_code", get "sku" item)])
                           (table "product.template" e) = [] ->
            Q ((let* price := lift (float_or 0 (get_default "price" (PStr "0") item)) in
                try_except
                  (let* product :=
                     create "product.template"
                       (list_to_map
                          [ ("name", py_or (get "title" item)
                                           (py_or (get "name" item) (PStr "Unknown Product")));
                            ("default_code", py_or (get "sku" item) (PStr ""));
                            ("list_price", PFloat price);
                            ("type", PStr "consu");
                            ("shopify_instance_id", id_val (inst_id inst));
                            ("shopify_product_id",
                               if truthy (get "product_id" item)
                               then PStr (Py.str (get "product_id" item)) else PBool false);
                            ("is_shopify_product", PBool true) ]) in
                   log "info" "Created product from order line";;
                   ret (Some product))
                  (fun x => log "error" ("Error creating product: " ++ exn_str x);; ret None))
                 e)).
  { intros Hid Hsku. unfold bind at 1, lift.
    destruct (float_or 0 _) as [price | x]; [| unfold Q; cbn; discriminate].
    apply (Hleaf Hid Hsku); reflexivity. }
  destruct (truthy (get "product_id" item)) eqn:Hpid.
  - unfold search at 1. fold key.
    destruct (head (List.filter (matches key) (table "product.template" e)))
      as [p |] eqn:Hby_id.
    + unfold Q. cbn [ret fst snd]. intros _. exists p. split; [reflexivity |].
      apply get_or_create_product_by_id; assumption.
    + unfold bind at 1.
      destruct (truthy (get "sku" item)) eqn:Hsku.
      * unfold search at 1.
        destruct (head (List.filter (matches [("default_code", get "sku" item)])
                                    (table "product.template" e))) as [p |] eqn:Hby_sku.
        -- unfold Q. cbn [ret fst snd]. intros _. exists p. split; [reflexivity |].
           apply get_or_create_product_by_sku; [right; exact Hby_id | exact Hsku | exact Hby_sku].
        -- apply Hcreate; right; apply head_none_filter_nil; assumption.
      * cbn [ret]. apply Hcreate; [right; apply head_none_filter_nil; assumption | left; reflexivity].
  - cbn [ret]. unfold bind at 1.
    destruct (truthy (get "sku" item)) eqn:Hsku.
    + unfold search at 1.
      destruct (head (List.filter (matches [("default_code", get "sku" item)])
                                  (table "product.template" e))) as [p |] eqn:Hby_sku.
      * unfold Q. cbn [ret fst snd]. intros _. exists p. split; [reflexivity |].
        apply get_or_create_product_by_sku; [left; exact Hpid | exact Hsku | exact Hby_sku].
      * apply Hcreate; [left; reflexivity | right; apply head_none_filter_nil; assumption].
    + cbn [ret]. apply Hcreate; left; reflexivity.
Qed.

Lemma line_product_is_resolved_once_witness :
  let item : dict := [("title", PStr "Mug"); ("price", PStr "8.00"); ("sku", PStr "MUG")] in
  let e := Scenario.empty_env Scenario.silent [] in
  let e1 := snd (Order._get_or_create_product (PDict item) Scenario.shop e) in
  List.length (table "product.template" e1) = 1%nat
  /\ exists p,
       fst (Order._get_or_create_product (PDict item) Scenario.shop e) = Return (Some p)
       /\ Order._get_or_create_product (PDict item) Scenario.shop e1 = (Return (Some p), e1).
Proof.
  intros item e e1. split; [vm_compute; reflexivity |].
  apply (line_product_is_resolved_once item Scenario.shop e).
  - right. exists "MUG". split; [reflexivity | discriminate].
  - vm_compute. reflexivity.
Defined.

(** ** Price rules, imported again *)

Lemma with_prerequisites_keeps data (vals vals' : gmap string pyval) e k :
  k <> "prerequisite_subtotal_range" -> k <> "prerequisite_quantity_range" ->
  fst (Discount.with_prerequisites data vals e) = Return vals' ->
  vals' !! k = vals !! k.
Proof.
  intros H1 H2. unfold Discount.with_prerequisites, bind, lift, ret.
  destruct (truthy (get_default "prerequisite_subtotal_range" _ _));
    destruct (truthy (get_default "prerequisite_quantity_range" _ _));
    repeat match goal with
      | |- context [as_dict ?x] => destruct (as_dict x)
      | |- context [Py.float ?x] => destruct (Py.float x)
      | |- context [Py.int ?x] => destruct (Py.int x)
      end;
    cbn [fst snd]; intros H; inversion H; subst;
    rewrite ?lookup_insert_ne by congruence; reflexivity.
Qed.

Lemma with_entitled_keeps key data (vals vals' : gmap string pyval) k :
  k <> key -> Discount.with_entitled key data vals = Return vals' ->
  vals' !! k = vals !! k.
Proof.
  intros Hk. unfold Discount.with_entitled.
  destruct (truthy _); [destruct (iterate _); [| discriminate] |];
    intros H; inversion H; subst; [| reflexivity].
  apply lookup_insert_ne. congruence.
Qed.

Lemma with_dates_keeps data (vals : gmap string pyval) e k :
  k <> "starts_at" -> k <> "ends_at" -> k <> "shopify_created_at" -> k <> "shopify_updated_at" ->
  exists vals', Discount.with_dates data vals e = (Return vals', e) /\ vals' !! k = vals !! k.
Proof.
  intros K1 K2 K3 K4. unfold Discount.with_dates, bind.
  destruct (add_date_spec "starts_at" "starts_at" data vals e) as (v1 & -> & H1).
  destruct (add_date_spec "ends_at" "ends_at" data v1 e) as (v2 & -> & H2).
  destruct (add_date_spec "shopify_created_at" "created_at" data v2 e) as (v3 & -> & H3).
  destruct (add_date_spec "shopify_updated_at" "updated_at" data v3 e) as (v4 & -> & H4).
  exists v4. split; [reflexivity |].
  rewrite H4, H3, H2, H1 by assumption. reflexivity.
Qed.

(** What a run of the mapper that returns does: one write to the first
    row under the key, or one create, with values that carry the key. *)
Lemma create_or_update_discount_shape company_currency (data : dict) inst e :
  succeeds (fst (Discount._create_or_update_discount company_currency (PDict data) inst e)) = true ->
  exists (vals : gmap string pyval) (e1 : env),
    vals !! "shopify_price_rule_id" = Some (PStr (Py.str (get "id" data)))
    /\ vals !! "shopify_instance_id" = Some (PInt (Z.of_nat (inst_id inst)))
    /\ table "shopify.discount" e1 = table "shopify.discount" e
    /\ match head (List.filter (matches (discount_key data inst))
                               (table "shopify.discount" e)) with
       | Some r0 =>
           Discount._create_or_update_discount company_currency (PDict data) inst e
           = (Return (Row (row_id r0) (vals ∪ row_vals r0)),
              snd (write "shopify.discount" (row_id r0) vals e1))
       | None =>
           Discount._create_or_update_discount company_currency (PDict data) inst e
           = (Return (Row (next_id e1) (vals ∪ defaults "shopify.discount")),
              snd (create "shopify.discount" vals e1))
       end.
Proof.
  unfold Discount._create_or_update_discount, bind, search, lift.
  cbn [as_dict]. fold (discount_key data inst).
  destruct (Py.float (get_default "value" (PFloat 0) data)) as [raw | x];
    [| cbn; discriminate].
  destruct (fetch_discount_code_spec inst (Py.str (get "id" data)) e)
    as (code & e1 & -> & Htab & _).
  match goal with
  | |- context [Discount.with_prerequisites data ?v e1] =>
      set (vals0 := v);
      pose proof (with_prerequisites_keeps data v) as Hp_keep;
      destruct (with_prerequisites_spec data v e1) as (Hp_env & _ & _)
  end.
  assert (Hk1 : vals0 !! "shopify_price_rule_id" = Some (PStr (Py.str (get "id" data))))
    by reflexivity.
  assert (Hk2 : vals0 !! "shopify_instance_id" = Some (PInt (Z.of_nat (inst_id inst))))
    by reflexivity.
  fold vals0 in Hp_env, Hp_keep. clearbody vals0.
  destruct (Discount.with_prerequisites data vals0 e1) as [[vals1 | x] e2] eqn:Hpre;
    cbn [fst snd] in *; [| discriminate]. subst e2.
  assert (Hpre1 : fst (Discount.with_prerequisites data vals0 e1) = Return vals1)
    by (rewrite Hpre; reflexivity).
  destruct (Discount.with_entitled "entitled_product_ids" data vals1)
    as [vals1' | x] eqn:Hprod; [| cbn; discriminate].
  destruct (Discount.with_entitled "entitled_collection_ids" data vals1')
    as [vals2 | x] eqn:Hcoll; [| cbn; discriminate].
  assert (Hk1' : vals2 !! "shopify_price_rule_id" = Some (PStr (Py.str (get "id" data)))).
  { rewrite (with_entitled_keeps "entitled_collection_ids" _ _ _ "shopify_price_rule_id"
               ltac:(discriminate) Hcoll).
    rewrite (with_entitled_keeps "entitled_product_ids" _ _ _ "shopify_price_rule_id"
               ltac:(discriminate) Hprod).
    rewrite (Hp_keep vals1 e1 "shopify_price_rule_id") by (discriminate || exact Hpre1).
    exact Hk1. }
  assert (Hk2' : vals2 !! "shopify_instance_id" = Some (PInt (Z.of_nat (inst_id inst)))).
  { rewrite (with_entitled_keeps "entitled_collection_ids" _ _ _ "shopify_instance_id"
               ltac:(discriminate) Hcoll).
    rewrite (with_entitled_keeps "entitled_product_ids" _ _ _ "shopify_instance_id"
               ltac:(discriminate) Hprod).
    rewrite (Hp_keep vals1 e1 "shopify_instance_id") by (discriminate || exact Hpre1).
    exact Hk2. }
  clear Hprod Hcoll. intros _.
  destruct (with_dates_spec data vals2 e1) as (vals3 & Hdates & _).
  destruct (with_dates_keeps data vals2 e1 "shopify_price_rule_id") as (v & Hv & Hk1'');
    try discriminate.
  destruct (with_dates_keeps data vals2 e1 "shopify_instance_id") as (v' & Hv' & Hk2'');
    try discriminate.
  rewrite Hdates in Hv, Hv'. inversion Hv; inversion Hv'; subst v v'.
  rewrite Hdates.
  exists vals3, e1.
  split; [congruence |]. split; [congruence |]. split; [exact Htab |].
  destruct (head _); reflexivity.
Qed.

Lemma create_or_update_discount_bare company_currency data inst e :
  is_dict data = false ->
  fst (Discount._create_or_update_discount company_currency data inst e)
  = Raise (no_attribute data "get").
Proof. destruct data; intros H; try discriminate H; reflexivity. Qed.

Lemma discount_key_matches (data : dict) inst n (vals rest : gmap string pyval) :
  vals !! "shopify_price_rule_id" = Some (PStr (Py.str (get "id" data))) ->
  vals !! "shopify_instance_id" = Some (PInt (Z.of_nat (inst_id inst))) ->
  matches (discount_key data inst) (Row n (vals ∪ rest)) = true.
Proof.
  intros H1 H2. apply matches_key_eqb; simpl; apply lookup_union_Some_l; assumption.
Qed.

(** After a write of values that satisfy the key to the first row under
    it, the first row under the key has the same id. *)
Lemma head_after_rewrite key vals (t : list row) (r0 : row) :
  head (List.filter (matches key) t) = Some r0 ->
  (forall r, matches key (Row (row_id r0) (vals ∪ row_vals r)) = true) ->
  exists q, head (List.filter (matches key) (List.map (write_row (row_id r0) vals) t)) = Some q
            /\ row_id q = row_id r0.
Proof.
  intros Hhead Hkey. induction t as [| a t IH]; [discriminate |].
  cbn [List.filter] in Hhead. cbn [List.map List.filter].
  destruct (Nat.eqb_spec (row_id a) (row_id r0)) as [Ha | Ha].
  - replace (write_row (row_id r0) vals a) with (Row (row_id r0) (vals ∪ row_vals a))
      by (unfold write_row; rewrite (proj2 (Nat.eqb_eq _ _) Ha); reflexivity).
    rewrite Hkey. eexists. split; reflexivity.
  - replace (write_row (row_id r0) vals a) with a
      by (unfold write_row; rewrite (proj2 (Nat.eqb_neq _ _) Ha); reflexivity).
    destruct (matches key a).
    + cbn in Hhead. inversion Hhead; subst a. contradiction.
    + apply IH. exact Hhead.
Qed.

(** X22. A price rule imported twice is stored once: when both runs of
    the mapper return, the second one finds the row the first one wrote
    or created, returns a row with the same database id and adds none to
    the discount table; the first run adds at most one. *)
Theorem price_rule_is_stored_once
    (company_currency : nat) (data : pyval) (inst : instance) (e : env) :
  let run1 := Discount._create_or_update_discount company_currency data inst e in
  let run2 := Discount._create_or_update_discount company_currency data inst (snd run1) in
  succeeds (fst run1) = true ->
  succeeds (fst run2) = true ->
  (exists r1 r2, fst run1 = Return r1 /\ fst run2 = Return r2 /\ row_id r2 = row_id r1)
  /\ List.length (table "shopify.discount" (snd run2))
     = List.length (table "shopify.discount" (snd run1))
  /\ (List.length (table "shopify.discount" (snd run1))
      <= S (List.length (table "shopify.discount" e)))%nat.
Proof.
  intros run1 run2 H1 H2.
  destruct (is_dict data) eqn:Hdict.
  2:{ unfold run1 in H1.
      rewrite (create_or_update_discount_bare company_currency data inst e Hdict) in H1.
      discriminate H1. }
  destruct data as [| | | | | | data]; try discriminate Hdict. clear Hdict.
  destruct (create_or_update_discount_shape company_currency data inst e H1)
    as (vals & e1 & Hk1 & Hk2 & Htab & Hshape).
  destruct (create_or_update_discount_shape company_currency data inst (snd run1) H2)
    as (vals' & e1' & Hk1' & Hk2' & Htab' & Hshape').
  fold run1 in Hshape. fold run2 in Hshape'.
  assert (Hfirst : exists r1 q,
             fst run1 = Return r1
             /\ head (List.filter (matches (discount_key data inst))
                                  (table "shopify.discount" (snd run1))) = Some q
             /\ row_id q = row_id r1
             /\ (List.length (table "shopify.discount" (snd run1))
                 <= S (List.length (table "shopify.discount" e)))%nat).
  { destruct (head (List.filter (matches (discount_key data inst))
                                (table "shopify.discount" e))) as [r0 |] eqn:Hhead.
    - rewrite Hshape. cbn [fst snd]. rewrite table_write_eq, Htab.
      destruct (head_after_rewrite (discount_key data inst) vals _ r0 Hhead) as (q & Hq & Hrow).
      { intros r. apply discount_key_matches; assumption. }
      exists (Row (row_id r0) (vals ∪ row_vals r0)), q.
      split; [reflexivity |]. split; [exact Hq |]. split; [exact Hrow |].
      rewrite List.length_map. lia.
    - rewrite Hshape. cbn [fst snd].
      exists (Row (next_id e1) (vals ∪ defaults "shopify.discount")),
             (Row (next_id e1) (vals ∪ defaults "shopify.discount")).
      split; [reflexivity |]. split.
      + apply head_filter_after_create.
        * rewrite Htab. apply head_none_filter_nil. exact Hhead.
        * apply discount_key_matches; assumption.
      + split; [reflexivity |].
        rewrite table_create_eq, List.length_app, Htab. cbn. lia. }
  destruct Hfirst as (r1 & q & Hr1 & Hq & Hrow & Hlen).
  rewrite Hq in Hshape'.
  split; [| split; [| exact Hlen]].
  - exists r1, (Row (row_id q) (vals' ∪ row_vals q)).
    split; [exact Hr1 |]. split; [rewrite Hshape'; reflexivity | exact Hrow].
  - rewrite Hshape'. cbn [snd]. rewrite table_write_eq, Htab', List.length_map. reflexivity.
Qed.

Lemma price_rule_is_stored_once_witness :
  let e := Scenario.empty_env Scenario.silent [] in
  let run1 := Discount._create_or_update_discount 1 (PDict (Scenario.price_rule "percentage" "-15.0"))
                                                  Scenario.shop e in
  let run2 := Discount._create_or_update_discount 1 (PDict (Scenario.price_rule "percentage" "-15.0"))
                                                  Scenario.shop (snd run1) in
  List.length (table "shopify.discount" (snd run1)) = 1%nat
  /\ List.length (table "shopify.discount" (snd run2))
     = List.length (table "shopify.discount" (snd run1)).
Proof.
  intros e run1 run2. split; [vm_compute; reflexivity |].
  exact (proj1 (proj2 (price_rule_is_stored_once 1 (PDict (Scenario.price_rule "percentage" "-15.0"))
                         Scenario.shop e ltac:(vm_compute; reflexivity)
                         ltac:(vm_compute; reflexivity)))).
Defined.

(** ** Text: the Link header and the shop address *)

Lemma append_cons (x : ascii) (a b : string) :
  (String x a ++ b = String x (a ++ b))%string.
Proof. reflexivity. Qed.

Lemma append_assoc' (a b c : string) : ((a ++ b) ++ c = a ++ (b ++ c))%string.
Proof.
  induction a as [| x a IH]; [reflexivity |].
  rewrite !append_cons, IH. reflexivity.
Qed.

Lemma append_nil_r' (a : string) : (a ++ "" = a)%string.
Proof.
  induction a as [| x a IH]; [reflexivity |]. rewrite append_cons, IH. reflexivity.
Qed.

Lemma prefix_append (a b : string) : String.prefix a (a ++ b) = true.
Proof.
  induction a as [| x a IH]; [destruct b; reflexivity |].
  rewrite append_cons. cbn [String.prefix].
  destruct (ascii_dec x x); [exact IH | contradiction].
Qed.

Lemma split_aux_skip sep (a b : string) cur :
  split_aux sep (a ++ b) (String.length a) cur = split_aux sep b 0 cur.
Proof.
  induction a as [| x a IH]; [reflexivity |].
  rewrite append_cons. cbn [String.length split_aux]. exact IH.
Qed.

Lemma split_aux_match (c0 : ascii) (sep' b cur : string) :
  split_aux (String c0 sep') (String c0 sep' ++ b) 0 cur
  = cur :: split_aux (String c0 sep') b 0 "".
Proof.
  pose proof (prefix_append (String c0 sep') b) as Hp.
  rewrite append_cons in Hp |- *. cbn [split_aux]. rewrite Hp.
  replace (String.length (String c0 sep') - 1)%nat with (String.length sep')
    by (cbn [String.length]; lia).
  apply f_equal, split_aux_skip.
Qed.

Lemma split_aux_free sep (a rest : string) : forall cur,
  free_of sep a rest = true ->
  split_aux sep (a ++ rest) 0 cur = split_aux sep rest 0 (cur ++ a).
Proof.
  induction a as [| x a IH]; intros cur Hfree.
  - rewrite append_nil_r'. reflexivity.
  - cbn [free_of] in Hfree. apply andb_prop in Hfree as [Hhere Hfree].
    apply negb_true_iff in Hhere.
    rewrite append_cons in Hhere |- *. cbn [split_aux].
    rewrite Hhere, (IH _ Hfree), append_assoc'. reflexivity.
Qed.

(** Up to the first occurrence of the separator. *)
Lemma split_first (c0 : ascii) (sep' a b : string) :
  free_of (String c0 sep') a (String c0 sep' ++ b) = true ->
  split (String c0 sep') (a ++ String c0 sep' ++ b) = a :: split (String c0 sep') b.
Proof.
  intros Hfree. unfold split. rewrite (split_aux_free _ _ _ _ Hfree), split_aux_match.
  reflexivity.
Qed.

(** A text without the separator is one piece. *)
Lemma split_none sep (a : string) :
  free_of sep a "" = true -> split sep a = [a].
Proof.
  intros Hfree. unfold split.
  rewrite <- (append_nil_r' a) at 1. rewrite (split_aux_free _ _ _ _ Hfree). reflexivity.
Qed.

Lemma first_next_link_skips (before : list string) (rest : list string) :
  Forall (fun l => contains rel_next l = false) before ->
  first_next_link (before ++ rest) = first_next_link rest.
Proof.
  induction 1 as [| l before Hl _ IH]; [reflexivity |].
  cbn [app first_next_link]. rewrite Hl. exact IH.
Qed.

(** X23. The cursor of a next link is read back as it was written. For
    a link [pre page_info=tok> post] in which [page_info=] first occurs
    after [pre] and not again, and [tok] holds no [>]: the token
    extracted is [tok]; in a header of several links the first one that
    carries [rel="next"] decides, whatever follows it; and a header that
    is this one link sends the loop round again with [tok] as the
    cursor. *)
Theorem next_link_token_is_read_back (pre tok post : string) :
  let link := (pre ++ "page_info=" ++ tok ++ ">" ++ post)%string in
  free_of "page_info=" pre ("page_info=" ++ tok ++ ">" ++ post) = true ->
  free_of "page_info=" (tok ++ ">" ++ post) "" = true ->
  free_of ">" tok (">" ++ post) = true ->
  contains rel_next link = true ->
  extract_page_info link = Return tok
  /\ (forall before after,
        Forall (fun l => contains rel_next l = false) before ->
        first_next_link (before ++ link :: after) = Return (Some tok))
  /\ (free_of "," link "" = true ->
      forall status body txt page_info,
        next_page (Response status body txt (Some link)) page_info = Return (Some (PStr tok))).
Proof.
  intros link Hpre Honce Htok Hnext.
  assert (Hextract : extract_page_info link = Return tok).
  { unfold extract_page_info, link.
    rewrite (split_first "p" "age_info=" pre _ Hpre).
    rewrite (split_none "page_info=" _ Honce).
    rewrite (split_first ">" "" tok post Htok). reflexivity. }
  assert (Hfirst : forall after, first_next_link (link :: after) = Return (Some tok)).
  { intros after. cbn [first_next_link]. rewrite Hnext, Hextract. reflexivity. }
  split; [exact Hextract |]. split.
  - intros before after Hbefore. rewrite first_next_link_skips by exact Hbefore. apply Hfirst.
  - intros Hsingle status body txt page_info. unfold next_page.
    cbn [link_header default from_option id]. unfold id.
    rewrite Hnext, (split_none "," link Hsingle), Hfirst. reflexivity.
Qed.

Lemma next_link_token_is_read_back_witness :
  extract_page_info (Scenario.next_link "products" "p2") = Return "p2"
  /\ first_next_link [ "<https://demo.myshopify.com/x?page_info=p1>; rel=prev";
                       Scenario.next_link "products" "p2" ] = Return (Some "p2").
Proof.
  pose proof (next_link_token_is_read_back
                "<https://demo.myshopify.com/admin/api/2024-01/products.json?limit=250&"
                "p2" ("; " ++ rel_next)
                ltac:(vm_compute; reflexivity) ltac:(vm_compute; reflexivity)
                ltac:(vm_compute; reflexivity) ltac:(vm_compute; reflexivity))
    as (H1 & H2 & _).
  split; [exact H1 |].
  apply (H2 ["<https://demo.myshopify.com/x?page_info=p1>; rel=prev"] []).
  repeat constructor.
Defined.

Lemma replace_aux_skip old new (a b : string) :
  replace_aux old new (a ++ b) (String.length a) = replace_aux old new b 0.
Proof.
  induction a as [| x a IH]; [reflexivity |].
  rewrite append_cons. cbn [String.length replace_aux]. exact IH.
Qed.

Lemma replace_aux_free old new (a rest : string) :
  free_of old a rest = true ->
  replace_aux old new (a ++ rest) 0 = (a ++ replace_aux old new rest 0)%string.
Proof.
  induction a as [| x a IH]; intros Hfree; [reflexivity |].
  cbn [free_of] in Hfree. apply andb_prop in Hfree as [Hhere Hfree].
  apply negb_true_iff in Hhere.
  rewrite append_cons in Hhere. rewrite !append_cons. cbn [replace_aux].
  rewrite Hhere, (IH Hfree). reflexivity.
Qed.

Lemma replace_aux_match (c0 : ascii) (old' new b : string) :
  replace_aux (String c0 old') new (String c0 old' ++ b) 0
  = (new ++ replace_aux (String c0 old') new b 0)%string.
Proof.
  pose proof (prefix_append (String c0 old') b) as Hp.
  rewrite append_cons in Hp |- *. cbn [replace_aux]. rewrite Hp.
  replace (String.length (String c0 old') - 1)%nat with (String.length old')
    by (cbn [String.length]; lia).
  apply f_equal, replace_aux_skip.
Qed.

Lemma replace_suffix (c0 : ascii) (old' new a : string) :
  free_of (String c0 old') a (String c0 old') = true ->
  replace (String c0 old') new (a ++ String c0 old') = (a ++ new)%string.
Proof.
  intros Hfree. unfold replace. rewrite (replace_aux_free _ _ _ _ Hfree).
  f_equal. rewrite <- (append_nil_r' (String c0 old')) at 2.
  rewrite replace_aux_match. apply append_nil_r'.
Qed.

Lemma replace_absent old new (a : string) :
  free_of old a "" = true -> replace old new a = a.
Proof.
  intros Hfree. unfold replace.
  rewrite <- (append_nil_r' a) at 1. rewrite (replace_aux_free _ _ _ _ Hfree).
  cbn [replace_aux]. apply append_nil_r'.
Qed.

(** X24. The base address does not depend on whether the shop was
    entered with or without its [.myshopify.com] suffix: for a shop name
    in which the suffix does not occur and that has no blanks around it,
    both spellings give [https://name.myshopify.com/admin/api/version]. *)
Theorem base_url_accepts_both_spellings (shop api_version : string) :
  free_of ".myshopify.com" shop ".myshopify.com" = true ->
  free_of ".myshopify.com" shop "" = true ->
  Partner.strip shop = shop ->
  _get_base_url shop api_version
  = ("https://" ++ shop ++ ".myshopify.com/admin/api/" ++ api_version)%string
  /\ _get_base_url (shop ++ ".myshopify.com") api_version = _get_base_url shop api_version.
Proof.
  intros Hsuffix Hplain Hstrip. unfold _get_base_url.
  rewrite (replace_suffix "." "myshopify.com" "" shop Hsuffix).
  rewrite (replace_absent ".myshopify.com" "" shop Hplain).
  rewrite append_nil_r', Hstrip. split; reflexivity.
Qed.

Lemma base_url_accepts_both_spellings_witness :
  _get_base_url "mystore.myshopify.com" "2024-01"
  = "https://mystore.myshopify.com/admin/api/2024-01".
Proof.
  destruct (base_url_accepts_both_spellings "mystore" "2024-01" eq_refl eq_refl eq_refl)
    as [H1 H2].
  exact (eq_trans H2 H1).
Defined.

(** [strip] takes the no-break space and the unit separator with it. *)
Example strip_takes_every_blank :
  Partner.strip (String (ascii_of_nat 160) ("mystore" ++ String (ascii_of_nat 31) ""))
  = "mystore".
Proof. reflexivity. Qed.

(** ** The sub-syncs of a run and the payment status *)

Lemma run_sub_syncs_accounts outcome self blocks : forall errors success_messages,
  List.length (fst (Scheduler.run_sub_syncs outcome self blocks errors success_messages))
  = (List.length errors + List.length (List.filter (fails outcome) (enabled self blocks)))%nat
  /\ List.length (snd (Scheduler.run_sub_syncs outcome self blocks errors success_messages))
     = (List.length success_messages
        + List.length (List.filter (fun b => negb (fails outcome b)) (enabled self blocks)))%nat.
Proof.
  induction blocks as [| [[flag ok] prefix] blocks IH]; intros errors success_messages.
  - cbn. split; lia.
  - cbn [Scheduler.run_sub_syncs enabled List.filter fst snd].
    fold (enabled self blocks).
    destruct (truthy (field flag self)).
    + cbn [List.filter].
      assert (Hf : fails outcome (flag, ok, prefix)
                   = match outcome flag with Some _ => true | None => false end)
        by reflexivity.
      rewrite !Hf. clear Hf.
      destruct (outcome flag) as [text |]; cbn [negb].
      * destruct (IH (errors ++ [(prefix ++ text)%string]) success_messages) as [H1 H2].
        rewrite H1, H2, ?List.length_app. cbn [List.length]. split; lia.
      * destruct (IH errors (success_messages ++ [ok])) as [H1 H2].
        rewrite H1, H2, ?List.length_app. cbn [List.length]. split; lia.
    + apply IH.
Qed.

(** X25. Every sub-sync that is switched on is run and accounted for
    once, whatever happened to the ones before it: the errors are as many
    as the enabled sub-syncs that fail, the success messages as many as
    those that do not. The status follows: [success] when none fails,
    also when none is enabled; [failed] when some fail and none succeeds;
    [partial] otherwise. *)
Theorem every_enabled_sub_sync_is_accounted_for
    (outcome : string -> option string) (self : row) :
  let r := Scheduler.run_sub_syncs outcome self Scheduler.sub_syncs [] [] in
  let failed := List.filter (fails outcome) (enabled self Scheduler.sub_syncs) in
  let passed := List.filter (fun b => negb (fails outcome b)) (enabled self Scheduler.sub_syncs) in
  List.length (fst r) = List.length failed
  /\ List.length (snd r) = List.length passed
  /\ (List.length (fst r) + List.length (snd r)
      = List.length (enabled self Scheduler.sub_syncs))%nat
  /\ run_status None (fst r) (snd r)
     = match failed, passed with
       | [], _ => "success"
       | _ :: _, [] => "failed"
       | _ :: _, _ :: _ => "partial"
       end.
Proof.
  intros r failed passed.
  destruct (run_sub_syncs_accounts outcome self Scheduler.sub_syncs [] []) as [H1 H2].
  fold r in H1, H2. fold failed in H1. fold passed in H2. cbn [List.length plus] in H1, H2.
  split; [exact H1 |]. split; [exact H2 |]. split.
  - rewrite H1, H2. unfold failed, passed.
    generalize (enabled self Scheduler.sub_syncs). intros l.
    induction l as [| b l IH]; [reflexivity |].
    cbn [List.filter]. destruct (fails outcome b); cbn [negb List.length]; lia.
  - unfold run_status.
    destruct (fst r), (snd r), failed, passed; try discriminate; reflexivity.
Qed.

Lemma status_in_spec x statuses :
  Payment.status_in x statuses = true <-> exists v, In v statuses /\ Py.eqb (PStr x) v = true.
Proof. unfold Payment.status_in. apply List.existsb_exists. Qed.

Lemma status_in_permutation x (l l' : list pyval) :
  Permutation l l' -> Payment.status_in x l = Payment.status_in x l'.
Proof.
  intros Hp. apply eq_true_iff_eq. rewrite !status_in_spec.
  split; intros (v & Hv & Hx); exists v; (split; [| exact Hx]).
  - eapply Permutation_in; eassumption.
  - eapply Permutation_in; [symmetry |]; eassumption.
Qed.

Lemma filter_permutation {A} (f : A -> bool) (l l' : list A) :
  Permutation l l' -> Permutation (List.filter f l) (List.filter f l').
Proof.
  induction 1 as [| a l l' _ IH | a b l | l l' l'' _ IH1 _ IH2].
  - constructor.
  - cbn [List.filter]. destruct (f a); [constructor |]; exact IH.
  - cbn [List.filter]. destruct (f a), (f b); try reflexivity. constructor.
  - etransitivity; eassumption.
Qed.

(** X26. The payment status of an order is one of [pending], [paid],
    [refunded] and [authorized], whatever its transactions hold. It does
    not depend on the order in which the transactions are stored. One
    transaction with status [paid] or [success] makes it [paid], whatever
    the others say, a refund included. *)
Theorem payment_status_is_one_of_four (order_id : nat) (e : env) :
  In (Payment._compute_payment_status order_id e) ["pending"; "paid"; "refunded"; "authorized"]
  /\ (forall e',
        Permutation (table "shopify.payment.transaction" e)
                    (table "shopify.payment.transaction" e') ->
        Payment._compute_payment_status order_id e'
        = Payment._compute_payment_status order_id e)
  /\ (forall t,
        In t (Payment.shopify_transaction_ids order_id e) ->
        field "status" t = PStr "paid" \/ field "status" t = PStr "success" ->
        Payment._compute_payment_status order_id e = "paid").
Proof.
  split; [| split].
  - unfold Payment._compute_payment_status.
    destruct (Payment.shopify_transaction_ids order_id e); [cbn; tauto |].
    repeat match goal with |- context [if ?c then _ else _] => destruct c end; cbn; tauto.
  - intros e' Hperm.
    assert (Hids : Permutation (Payment.shopify_transaction_ids order_id e)
                               (Payment.shopify_transaction_ids order_id e'))
      by (apply filter_permutation; exact Hperm).
    unfold Payment._compute_payment_status.
    pose proof (Permutation_length Hids) as Hlen.
    pose proof (Permutation_map (field "status") Hids) as Hst.
    destruct (Payment.shopify_transaction_ids order_id e) as [| t ts],
             (Payment.shopify_transaction_ids order_id e') as [| t' ts'];
      try discriminate; [reflexivity |].
    rewrite !(status_in_permutation _ _ _ Hst). reflexivity.
  - intros t Ht Hstatus. unfold Payment._compute_payment_status.
    destruct (Payment.shopify_transaction_ids order_id e) as [| t0 ts] eqn:Hts;
      [destruct Ht |].
    assert (Hin : Payment.status_in "paid" (List.map (field "status") (t0 :: ts)) = true
                  \/ Payment.status_in "success" (List.map (field "status") (t0 :: ts)) = true).
    { destruct Hstatus as [Hs | Hs]; [left | right];
        apply status_in_spec; exists (field "status" t);
        (split; [apply List.in_map; exact Ht | rewrite Hs; reflexivity]). }
    destruct Hin as [-> | ->]; [| rewrite Bool.orb_true_r]; reflexivity.
Qed.

(** ** The customer import fetches first *)

Lemma customers_loop_only_fetches fuel url : forall params page_info all_customers e,
  params !! "limit" = Some (PInt 250) ->
  same_store e (snd (Partner.customers_loop fuel url params page_info all_customers e))
  /\ exists new,
       http_log (snd (Partner.customers_loop fuel url params page_info all_customers e))
       = http_log e ++ new
       /\ Forall (fun rq => req_url rq = url /\ req_params rq !! "limit" = Some (PInt 250)) new.
Proof.
  induction fuel as [| fuel IH]; intros params page_info all_customers e Hlimit.
  - cbn. split; [repeat split |]. exists []. rewrite List.app_nil_r. split; constructor.
  - set (P := fun r : result (option (list pyval)) * env =>
                same_store e (snd r)
                /\ exists new,
                     http_log (snd r) = http_log e ++ new
                     /\ Forall (fun rq => req_url rq = url
                                          /\ req_params rq !! "limit" = Some (PInt 250)) new).
    change (P (Partner.customers_loop (S fuel) url params page_info all_customers e)).
    cbn [Partner.customers_loop].
    set (params' := if truthy page_info then <["page_info" := page_info]> params else params).
    assert (Hlimit' : params' !! "limit" = Some (PInt 250)).
    { unfold params'. destruct (truthy page_info); [| exact Hlimit].
      rewrite lookup_insert_ne by discriminate. exact Hlimit. }
    clearbody params'. unfold bind at 1. cbn [requests_get fst snd].
    set (e1 := Env (working e) (committed e) (next_id e) (commit_faults e) (upstream e)
                   (date_parse e) (clock e) (http_log e ++ [Request url params'])
                   (logger e) (journal e)).
    assert (Hstop : forall r : result (option (list pyval)), P (r, e1)).
    { intros r. split; [repeat split |]. exists [Request url params'].
      split; [reflexivity |].
      constructor; [split; [reflexivity | exact Hlimit'] | constructor]. }
    unfold raise, ret.
    destruct (negb (status_code (upstream e (Request url params')) =? 200)); [apply Hstop |].
    unfold bind at 1, lift.
    destruct (page_of "customers" (upstream e (Request url params')))
      as [customers | x]; [| apply Hstop].
    destruct (negb (truthy customers)); [apply Hstop |].
    unfold bind at 1.
    destruct (iterate customers) as [fetched | x]; [| apply Hstop].
    unfold bind at 1.
    destruct (next_page (upstream e (Request url params')) page_info) as [[p |] | x];
      try apply Hstop.
    destruct (IH params' p (all_customers ++ fetched) e1 Hlimit') as (Hs & new & Hlog & Hall).
    split.
    + destruct Hs as (H1 & H2 & H3 & H4 & H5). repeat split; assumption.
    + exists (Request url params' :: new). split.
      * rewrite Hlog. unfold e1. cbn [http_log].
        rewrite <- List.app_assoc. reflexivity.
      * constructor; [split; [reflexivity | exact Hlimit'] | exact Hall].
Qed.

(** X27. The customer import fetches every page before it stores a
    record. While it fetches it only talks to the upstream: tables,
    committed state, journal and logger stay as they are, and every
    request goes to the customers address with [limit] 250, the
    follow-up requests included. A failure while fetching therefore ends
    the import with a [UserError] and with no partner created or
    written, however many pages had been read. *)
Theorem customer_import_fetches_before_it_stores (fuel : nat) (inst : instance) (e : env) :
  let url := (inst_base_url inst ++ "/customers.json")%string in
  let fetch := Partner.customers_loop fuel url {[ "limit" := PInt 250 ]} PNone [] e in
  let run := Partner.import_shopify_customers fuel inst e in
  same_store e (snd fetch)
  /\ (exists new,
        http_log (snd fetch) = http_log e ++ new
        /\ Forall (fun rq => req_url rq = url /\ req_params rq !! "limit" = Some (PInt 250)) new)
  /\ (forall x, fst fetch = Raise x ->
        fst run = Raise (UserError ("Error importing customers: " ++ exn_str x))
        /\ working (snd run) = working e
        /\ committed (snd run) = committed e
        /\ journal (snd run) = journal e
        /\ http_log (snd run) = http_log (snd fetch)).
Proof.
  intros url fetch run.
  destruct (customers_loop_only_fetches fuel url {[ "limit" := PInt 250 ]} PNone [] e
              (lookup_singleton_eq _ _)) as [Hstore Hlog].
  fold fetch in Hstore, Hlog.
  split; [exact Hstore |]. split; [exact Hlog |].
  intros x Hx.
  assert (Hfetch : Partner.customers_loop fuel url {[ "limit" := PInt 250 ]} PNone [] e
                   = (Raise x, snd fetch)).
  { fold fetch. rewrite <- Hx. destruct fetch; reflexivity. }
  assert (Hrun : run = (Raise (UserError ("Error importing customers: " ++ exn_str x)),
                        snd (log "error" ("Error importing customers: " ++ exn_str x)
                                 (snd fetch)))).
  { unfold run, Partner.import_shopify_customers, try_except, bind at 1.
    fold url. rewrite Hfetch. reflexivity. }
  rewrite Hrun. cbn [fst snd log working committed journal http_log].
  destruct Hstore as (H1 & H2 & _ & H4 & _).
  repeat split; (assumption || reflexivity).
Qed.
